(** * Merchant withdrawal reports: a shallow embedding of the Express server

    The repository is a small Node.js service.  [src/server.js] is the
    server: two panels of rows kept in memory, reports written as
    workbooks, uploads and reports recorded in MongoDB.  The file
    [src/models/UploadedFile.js] holds, after the schema, the text of two
    more servers: one that keeps a single dataset and validates its
    inputs, and one that differs from [src/server.js] only in taking the
    panel from [req.query.id] and in having no database.  The first two
    are embedded here:

    - [JS]       the part of the JavaScript runtime the handlers rely on
                 (numbers are IEEE binary64, so primitive floats; strings;
                 [parseFloat]; [Number.prototype.toFixed]; [Date]);
    - [Http]     requests, responses and the surroundings of a request;
    - [Server]   [src/server.js];
    - [Embedded] the single-dataset server of [src/models/UploadedFile.js].

    Handlers are state-passing functions: they take the process state and
    a request and return the next state and the HTTP response.  A string
    holds its text in UTF-8: one byte for an ASCII character, which is
    all the text of dates and numbers, and two to four bytes for any
    other character.  Where JavaScript counts or compares UTF-16 code
    units, the functions below do so on the UTF-8 bytes. *)

From Stdlib Require Import ZArith Floats String Ascii List Bool Lia.
From Stdlib Require Import DecimalString Sorted Permutation.
From stdpp Require Import base option list gmap strings.

Local Open Scope string_scope.
Local Open Scope Z_scope.

(** ** The JavaScript runtime *)

Module JS.

(** *** Values

    The values a parsed spreadsheet cell or a query parameter can be.  A
    [VDate] carries the time value of a [Date] object, [None] for an
    invalid date. *)
Inductive value :=
| VUndef
| VNull
| VBool (b : bool)
| VNum (f : float)
| VStr (s : string)
| VDate (tv : option Z).

(** The values [JSON.parse] builds, which is what a field of
    [req.body] holds when it is there.  An object is the list of the
    members of its text, in the order of the text; an array is the list
    of its elements. *)
#[local] Set Warnings "-register-all".
Inductive jsonValue :=
| JNull
| JBool (b : bool)
| JNum (f : float)
| JStr (s : string)
| JArr (items : list jsonValue)
| JObj (props : list (string * jsonValue)).

(** A plain object: its own enumerable string-keyed properties in
    enumeration order. *)
Definition obj := list (string * value).

Fixpoint get (o : obj) (k : string) : value :=
  match o with
  | [] => VUndef
  | (k', v) :: o' => if String.eqb k' k then v else get o' k
  end.

(** [o[k] = v] and the entry [k: v] of an object literal, for a key
    that is not an array index: an existing key keeps its place, a new
    key goes last. *)
Fixpoint set (o : obj) (k : string) (v : value) : obj :=
  match o with
  | [] => [(k, v)]
  | (k', v') :: o' =>
      if String.eqb k' k then (k', v) :: o' else (k', v') :: set o' k v
  end.

Definition hasOwnProperty (o : obj) (k : string) : bool :=
  existsb (fun kv => String.eqb (fst kv) k) o.

Definition keys (o : obj) : list string := map fst o.

(** [ToBoolean]. *)
Definition truthy (v : value) : bool :=
  match v with
  | VUndef | VNull => false
  | VBool b => b
  | VNum f => negb (PrimFloat.is_nan f || PrimFloat.is_zero f)
  | VStr s => negb (String.eqb s "")
  | VDate _ => true
  end.

(** [a || b]. *)
Definition or_else (a b : value) : value := if truthy a then a else b.

(** [a === b] with a string on the right. *)
Definition strict_eq_str (v : value) (s : string) : bool :=
  match v with
  | VStr t => String.eqb t s
  | _ => false
  end.

(** *** Exceptions and completions *)

Inductive exn :=
| RangeError (msg : string)
| TypeError (msg : string).

Definition message (e : exn) : string :=
  match e with RangeError m | TypeError m => m end.

Inductive completion (A : Type) :=
| Normal (a : A)
| Throw (e : exn).
Arguments Normal {A} a.
Arguments Throw {A} e.

#[global] Instance completion_ret : MRet completion := fun A a => Normal a.

#[global] Instance completion_bind : MBind completion := fun A B k c =>
  match c with
  | Normal a => k a
  | Throw e => Throw e
  end.

(** [xs.map(f)] for an [f] that may throw: stops at the first exception. *)
Fixpoint mapC {A B} (f : A -> completion B) (xs : list A) : completion (list B) :=
  match xs with
  | [] => Normal []
  | x :: xs' => y ← f x; ys ← mapC f xs'; Normal (y :: ys)
  end.

(** *** Strings *)

Definition is_digit (c : ascii) : bool :=
  let n := N_of_ascii c in (48 <=? n)%N && (n <=? 57)%N.

Definition digit_val (c : ascii) : Z := Z.of_N (N_of_ascii c) - 48.

(** The rank of a byte in the order of UTF-16 code units.  The order of
    the bytes of UTF-8 is the order of code points, and code units order
    two characters as their code points do, except that a character
    beyond U+FFFF (lead byte F0 to F4), whose first code unit is a
    surrogate D800 to DBFF, comes before the characters U+E000 to U+FFFF
    (lead byte EE or EF).  So these two lead bytes rank above all
    others. *)
Definition unit_key (c : ascii) : N :=
  let n := N_of_ascii c in
  if (n =? 238)%N || (n =? 239)%N then (n + 256)%N else n.

(** The comparison behind [<], [<=], [>], [>=] on two strings and behind
    the default [sort]: the first code unit where they differ decides, a
    proper prefix is smaller.  Two texts in UTF-8 first differ, as bytes,
    inside the first character where they differ. *)
Fixpoint str_ltb (a b : string) : bool :=
  match a, b with
  | _, EmptyString => false
  | EmptyString, String _ _ => true
  | String x a', String y b' =>
      if (unit_key x <? unit_key y)%N then true
      else if (unit_key y <? unit_key x)%N then false
      else str_ltb a' b'
  end.

(** [a <= b] is [!(b < a)] and [a >= b] is [!(a < b)] on strings. *)
Definition str_leb (a b : string) : bool := negb (str_ltb b a).
Definition str_geb (a b : string) : bool := negb (str_ltb a b).

(** [s.slice(0, n)]. *)
Definition slice0 (n : nat) (s : string) : string := String.substring 0 n s.

(** [s.split(c)] for a one-character separator. *)
Fixpoint split_on (c : ascii) (s : string) : list string :=
  match s with
  | EmptyString => [EmptyString]
  | String x s' =>
      if Ascii.eqb x c then EmptyString :: split_on c s'
      else match split_on c s' with
           | [] => [String x EmptyString]
           | p :: ps => String x p :: ps
           end
  end.

(** Decimal digits of a non-negative integer, no sign, no leading zero. *)
Definition dec_of_Z (n : Z) : string :=
  NilZero.string_of_uint (N.to_uint (Z.to_N n)).

Fixpoint zeros (n : nat) : string :=
  match n with
  | O => EmptyString
  | S n' => String "0" (zeros n')
  end.

(** Left-pads with zeros to at least [w] characters. *)
Definition pad0 (w : nat) (s : string) : string :=
  zeros (w - String.length s) ++ s.

(** *** Numbers *)

Definition NaN : float := PrimFloat.nan.

(** The double nearest to the integer [z] (ties to even). *)
Definition F_of_Z (z : Z) : float :=
  SF2Prim (binary_normalize prec emax z 0 false).

(** Number of decimal digits of a positive integer. *)
Definition digits10 (n : Z) : Z := Z.of_nat (String.length (dec_of_Z n)).

(** The double nearest to [m * 10^e], for [m >= 0], negated when [neg].
    The quotient by a power of ten is rounded once, from its exact
    position between two doubles.  Far outside the range of doubles the
    result is decided without building the power of ten. *)
Definition dec2float (neg : bool) (m e : Z) : float :=
  match m with
  | Z0 => if neg then PrimFloat.neg_zero else PrimFloat.zero
  | Zneg _ => NaN
  | Zpos _ =>
      if 400 <? e + digits10 m then
        (if neg then PrimFloat.neg_infinity else PrimFloat.infinity)
      else if e + digits10 m <? -400 then
        (if neg then PrimFloat.neg_zero else PrimFloat.zero)
      else if 0 <=? e then
        SF2Prim (binary_normalize prec emax ((if neg then - m else m) * 10 ^ e) 0 false)
      else
        let '(q, e', l) := SFdiv_core_binary prec emax m 0 (10 ^ (- e)) 0 in
        SF2Prim (binary_round_aux prec emax neg q e' l)
  end.

(** [ToIntegerOrInfinity] on a finite double: truncation towards zero. *)
Definition truncZ (f : float) : Z :=
  match Prim2SF f with
  | S754_finite s m e =>
      let a := if 0 <=? e then Zpos m * 2 ^ e else Zpos m / 2 ^ (- e) in
      if s then - a else a
  | _ => 0
  end.

(** A finite positive double as an exact fraction [(num, den)]. *)
Definition fraction (m : positive) (e : Z) : Z * Z :=
  if 0 <=? e then (Zpos m * 2 ^ e, 1) else (Zpos m, 2 ^ (- e)).

(** **** [Number::toString]

    For a finite positive [x] the digits are the shortest decimal
    [s * 10^p] that reads back as [x], the closest one to [x] when there
    is a choice.  With [10^(n-1) <= x < 10^n] and [k] digits, the only
    candidates are the two neighbours of [x] on the grid of step
    [10^(n-k)]. *)

(** The [n] with [10^(n-1) <= num/den < 10^n], searched downwards from 0
    for a fraction below one. *)
Fixpoint magnitude_below (fuel : nat) (num den : Z) (n : Z) : Z :=
  match fuel with
  | O => n
  | S fuel' =>
      if den <=? num * 10 then n else magnitude_below fuel' (num * 10) den (n - 1)
  end.

Definition magnitude (num den : Z) : Z :=
  if den <=? num then digits10 (num / den)
  else magnitude_below 400 num den 0.

(** [floor (num/den / 10^p)] and whether the remainder is below, at or
    above one half. *)
Definition grid_floor (num den p : Z) : Z * comparison :=
  let '(a, b) := if 0 <=? p then (num, den * 10 ^ p) else (num * 10 ^ (- p), den) in
  (a / b, 2 * (a mod b) ?= b).

Fixpoint strip_zeros (fuel : nat) (s p : Z) : Z * Z :=
  match fuel with
  | O => (s, p)
  | S fuel' =>
      if (s mod 10 =? 0) && negb (s =? 0) then strip_zeros fuel' (s / 10) (p + 1)
      else (s, p)
  end.

(** The digits [s] and exponent [p] for [k] significant digits, when
    one of the two candidates reads back as [x]. *)
Definition shortest_at (x : float) (num den n k : Z) : option (Z * Z) :=
  let p := n - k in
  let '(lo, c) := grid_floor num den p in
  let ok_lo := PrimFloat.eqb (dec2float false lo p) x in
  let ok_hi := PrimFloat.eqb (dec2float false (lo + 1) p) x in
  match ok_lo, ok_hi with
  | true, true =>
      Some (match c with
            | Lt => lo
            | Gt => lo + 1
            | Eq => if Z.even lo then lo else lo + 1
            end, p)
  | true, false => Some (lo, p)
  | false, true => Some (lo + 1, p)
  | false, false => None
  end.

Fixpoint shortest_from (fuel : nat) (x : float) (num den n k : Z) : Z * Z :=
  match fuel with
  | O => (0, 0)
  | S fuel' =>
      match shortest_at x num den n k with
      | Some sp => sp
      | None => shortest_from fuel' x num den n (k + 1)
      end
  end.

(** The decimal layout of [Number::toString]: digits [s] (of which there
    are [k]) and the position [n] of the decimal point. *)
Definition layout (s n : Z) : string :=
  let ds := dec_of_Z s in
  let k := Z.of_nat (String.length ds) in
  if (k <=? n) && (n <=? 21) then ds ++ zeros (Z.to_nat (n - k))
  else if (0 <? n) && (n <=? 21) then
    String.substring 0 (Z.to_nat n) ds ++ "." ++
    String.substring (Z.to_nat n) (Z.to_nat (k - n)) ds
  else if (-6 <? n) && (n <=? 0) then "0." ++ zeros (Z.to_nat (- n)) ++ ds
  else
    let ex := (if n - 1 <? 0 then "-" else "+") ++ dec_of_Z (Z.abs (n - 1)) in
    if k =? 1 then ds ++ "e" ++ ex
    else String.substring 0 1 ds ++ "." ++
         String.substring 1 (Z.to_nat (k - 1)) ds ++ "e" ++ ex.

Definition NumberToString (x : float) : string :=
  match Prim2SF x with
  | S754_nan => "NaN"
  | S754_zero _ => "0"
  | S754_infinity s => if s then "-Infinity" else "Infinity"
  | S754_finite sg m e =>
      let '(num, den) := fraction m e in
      let n := magnitude num den in
      let '(s, p) := shortest_from 20 (PrimFloat.abs x) num den n 1 in
      let '(s', p') := strip_zeros 30 s p in
      (if sg then "-" else "") ++ layout s' (p' + digits10 s')
  end.

(** **** [Number.prototype.toFixed(2)]

    Below [10^21] the result is the integer [n] with [n / 100] closest to
    [x] (the larger one on a tie), written with two decimals. *)
Definition toFixed2 (x : float) : string :=
  match Prim2SF x with
  | S754_nan => "NaN"
  | S754_zero _ => "0.00"
  | S754_infinity s => if s then "-Infinity" else "Infinity"
  | S754_finite sg m e =>
      let '(num, den) := fraction m e in
      if 10 ^ 21 * den <=? num then NumberToString x
      else
        let n := (200 * num + den) / (2 * den) in
        let ds := pad0 3 (dec_of_Z n) in
        let l := String.length ds in
        (if sg then "-" else "") ++
        String.substring 0 (l - 2) ds ++ "." ++ String.substring (l - 2) 2 ds
  end.

(** **** [parseFloat]

    Leading white space is skipped and the longest prefix that is a
    decimal literal is read; anything after it is ignored.  White space
    is [StrWhiteSpaceChar]: the ASCII characters TAB, LF, VT, FF, CR and
    SP, and in UTF-8 the two bytes of U+00A0 and the three bytes of
    U+1680, U+2000 to U+200A, U+2028, U+2029, U+202F, U+205F, U+3000 and
    U+FEFF. *)
Definition is_space (c : ascii) : bool :=
  let n := N_of_ascii c in
  (n =? 32)%N || ((9 <=? n)%N && (n <=? 13)%N).

Definition is_space2 (c0 c1 : ascii) : bool :=
  (N_of_ascii c0 =? 194)%N && (N_of_ascii c1 =? 160)%N.

Definition is_space3 (c0 c1 c2 : ascii) : bool :=
  let '(n0, n1, n2) := (N_of_ascii c0, N_of_ascii c1, N_of_ascii c2) in
  ((n0 =? 225) && (n1 =? 154) && (n2 =? 128))%N ||
  ((n0 =? 226) && (n1 =? 128) &&
   (((128 <=? n2) && (n2 <=? 138)) || (n2 =? 168) || (n2 =? 169) || (n2 =? 175)))%N ||
  ((n0 =? 226) && (n1 =? 129) && (n2 =? 159))%N ||
  ((n0 =? 227) && (n1 =? 128) && (n2 =? 128))%N ||
  ((n0 =? 239) && (n1 =? 187) && (n2 =? 191))%N.

Fixpoint trimStart (s : string) : string :=
  match s with
  | String c0 s1 =>
      if is_space c0 then trimStart s1
      else
        match s1 with
        | String c1 s2 =>
            if is_space2 c0 c1 then trimStart s2
            else
              match s2 with
              | String c2 s3 => if is_space3 c0 c1 c2 then trimStart s3 else s
              | EmptyString => s
              end
        | EmptyString => s
        end
  | EmptyString => s
  end.

(** Reads a run of digits on top of [acc]: the value, the number of
    digits read and the rest. *)
Fixpoint read_digits (s : string) (acc n : Z) : Z * Z * string :=
  match s with
  | String c s' =>
      if is_digit c then read_digits s' (10 * acc + digit_val c) (n + 1)
      else (acc, n, s)
  | EmptyString => (acc, n, s)
  end.

(** The value of an exponent part [e], [e+] or [e-] followed by digits;
    0 when there is none or it has no digit. *)
Definition read_exponent (s : string) : Z :=
  match s with
  | String c s' =>
      if Ascii.eqb c "e" || Ascii.eqb c "E" then
        let '(neg, s'') :=
          match s' with
          | String "+" t => (false, t)
          | String "-" t => (true, t)
          | _ => (false, s')
          end in
        let '(v, n, _) := read_digits s'' 0 0 in
        if n =? 0 then 0 else if neg then - v else v
      else 0
  | EmptyString => 0
  end.

Definition read_unsigned (neg : bool) (s : string) : float :=
  if String.prefix "Infinity" s then
    (if neg then PrimFloat.neg_infinity else PrimFloat.infinity)
  else
    let '(ip, ni, r1) := read_digits s 0 0 in
    match r1 with
    | String "." r2 =>
        let '(m, nf, r3) := read_digits r2 ip 0 in
        if (ni =? 0) && (nf =? 0) then NaN
        else dec2float neg m (read_exponent r3 - nf)
    | _ => if ni =? 0 then NaN else dec2float neg ip (read_exponent r1)
    end.

Definition parseFloat_str (s : string) : float :=
  match trimStart s with
  | String "+" t => read_unsigned false t
  | String "-" t => read_unsigned true t
  | t => read_unsigned false t
  end.

(** [parseFloat(v)]: [v] is first converted to a string.  The string of
    a [Date] starts with the name of a weekday (or is [Invalid Date]),
    which has no numeric prefix. *)
Definition parseFloat (v : value) : float :=
  match v with
  | VUndef => parseFloat_str "undefined"
  | VNull => parseFloat_str "null"
  | VBool b => parseFloat_str (if b then "true" else "false")
  | VNum f => parseFloat_str (NumberToString f)
  | VStr s => parseFloat_str s
  | VDate _ => NaN
  end.

(** **** JSON values as strings and numbers

    [ToPrimitive] of an object that [JSON.parse] built.  An array has
    [Array.prototype.toString]: its elements joined by commas, a [null]
    element being empty.  Any other object has [Object.prototype.toString]
    unless it has a property [toString] of its own, which is not a
    function since it came from JSON; no other conversion being left
    ([valueOf] returns the object), a [TypeError] is thrown. *)
Fixpoint ToStringJ (v : jsonValue) : completion string :=
  match v with
  | JNull => Normal "null"
  | JBool b => Normal (if b then "true" else "false")
  | JNum f => Normal (NumberToString f)
  | JStr s => Normal s
  | JArr items =>
      (fix join (first : bool) (l : list jsonValue) : completion string :=
         match l with
         | [] => Normal ""
         | x :: l' =>
             s ← match x with JNull => Normal "" | _ => ToStringJ x end;
             r ← join false l';
             Normal ((if first then "" else ",") ++ s ++ r)
         end) true items
  | JObj props =>
      if existsb (fun kv => String.eqb (fst kv) "toString") props
      then Throw (TypeError "Cannot convert object to primitive value")
      else Normal "[object Object]"
  end.

(** [parseFloat(v)] for a field of the body. *)
Definition parseFloatJ (v : jsonValue) : completion float :=
  s ← ToStringJ v; Normal (parseFloat_str s).

(** [ToBoolean] of a field of the body; [None] is a field that is not
    there. *)
Definition truthyJ (v : option jsonValue) : bool :=
  match v with
  | None | Some JNull => false
  | Some (JBool b) => b
  | Some (JNum f) => negb (PrimFloat.is_nan f || PrimFloat.is_zero f)
  | Some (JStr s) => negb (String.eqb s "")
  | Some (JArr _) | Some (JObj _) => true
  end.

(** *** Dates

    A time value is a number of milliseconds since 1970-01-01T00:00:00Z,
    or [None] for the NaN of an invalid date. *)

Definition msPerDay : Z := 86400000.

(** ECMAScript's [DayFromYear]: the day number of 1 January of [y]. *)
Definition DayFromYear (y : Z) : Z :=
  365 * (y - 1970) + (y - 1969) / 4 - (y - 1901) / 100 + (y - 1601) / 400.

Definition InLeapYear (y : Z) : bool :=
  (y mod 4 =? 0) && (negb (y mod 100 =? 0) || (y mod 400 =? 0)).

(** [YearFromTime] on day numbers: the year whose 1 January is the last
    one not after [d].  The estimate from the mean length of a year is
    off by at most one. *)
Definition YearFromDay (d : Z) : Z :=
  let y0 := 1970 + (d * 400) / 146097 in
  if DayFromYear (y0 + 1) <=? d then y0 + 1
  else if DayFromYear y0 <=? d then y0
  else y0 - 1.

(** Days of the year before month [m] (0 = January). *)
Definition monthStart (leap : bool) (m : Z) : Z :=
  let l := if leap then 1 else 0 in
  match m with
  | 0 => 0
  | 1 => 31
  | 2 => 59 + l
  | 3 => 90 + l
  | 4 => 120 + l
  | 5 => 151 + l
  | 6 => 181 + l
  | 7 => 212 + l
  | 8 => 243 + l
  | 9 => 273 + l
  | 10 => 304 + l
  | 11 => 334 + l
  | _ => 365 + l
  end.

(** [MonthFromTime] on the day within the year. *)
Definition MonthFromDayInYear (leap : bool) (dy : Z) : Z :=
  if dy <? monthStart leap 1 then 0
  else if dy <? monthStart leap 2 then 1
  else if dy <? monthStart leap 3 then 2
  else if dy <? monthStart leap 4 then 3
  else if dy <? monthStart leap 5 then 4
  else if dy <? monthStart leap 6 then 5
  else if dy <? monthStart leap 7 then 6
  else if dy <? monthStart leap 8 then 7
  else if dy <? monthStart leap 9 then 8
  else if dy <? monthStart leap 10 then 9
  else if dy <? monthStart leap 11 then 10
  else 11.

(** Year, month (1 to 12) and day of the month of a day number. *)
Definition civil (d : Z) : Z * Z * Z :=
  let y := YearFromDay d in
  let leap := InLeapYear y in
  let dy := d - DayFromYear y in
  let m := MonthFromDayInYear leap dy in
  (y, m + 1, dy - monthStart leap m + 1).

(** [MakeDay(year, month, date)], [month] counted from 0. *)
Definition MakeDay (year month date : Z) : Z :=
  let ym := year + month / 12 in
  DayFromYear ym + monthStart (InLeapYear ym) (month mod 12) + date - 1.

(** [Date.UTC(year, month, date)] for a year outside 0..99. *)
Definition Date_UTC (year month date : Z) : Z := MakeDay year month date * msPerDay.

(** [TimeClip]: a time value is an integer of magnitude at most
    8.64e15. *)
Definition TimeClip (t : float) : option Z :=
  if PrimFloat.is_nan t || PrimFloat.is_infinity t then None
  else if (8640000000000000 <? Z.abs (truncZ t)) then None
  else Some (truncZ t).

(** The [w] low decimal digits of [n], most significant first. *)
Definition digit_char (n : Z) : ascii := ascii_of_N (48 + Z.to_N (n mod 10)).

Fixpoint digits_fixed (w : nat) (n : Z) : string :=
  match w with
  | O => EmptyString
  | S w' => String (digit_char (n / 10 ^ Z.of_nat w')) (digits_fixed w' n)
  end.

Definition two_digits (n : Z) : string := digits_fixed 2 n.

(** The year of an ISO string: four digits from 0 to 9999, otherwise a
    sign and six digits. *)
Definition iso_year (y : Z) : string :=
  if (0 <=? y) && (y <=? 9999) then digits_fixed 4 y
  else (if y <? 0 then "-" else "+") ++ digits_fixed 6 (Z.abs y).

(** [Date.prototype.toISOString]: [YYYY-MM-DDTHH:mm:ss.sssZ]; a
    [RangeError] on an invalid date. *)
Definition toISOString (tv : option Z) : completion string :=
  match tv with
  | None => Throw (RangeError "Invalid time value")
  | Some t =>
      let '(y, m, d) := civil (t / msPerDay) in
      let r := t mod msPerDay in
      Normal (iso_year y ++ "-" ++ two_digits m ++ "-" ++ two_digits d ++ "T" ++
              two_digits (r / 3600000) ++ ":" ++ two_digits (r / 60000 mod 60) ++ ":" ++
              two_digits (r / 1000 mod 60) ++ "." ++ digits_fixed 3 (r mod 1000) ++ "Z")
  end.

(** All characters are digits and there are [n] of them. *)
Definition all_digits (n : nat) (s : string) : bool :=
  Nat.eqb (String.length s) n && forallb is_digit (list_ascii_of_string s).

Definition num_of (s : string) : Z := fst (fst (read_digits s 0 0)).

(** The date-only forms of the ECMAScript date-time format, [YYYY],
    [YYYY-MM] and [YYYY-MM-DD], read as UTC.  [None]: the string has
    another shape.  [Some None]: it has this shape and a month outside
    1..12 or a day outside 1..31, which makes it an invalid date.  As in
    V8 a day up to 31 is accepted in any month and carries over. *)
Definition parse_date_only (s : string) : option (option Z) :=
  let mk (y m d : string) :=
    if (1 <=? num_of m) && (num_of m <=? 12) && (1 <=? num_of d) && (num_of d <=? 31)
    then Some (MakeDay (num_of y) (num_of m - 1) (num_of d) * msPerDay)
    else None in
  match split_on "-" s with
  | [y] => if all_digits 4 y then Some (mk y "01" "01") else None
  | [y; m] => if all_digits 4 y && all_digits 2 m then Some (mk y m "01") else None
  | [y; m; d] =>
      if all_digits 4 y && all_digits 2 m && all_digits 2 d then Some (mk y m d) else None
  | _ => None
  end.

(** [Date.parse].  Strings that are not date-only forms (date-times,
    whose reading depends on the time zone, and the formats an engine
    accepts beyond the standard one) are left to [host], the engine's
    parser. *)
Definition Date_parse (host : string -> option Z) (s : string) : option Z :=
  match parse_date_only s with
  | Some tv => tv
  | None => host s
  end.

(** [new Date(v)] for one argument: the time value of the new object. *)
Definition Date_new (host : string -> option Z) (v : value) : option Z :=
  match v with
  | VUndef => None
  | VNull => Some 0
  | VBool b => Some (if b then 1 else 0)
  | VNum f => TimeClip f
  | VStr s => Date_parse host s
  | VDate tv => tv
  end.

(** [new Date(v)] for a field of the body: an array or an object is
    first made a string, which is then parsed. *)
Definition Date_newJ (host : string -> option Z) (v : option jsonValue) : completion (option Z) :=
  match v with
  | None => Normal None
  | Some JNull => Normal (Some 0)
  | Some (JBool b) => Normal (Some (if b then 1 else 0))
  | Some (JNum f) => Normal (TimeClip f)
  | Some (JStr s) => Normal (Date_parse host s)
  | Some (JArr items) => s ← ToStringJ (JArr items); Normal (Date_parse host s)
  | Some (JObj props) => s ← ToStringJ (JObj props); Normal (Date_parse host s)
  end.

(** The test [/^\d{2}-\d{2}-\d{4}/]. *)
Definition dmy_prefix (s : string) : bool :=
  match list_ascii_of_string s with
  | d1 :: d2 :: h1 :: m1 :: m2 :: h2 :: y1 :: y2 :: y3 :: y4 :: _ =>
      is_digit d1 && is_digit d2 && Ascii.eqb h1 "-" &&
      is_digit m1 && is_digit m2 && Ascii.eqb h2 "-" &&
      is_digit y1 && is_digit y2 && is_digit y3 && is_digit y4
  | _ => false
  end.

(** [const [d, m, y] = value.split(' ')[0].split('-')] followed by the
    template [`${y}-${m}-${d}`]; a missing part reads [undefined]. *)
Definition dmy_to_ymd (s : string) : string :=
  let first := match split_on " " s with p :: _ => p | [] => EmptyString end in
  let part (i : nat) := nth i (split_on "-" first) "undefined" in
  part 2%nat ++ "-" ++ part 1%nat ++ "-" ++ part 0%nat.

(** [SameValueZero], the equality of [Set]; two [Date] objects are never
    the same object. *)
Definition same_value_zero (a b : value) : bool :=
  match a, b with
  | VUndef, VUndef | VNull, VNull => true
  | VBool x, VBool y => Bool.eqb x y
  | VNum x, VNum y => PrimFloat.eqb x y || (PrimFloat.is_nan x && PrimFloat.is_nan y)
  | VStr x, VStr y => String.eqb x y
  | _, _ => false
  end.

(** [[...new Set(xs)]]: first occurrences, in order. *)
Fixpoint dedupe (seen xs : list value) : list value :=
  match xs with
  | [] => []
  | x :: xs' =>
      if existsb (same_value_zero x) seen then dedupe seen xs'
      else x :: dedupe (x :: seen) xs'
  end.

(** [v >= s] and [v <= s] for an [s] that is the first ten characters
    of an ISO date string.  Two strings are compared as strings.  Any
    other [v] makes the comparison numeric, and [s], which is not a
    numeric literal, converts to NaN: the result is false. *)
Definition ge_iso (v : value) (s : string) : bool :=
  match v with
  | VStr d => str_geb d s
  | _ => false
  end.

Definition le_iso (v : value) (s : string) : bool :=
  match v with
  | VStr d => str_leb d s
  | _ => false
  end.

(** [m || dflt] on strings. *)
Definition or_default (m dflt : string) : string :=
  if String.eqb m "" then dflt else m.

End JS.

(** ** What the handlers share

    The server's surroundings, the requests and the responses. *)

Module Http.
Import JS.

(** What a request finds in its environment: the engine's date parser
    beyond the date-only forms, [Date.prototype.toString], the clock
    read by [Date.now()], and the rejection of the MongoDB write of the
    request, if any. *)
Record Host := {
  hostDateParse : string -> option Z;
  hostDateString : option Z -> string;
  now : Z;
  dbError : option string
}.

(** The uploaded file as multer leaves it, with [rawData], the rows
    that [XLSX.readFile] and [sheet_to_json] read from its first sheet,
    or the exception the reader throws. *)
Record File := {
  originalname : string;
  path : string;
  rawData : completion (list obj)
}.

(** An upload: [req.query.type] and [req.file]. *)
Record UploadReq := {
  u_type : value;
  u_file : option File
}.

(** A report request: [req.query.type] and the three fields read from
    the JSON body, each [None] when the body does not have it. *)
Record GenerateReq := {
  g_type : value;
  merchantPercents : option jsonValue;
  startDate : option jsonValue;
  endDate : option jsonValue
}.

Inductive body :=
| Error (error : string)
| Uploaded (merchants : list value) (count : option Z)
| Generated (summary : list obj) (downloadUrl : string) (dateRange : option string).

Record response := {
  status : Z;
  json : body
}.

Definition fail (code : Z) (msg : string) : response :=
  {| status := code; json := Error msg |}.

(** A written workbook: its sheets by name, in order. *)
Definition workbook := list (string * list obj).

(** [date.getTime()]. *)
Definition getTime (tv : option Z) : float :=
  match tv with
  | Some t => F_of_Z t
  | None => NaN
  end.

(** [parseFloat(row[col] || 0)]. *)
Definition amount (row : obj) (col : string) : float :=
  parseFloat (or_else (get row col) (VNum 0)).

(** The column [`${percent}% Amount`]. *)
Definition percentKey (percent : float) : string :=
  NumberToString percent ++ "% Amount".

(** [parseFloat(s[i])] for each index [i] of a string [s]: an index is
    a UTF-16 code unit, so a character of one to three bytes counts once
    and a character of four bytes twice.  Only an ASCII digit reads as a
    number. *)
Fixpoint unitPercents (s : string) : list float :=
  match s with
  | EmptyString => []
  | String c s' =>
      let n := N_of_ascii c in
      if (n <? 128)%N then parseFloat_str (String c EmptyString) :: unitPercents s'
      else if (n <? 192)%N then unitPercents s'
      else if (n <? 240)%N then NaN :: unitPercents s'
      else NaN :: NaN :: unitPercents s'
  end.

(** Whether a property key is an array index, which is the decimal
    text, with no leading zero, of an integer below 2^32 - 1; and the
    integer. *)
Definition arrayIndex (k : string) : option Z :=
  let '(n, digits, rest) := read_digits k 0 0 in
  if String.eqb rest "" && (0 <? digits) && String.eqb (dec_of_Z n) k &&
     (n <? 4294967295)
  then Some n else None.

(** [CreateDataProperty] on the properties made so far: a name that is
    there keeps its place and takes the new value, a new name goes
    last. *)
Fixpoint define (o : list (string * jsonValue)) (k : string) (v : jsonValue)
  : list (string * jsonValue) :=
  match o with
  | [] => [(k, v)]
  | (k', v') :: o' =>
      if String.eqb k' k then (k', v) :: o' else (k', v') :: define o' k v
  end.

Fixpoint insertIndex (n : Z) (kv : string * jsonValue)
  (l : list (Z * (string * jsonValue))) : list (Z * (string * jsonValue)) :=
  match l with
  | [] => [(n, kv)]
  | (m, kv') :: l' =>
      if n <? m then (n, kv) :: l else (m, kv') :: insertIndex n kv l'
  end.

(** The own properties of the object [JSON.parse] builds from the
    members of its text, in the order [for ... in] visits them: the
    array indices in ascending order, then the other names in the order
    they were first defined. *)
Definition ownProperties (members : list (string * jsonValue))
  : list (string * jsonValue) :=
  let o := fold_left (fun o kv => define o (fst kv) (snd kv)) members [] in
  let indexed :=
    fold_right (fun kv l => match arrayIndex (fst kv) with
                            | Some n => insertIndex n kv l
                            | None => l
                            end) [] o in
  map snd indexed ++
  List.filter (fun kv => match arrayIndex (fst kv) with
                         | Some _ => false
                         | None => true
                         end) o.

(** The keys that [for (const merchant in merchantPercents)] visits, in
    order, each with what [parseFloat(merchantPercents[merchant])]
    gives: the properties of an object, the indices of an array or of a
    string, and nothing for any other value or when the field is not
    there. *)
Definition percentsOf (mp : option jsonValue) : list (string * completion float) :=
  match mp with
  | Some (JObj members) =>
      map (fun kv => (fst kv, parseFloatJ (snd kv))) (ownProperties members)
  | Some (JArr items) => imap (fun i v => (dec_of_Z (Z.of_nat i), parseFloatJ v)) items
  | Some (JStr s) => imap (fun i p => (dec_of_Z (Z.of_nat i), Normal p)) (unitPercents s)
  | _ => []
  end.

(** The percents when none of them throws, and the first exception
    otherwise. *)
Definition readPercents (mp : option jsonValue) : completion (list (string * float)) :=
  mapC (fun kv => p ← snd kv; Normal (fst kv, p)) (percentsOf mp).

(** [new Date(d).toISOString().slice(0, 10)]. *)
Definition normalizeDate (h : Host) (d : option jsonValue) : completion string :=
  tv ← Date_newJ (hostDateParse h) d;
  iso ← toISOString tv;
  Normal (slice0 10 iso).

(** [String(v)], as the default [sort] applies it. *)
Definition ToString (h : Host) (v : value) : string :=
  match v with
  | VUndef => "undefined"
  | VNull => "null"
  | VBool b => if b then "true" else "false"
  | VNum f => NumberToString f
  | VStr s => s
  | VDate tv => hostDateString h tv
  end.

End Http.

(** ** [src/server.js] *)

Module Server.
Import JS Http.

(** The records written to MongoDB ([UploadedFile] and [Report]). *)
Record UploadedFileDoc := {
  uf_panelId : string;
  uf_originalName : string;
  uf_filePath : string;
  uf_merchants : list value;
  uf_data : list obj
}.

Record ReportDoc := {
  r_panelId : string;
  r_startDate : string;
  r_endDate : string;
  r_merchantPercents : option jsonValue;
  r_summary : list obj;
  r_downloadUrl : string
}.

(** The state of the process: the in-memory cache [globalDataMap], the
    files of the output directory, and the two collections. *)
Record State := {
  globalDataMap : gmap string (list obj);
  outputDir : gmap string workbook;
  uploadedFiles : list UploadedFileDoc;
  reports : list ReportDoc
}.

(** [let globalDataMap = { "1": [], "2": [] }]. *)
Definition initial : State := {|
  globalDataMap := <["1" := []]> (<["2" := []]> ∅);
  outputDir := ∅;
  uploadedFiles := [];
  reports := []
|}.

(** [req.query.type === 'Withdrawal' ? '2' : '1']. *)
Definition panelOf (type : value) : string :=
  if strict_eq_str type "Withdrawal" then "2" else "1".

(** [extractDateOnly], lines 60-71. *)
Definition extractDateOnly (h : Host) (value : value) : completion string :=
  if negb (truthy value) then Normal ""
  else
    match value with
    | VNum v =>
        let excelEpoch := TimeClip (F_of_Z (Date_UTC 1899 11 30)) in
        iso ← toISOString
                (TimeClip (getTime excelEpoch + (v - 1) * 86400000)%float);
        Normal (slice0 10 iso)
    | VStr s =>
        if dmy_prefix s then
          iso ← toISOString (Date_parse (hostDateParse h) (dmy_to_ymd s));
          Normal (slice0 10 iso)
        else
          iso ← toISOString (Date_new (hostDateParse h) value);
          Normal (slice0 10 iso)
    | _ =>
        iso ← toISOString (Date_new (hostDateParse h) value);
        Normal (slice0 10 iso)
    end.

(** The callback of [rawData.map], lines 85-88. *)
Definition processRow (h : Host) (row : obj) : completion obj :=
  let dateVal :=
    or_else (or_else (get row "Date") (get row "Transaction Date")) (get row "Created At") in
  d ← extractDateOnly h dateVal;
  Normal (set row "DateOnly" (VStr d)).

(** [[...new Set(processedData.map(r => r['Merchant Name']).filter(Boolean))]]. *)
Definition merchantsOf (rows : list obj) : list value :=
  dedupe [] (List.filter truthy (map (fun r => get r "Merchant Name") rows)).

(** [POST /api/upload], lines 74-105. *)
Definition upload (h : Host) (st : State) (req : UploadReq) : State * response :=
  let panelId := panelOf (u_type req) in
  match u_file req with
  | None => (st, fail 400 "No file uploaded")
  | Some file =>
      match rawData file with
      | Throw e => (st, fail 500 (or_default (message e) "Upload failed"))
      | Normal [] => (st, fail 400 "Excel file is empty")
      | Normal rawData =>
          match mapC (processRow h) rawData with
          | Throw e => (st, fail 500 (or_default (message e) "Upload failed"))
          | Normal processedData =>
              let merchants := merchantsOf processedData in
              let st1 := {|
                globalDataMap := <[panelId := processedData]> (globalDataMap st);
                outputDir := outputDir st;
                uploadedFiles := uploadedFiles st;
                reports := reports st |} in
              match dbError h with
              | Some msg => (st1, fail 500 (or_default msg "Upload failed"))
              | None =>
                  ({| globalDataMap := globalDataMap st1;
                      outputDir := outputDir st1;
                      uploadedFiles :=
                        uploadedFiles st1 ++
                        [{| uf_panelId := panelId;
                            uf_originalName := originalname file;
                            uf_filePath := path file;
                            uf_merchants := merchants;
                            uf_data := processedData |}];
                      reports := reports st1 |},
                   {| status := 200; json := Uploaded merchants None |})
              end
          end
      end
  end.

(** The accumulators of the report loop: the two output tables and the
    three grand totals. *)
Record Acc := {
  filteredData : list obj;
  summaryData : list obj;
  grandW : float;
  grandF : float;
  grandP : float
}.

(** The accumulators of [rows.forEach]: the merchant's three totals and
    the detail table. *)
Record Totals := {
  totalW : float;
  totalF : float;
  totalP : float;
  detail : list obj
}.

(** The callback of [rows.forEach], lines 137-152. *)
Definition rowStep (merchant : string) (percent : float) (t : Totals) (row : obj) : Totals :=
  let withdrawal := amount row "Withdrawal Amount" in
  let fee := amount row "Withdrawal Fees" in
  let percentAmount := (withdrawal * percent / 100)%float in
  {| totalW := (totalW t + withdrawal)%float;
     totalF := (totalF t + fee)%float;
     totalP := (totalP t + percentAmount)%float;
     detail := detail t ++
       [[("Merchant", VStr merchant);
         ("Withdrawal Amount", VNum withdrawal);
         ("Withdrawal Fees", VNum fee);
         (percentKey percent, VStr (toFixed2 percentAmount))]] |}.

(** The date test of [data.filter], lines 128-129. *)
Definition inDateRange (normalizedStart normalizedEnd : string) (row : obj) : bool :=
  ge_iso (get row "DateOnly") normalizedStart &&
  le_iso (get row "DateOnly") normalizedEnd.

(** The predicate of [data.filter], lines 127-131. *)
Definition matches (normalizedStart normalizedEnd merchant : string) (row : obj) : bool :=
  inDateRange normalizedStart normalizedEnd row &&
  strict_eq_str (get row "Merchant Name") merchant.

(** One turn of [for (const merchant in merchantPercents)] after its
    [parseFloat], lines 125-170. *)
Definition merchantStep (data : list obj) (normalizedStart normalizedEnd : string)
    (acc : Acc) (entry : string * float) : Acc :=
  let merchant := fst entry in
  let percent := snd entry in
  if PrimFloat.is_nan percent then acc
  else
    let rows := List.filter (matches normalizedStart normalizedEnd merchant) data in
    match rows with
    | [] => acc
    | _ :: _ =>
        let t := fold_left (rowStep merchant percent) rows
                   {| totalW := 0; totalF := 0; totalP := 0; detail := filteredData acc |} in
        {| filteredData := detail t ++
             [[("Merchant", VStr ("Total of " ++ merchant));
               ("Withdrawal Amount", VStr (toFixed2 (totalW t)));
               ("Withdrawal Fees", VStr (toFixed2 (totalF t)));
               (percentKey percent, VStr (toFixed2 (totalP t)))]];
           summaryData := summaryData acc ++
             [[("Merchant", VStr merchant);
               ("Total Withdrawal Amount", VStr (toFixed2 (totalW t)));
               ("Total Withdrawal Fees", VStr (toFixed2 (totalF t)));
               (percentKey percent, VStr (toFixed2 (totalP t)))]];
           grandW := (grandW acc + totalW t)%float;
           grandF := (grandF acc + totalF t)%float;
           grandP := (grandP acc + totalP t)%float |}
    end.

(** The loop of lines 123-171: each turn reads its percent and runs;
    the loop ends at the first [parseFloat] that throws. *)
Fixpoint runLoop (data : list obj) (normalizedStart normalizedEnd : string)
    (es : list (string * completion float)) (acc : Acc) : completion Acc :=
  match es with
  | [] => Normal acc
  | (merchant, read) :: es' =>
      percent ← read;
      runLoop data normalizedStart normalizedEnd es'
        (merchantStep data normalizedStart normalizedEnd acc (merchant, percent))
  end.

(** The empty tables and zero totals of lines 119-121. *)
Definition noRows : Acc :=
  {| filteredData := []; summaryData := []; grandW := 0; grandF := 0; grandP := 0 |}.

(** The two rows pushed after the loop, lines 173-185. *)
Definition grandDetailRow (acc : Acc) : obj :=
  [("Merchant", VStr "GRAND TOTAL");
   ("Withdrawal Amount", VStr (toFixed2 (grandW acc)));
   ("Withdrawal Fees", VStr (toFixed2 (grandF acc)));
   ("TOTAL % Amount", VStr (toFixed2 (grandP acc)))].

Definition grandSummaryRow (acc : Acc) : obj :=
  [("Merchant", VStr "TOTAL");
   ("Total Withdrawal Amount", VStr (toFixed2 (grandW acc)));
   ("Total Withdrawal Fees", VStr (toFixed2 (grandF acc)));
   ("TOTAL % Amount", VStr (toFixed2 (grandP acc)))].

(** [POST /api/generate], lines 108-214. *)
Definition generate (h : Host) (st : State) (req : GenerateReq) : State * response :=
  let panelId := panelOf (g_type req) in
  match globalDataMap st !! panelId with
  | None =>
      (st, fail 500 "Cannot read properties of undefined (reading 'length')")
  | Some [] => (st, fail 400 "No data available")
  | Some data =>
      match (normalizedStart ← normalizeDate h (startDate req);
             normalizedEnd ← normalizeDate h (endDate req);
             acc ← runLoop data normalizedStart normalizedEnd
                     (percentsOf (merchantPercents req)) noRows;
             Normal (normalizedStart, normalizedEnd, acc)) with
      | Throw e => (st, fail 500 (or_default (message e) "Failed to generate summary"))
      | Normal (normalizedStart, normalizedEnd, acc) =>
          let filtered : list obj := (filteredData acc ++ [grandDetailRow acc])%list in
          let summary : list obj := (summaryData acc ++ [grandSummaryRow acc])%list in
          let wb := [("Detailed Data", filtered); ("Summary", summary)] in
          let filename := "report-panel-" ++ panelId ++ "-" ++ dec_of_Z (now h) ++ ".xlsx" in
          let downloadUrl := "/output/" ++ filename in
          let st1 := {|
            globalDataMap := globalDataMap st;
            outputDir := <[filename := wb]> (outputDir st);
            uploadedFiles := uploadedFiles st;
            reports := reports st |} in
          match dbError h with
          | Some msg => (st1, fail 500 (or_default msg "Failed to generate summary"))
          | None =>
              ({| globalDataMap := globalDataMap st1;
                  outputDir := outputDir st1;
                  uploadedFiles := uploadedFiles st1;
                  reports :=
                    reports st1 ++
                    [{| r_panelId := panelId;
                        r_startDate := normalizedStart;
                        r_endDate := normalizedEnd;
                        r_merchantPercents := merchantPercents req;
                        r_summary := summary;
                        r_downloadUrl := downloadUrl |}] |},
               {| status := 200; json := Generated summary downloadUrl None |})
          end
      end
  end.

End Server.

(** ** The server embedded in [src/models/UploadedFile.js]

    This server keeps one dataset, [globalData], validates its inputs,
    and writes the percent amount into the rows of the dataset
    themselves.  The arrays [globalData], [dateFiltered], [rows] and
    [filteredData] all hold references to the same row objects, so the
    rows live in a heap and the arrays hold addresses. *)

Module Embedded.
Import JS Http.

Record State := {
  heap : list obj;
  globalData : list nat;
  outputDir : gmap string workbook
}.

(** [let globalData = []]. *)
Definition initial : State := {| heap := []; globalData := []; outputDir := ∅ |}.

(** The object at an address.  Every address the program holds was
    returned by an allocation, so the default is never read. *)
Definition deref (hp : list obj) (a : nat) : obj := default [] (hp !! a).

(** The dataset as values. *)
Definition dataset (st : State) : list obj := map (deref (heap st)) (globalData st).

(** [isNaN(date.getTime()) ? '' : date.toISOString().slice(0, 10)]. *)
Definition isoOrEmpty (tv : option Z) : completion string :=
  if PrimFloat.is_nan (getTime tv) then Normal ""
  else iso ← toISOString tv; Normal (slice0 10 iso).

(** [extractDateOnly], lines 66-79. *)
Definition extractDateOnly (h : Host) (value : value) : completion string :=
  if negb (truthy value) then Normal ""
  else
    match value with
    | VNum v =>
        let excelEpoch := TimeClip (F_of_Z (Date_UTC 1899 11 30)) in
        iso ← toISOString
                (TimeClip (getTime excelEpoch + (v - 1) * 86400000)%float);
        Normal (slice0 10 iso)
    | VStr s =>
        if dmy_prefix s then isoOrEmpty (Date_parse (hostDateParse h) (dmy_to_ymd s))
        else isoOrEmpty (Date_new (hostDateParse h) value)
    | _ => isoOrEmpty (Date_new (hostDateParse h) value)
    end.

(** The callback of [rawData.map], lines 105-111. *)
Definition processRow (h : Host) (row : obj) : completion obj :=
  let dateVal :=
    or_else (or_else (get row "Date") (get row "Transaction Date")) (get row "Created At") in
  d ← extractDateOnly h dateVal;
  Normal (set row "DateOnly" (VStr d)).

Definition requiredColumns : list string :=
  ["Merchant Name"; "Withdrawal Amount"; "Withdrawal Fees"].

Definition dateColumns : list string := ["Date"; "Transaction Date"; "Created At"].

(** [requiredColumns.filter(col => !firstRow.hasOwnProperty(col))]. *)
Definition missingColumns (firstRow : obj) : list string :=
  List.filter (fun col => negb (hasOwnProperty firstRow col)) requiredColumns.

(** [Object.keys(firstRow).some(key => [...].includes(key))]. *)
Definition hasDateColumn (firstRow : obj) : bool :=
  existsb (fun key => existsb (String.eqb key) dateColumns) (keys firstRow).

(** The message of lines 100-102. *)
Definition missingMessage (firstRow : obj) : string :=
  "Missing columns: " ++ String.concat ", " (missingColumns firstRow) ++
  (if negb (hasDateColumn firstRow) then ", Date or Transaction Date or Created At" else "").

(** The default [sort]: by the strings of the elements, stable. *)
Fixpoint insertSorted (h : Host) (x : value) (l : list value) : list value :=
  match l with
  | [] => [x]
  | y :: l' =>
      if str_ltb (ToString h y) (ToString h x) then y :: insertSorted h x l'
      else x :: y :: l'
  end.

Definition sort (h : Host) (l : list value) : list value :=
  fold_right (insertSorted h) [] l.

(** [POST /upload], lines 82-119. *)
Definition upload (h : Host) (st : State) (req : UploadReq) : State * response :=
  match u_file req with
  | None => (st, fail 400 "No file uploaded")
  | Some file =>
      match rawData file with
      | Throw e => (st, fail 500 (or_default (message e) "Upload failed"))
      | Normal [] => (st, fail 400 "Excel file is empty")
      | Normal (firstRow :: rest) =>
          if negb (Nat.eqb (length (missingColumns firstRow)) 0) || negb (hasDateColumn firstRow)
          then (st, fail 400 (missingMessage firstRow))
          else
            match mapC (processRow h) (firstRow :: rest) with
            | Throw e => (st, fail 500 (or_default (message e) "Upload failed"))
            | Normal rows =>
                let merchants :=
                  sort h (dedupe [] (List.filter truthy
                                       (map (fun r => get r "Merchant Name") rows))) in
                ({| heap := heap st ++ rows;
                    globalData := seq (length (heap st)) (length rows);
                    outputDir := outputDir st |},
                 {| status := 200;
                    json := Uploaded merchants (Some (Z.of_nat (length rows))) |})
            end
      end
  end.

(** The accumulators of the report loop: the heap, the two output
    tables (the detail table holds references) and the grand totals. *)
Record Acc := {
  a_heap : list obj;
  filteredData : list nat;
  summaryData : list obj;
  grandW : float;
  grandF : float;
  grandP : float
}.

Record Totals := {
  t_heap : list obj;
  detail : list nat;
  totalW : float;
  totalF : float;
  totalP : float
}.

(** The callback of [rows.forEach], lines 155-166: the row object itself
    receives the percent amount and is pushed. *)
Definition rowStep (percent : float) (t : Totals) (a : nat) : Totals :=
  let row := deref (t_heap t) a in
  let withdrawal := amount row "Withdrawal Amount" in
  let fee := amount row "Withdrawal Fees" in
  let percentAmount := (withdrawal * percent / 100)%float in
  {| t_heap := <[a := set row (percentKey percent) (VNum percentAmount)]> (t_heap t);
     detail := detail t ++ [a];
     totalW := (totalW t + withdrawal)%float;
     totalF := (totalF t + fee)%float;
     totalP := (totalP t + percentAmount)%float |}.

(** One turn of [for (const merchant in merchantPercents)] after its
    [parseFloat], lines 148-178. *)
Definition merchantStep (dateFiltered : list nat) (acc : Acc) (entry : string * float) : Acc :=
  let merchant := fst entry in
  let percent := snd entry in
  if PrimFloat.is_nan percent then acc
  else
    let rows :=
      List.filter (fun a => strict_eq_str (get (deref (a_heap acc) a) "Merchant Name") merchant)
        dateFiltered in
    match rows with
    | [] => acc
    | _ :: _ =>
        let t := fold_left (rowStep percent) rows
                   {| t_heap := a_heap acc; detail := filteredData acc;
                      totalW := 0; totalF := 0; totalP := 0 |} in
        {| a_heap := t_heap t;
           filteredData := detail t;
           summaryData := summaryData acc ++
             [[("Merchant", VStr merchant);
               ("Total Withdrawal Amount", VNum (totalW t));
               ("Total Withdrawal Fees", VNum (totalF t));
               (percentKey percent, VNum (totalP t))]];
           grandW := (grandW acc + totalW t)%float;
           grandF := (grandF acc + totalF t)%float;
           grandP := (grandP acc + totalP t)%float |}
    end.

(** The loop of lines 146-178: it ends at the first [parseFloat] that
    throws, and what the turns before it wrote into the rows stays
    written.  The result is the accumulators and the exception, if
    any. *)
Fixpoint runLoop (dateFiltered : list nat) (es : list (string * completion float))
    (acc : Acc) : Acc * option exn :=
  match es with
  | [] => (acc, None)
  | (merchant, Throw e) :: _ => (acc, Some e)
  | (merchant, Normal percent) :: es' =>
      runLoop dateFiltered es' (merchantStep dateFiltered acc (merchant, percent))
  end.

(** The empty tables and zero totals of lines 142-144, over a heap. *)
Definition noRows (hp : list obj) : Acc :=
  {| a_heap := hp; filteredData := []; summaryData := [];
     grandW := 0; grandF := 0; grandP := 0 |}.

(** The row pushed after the loop, lines 184-189. *)
Definition totalRow (acc : Acc) : obj :=
  [("Merchant", VStr "TOTAL");
   ("Total Withdrawal Amount", VNum (grandW acc));
   ("Total Withdrawal Fees", VNum (grandF acc));
   ("TOTAL % Amount", VNum (grandP acc))].

(** [formattedSummary], lines 199-207: numbers become two-decimal
    strings. *)
Definition formatRow (row : obj) : obj :=
  map (fun kv => match snd kv with
                 | VNum f => (fst kv, VStr (toFixed2 f))
                 | _ => kv
                 end) row.

(** [globalData.filter(...)], lines 135-137: the references to the rows
    in the date range. *)
Definition dateFilter (st : State) (normalizedStart normalizedEnd : string) : list nat :=
  List.filter (fun a => ge_iso (get (deref (heap st) a) "DateOnly") normalizedStart &&
                        le_iso (get (deref (heap st) a) "DateOnly") normalizedEnd)
    (globalData st).

(** [POST /generate], lines 122-219. *)
Definition generate (h : Host) (st : State) (req : GenerateReq) : State * response :=
  if negb (truthyJ (merchantPercents req)) || negb (truthyJ (startDate req)) ||
     negb (truthyJ (endDate req))
  then (st, fail 400 "Missing filters")
  else
    match (normalizedStart ← normalizeDate h (startDate req);
           normalizedEnd ← normalizeDate h (endDate req);
           Normal (normalizedStart, normalizedEnd)) with
    | Throw e => (st, fail 500 (or_default (message e) "Failed to generate report"))
    | Normal (normalizedStart, normalizedEnd) =>
        if str_ltb normalizedEnd normalizedStart
        then (st, fail 400 "Start date after end date")
        else
          match dateFilter st normalizedStart normalizedEnd with
          | [] => (st, fail 404 "No data in date range")
          | _ :: _ =>
              let '(acc, thrown) :=
                runLoop (dateFilter st normalizedStart normalizedEnd)
                  (percentsOf (merchantPercents req)) (noRows (heap st)) in
              let st1 := {| heap := a_heap acc; globalData := globalData st;
                            outputDir := outputDir st |} in
              match thrown with
              | Some e => (st1, fail 500 (or_default (message e) "Failed to generate report"))
              | None =>
                  match summaryData acc with
                  | [] => (st1, fail 404 "No matching merchant data")
                  | _ :: _ =>
                      let summary : list obj := (summaryData acc ++ [totalRow acc])%list in
                      let wb := [("Filtered Data", map (deref (a_heap acc)) (filteredData acc));
                                 ("Summary", summary)] in
                      let filename := "merchant_report_" ++ dec_of_Z (now h) ++ ".xlsx" in
                      ({| heap := a_heap acc; globalData := globalData st;
                          outputDir := <[filename := wb]> (outputDir st) |},
                       {| status := 200;
                          json := Generated (map formatRow summary) ("/output/" ++ filename)
                                    (Some (normalizedStart ++ " to " ++ normalizedEnd)) |})
                  end
              end
          end
    end.

End Embedded.

(** ** The report, stated from the specification

    The specification describes the report as per-merchant blocks with
    sums, not as a loop with accumulators.  These definitions follow its
    words; the theorems below relate the loop of [src/server.js] to
    them. *)

Module ReportSpec.
Import JS Http.

(** A sum in JavaScript: left to right from 0, in doubles. *)
Definition fsum (l : list float) : float := fold_left PrimFloat.add l 0%float.

(** A merchant of the request that has a numeric percent and at least
    one matching row. *)
Record Block := {
  b_merchant : string;
  b_percent : float;
  b_rows : list obj
}.

(** Step 2: the row's [DateOnly] is a string that lies within
    [[startDate, endDate]], both ends included, in the order of
    strings. *)
Definition inRange (startDate endDate : string) (row : obj) : bool :=
  match get row "DateOnly" with
  | VStr d => negb (str_ltb d startDate) && negb (str_ltb endDate d)
  | _ => false
  end.

(** Step 3b: the row is in the date range and its merchant name is
    exactly [merchant]; a row with no merchant name never matches. *)
Definition selected (startDate endDate merchant : string) (row : obj) : bool :=
  inRange startDate endDate row &&
  match get row "Merchant Name" with
  | VStr name => String.eqb name merchant
  | _ => false
  end.

(** Step 3 of the report engine: the merchants of the request in order,
    each with the percent read for it, without those whose percent is
    not a number and those that match no row in the date range. *)
Definition blockOf (data : list obj) (startDate endDate : string)
    (entry : string * float) : list Block :=
  let percent := snd entry in
  if PrimFloat.is_nan percent then []
  else
    match List.filter (selected startDate endDate (fst entry)) data with
    | [] => []
    | rows => [{| b_merchant := fst entry; b_percent := percent; b_rows := rows |}]
    end.

Definition blocks (data : list obj) (startDate endDate : string)
    (percents : list (string * float)) : list Block :=
  flat_map (blockOf data startDate endDate) percents.

Definition withdrawalOf (row : obj) : float := amount row "Withdrawal Amount".
Definition feeOf (row : obj) : float := amount row "Withdrawal Fees".

(** [percentAmount = withdrawalAmount * percent / 100]. *)
Definition percentAmountOf (percent : float) (row : obj) : float :=
  (withdrawalOf row * percent / 100)%float.

Definition totalWithdrawal (b : Block) : float := fsum (map withdrawalOf (b_rows b)).
Definition totalFees (b : Block) : float := fsum (map feeOf (b_rows b)).
Definition totalPercentAmount (b : Block) : float :=
  fsum (map (percentAmountOf (b_percent b)) (b_rows b)).

(** The rows of the detail sheet for one merchant: one per transaction,
    then the subtotal. *)
Definition detailRow (b : Block) (row : obj) : obj :=
  [("Merchant", VStr (b_merchant b));
   ("Withdrawal Amount", VNum (withdrawalOf row));
   ("Withdrawal Fees", VNum (feeOf row));
   (percentKey (b_percent b), VStr (toFixed2 (percentAmountOf (b_percent b) row)))].

Definition subtotalRow (b : Block) : obj :=
  [("Merchant", VStr ("Total of " ++ b_merchant b));
   ("Withdrawal Amount", VStr (toFixed2 (totalWithdrawal b)));
   ("Withdrawal Fees", VStr (toFixed2 (totalFees b)));
   (percentKey (b_percent b), VStr (toFixed2 (totalPercentAmount b)))].

Definition detailBlock (b : Block) : list obj :=
  (map (detailRow b) (b_rows b) ++ [subtotalRow b])%list.

(** The row of the summary sheet for one merchant. *)
Definition summaryRow (b : Block) : obj :=
  [("Merchant", VStr (b_merchant b));
   ("Total Withdrawal Amount", VStr (toFixed2 (totalWithdrawal b)));
   ("Total Withdrawal Fees", VStr (toFixed2 (totalFees b)));
   (percentKey (b_percent b), VStr (toFixed2 (totalPercentAmount b)))].

(** The grand totals: the sums of the merchants' totals. *)
Definition grandWithdrawal (bs : list Block) : float := fsum (map totalWithdrawal bs).
Definition grandFees (bs : list Block) : float := fsum (map totalFees bs).
Definition grandPercentAmount (bs : list Block) : float := fsum (map totalPercentAmount bs).

Definition grandTotalRow (bs : list Block) : obj :=
  [("Merchant", VStr "TOTAL");
   ("Total Withdrawal Amount", VStr (toFixed2 (grandWithdrawal bs)));
   ("Total Withdrawal Fees", VStr (toFixed2 (grandFees bs)));
   ("TOTAL % Amount", VStr (toFixed2 (grandPercentAmount bs)))].

Definition grandDetailRow (bs : list Block) : obj :=
  [("Merchant", VStr "GRAND TOTAL");
   ("Withdrawal Amount", VStr (toFixed2 (grandWithdrawal bs)));
   ("Withdrawal Fees", VStr (toFixed2 (grandFees bs)));
   ("TOTAL % Amount", VStr (toFixed2 (grandPercentAmount bs)))].

(** The two sheets of the report. *)
Definition detailSheet (bs : list Block) : list obj :=
  (flat_map detailBlock bs ++ [grandDetailRow bs])%list.

Definition summarySheet (bs : list Block) : list obj :=
  (map summaryRow bs ++ [grandTotalRow bs])%list.

(** The order of strings "lexically": the first place where two
    strings differ decides, by the rank of what stands there, and a
    proper prefix comes first. *)
Inductive lex_lt : string -> string -> Prop :=
| lex_lt_prefix c s : lex_lt EmptyString (String c s)
| lex_lt_head c1 c2 s1 s2 :
    (unit_key c1 < unit_key c2)%N -> lex_lt (String c1 s1) (String c2 s2)
| lex_lt_tail c s1 s2 : lex_lt s1 s2 -> lex_lt (String c s1) (String c s2).

Definition lex_le (a b : string) : Prop := a = b \/ lex_lt a b.

(** A row carries the derived field: [DateOnly] is a string. *)
Definition dated (row : obj) : Prop := exists d, get row "DateOnly" = VStr d.

(** Every row of every panel carries the derived field. *)
Definition storeDated (st : Server.State) : Prop :=
  forall panel rows, Server.globalDataMap st !! panel = Some rows -> Forall dated rows.

(** The canonical day string [YYYY-MM-DD] of a day number (days since
    1970-01-01), and the day numbers whose year has four digits. *)
Definition isoDay (day : Z) : string :=
  match toISOString (Some (day * msPerDay)) with
  | Normal iso => slice0 10 iso
  | Throw _ => EmptyString
  end.

Definition fourDigitYear (day : Z) : Prop :=
  DayFromYear 0 <= day < DayFromYear 10000.

(** The character [c] does not occur in [s]. *)
Definition free (c : ascii) (s : string) : Prop :=
  forallb (fun x => negb (Ascii.eqb x c)) (list_ascii_of_string s) = true.

(** Calendar dates (year, month, day) in chronological order. *)
Definition dateLt (a b : Z * Z * Z) : Prop :=
  let '(y1, m1, d1) := a in
  let '(y2, m2, d2) := b in
  y1 < y2 \/ (y1 = y2 /\ (m1 < m2 \/ (m1 = m2 /\ d1 < d2))).

End ReportSpec.

(** ** Concrete datasets and requests

    The scenario of the specification (merchant Acme, withdrawals 100 and
    200, fees 5 and 10, at 2.5 percent) and the inputs at which the
    servers are evaluated below. *)

Module Fixtures.
Import JS Http.

(** An engine that parses nothing beyond the date-only forms, a fixed
    clock, and a database that accepts every write. *)
Definition host : Host := {|
  hostDateParse := fun _ => None;
  hostDateString := fun _ => "Invalid Date";
  now := 1700000000000;
  dbError := None
|}.

Definition acmeSheet : list obj :=
  [[("Merchant Name", VStr "Acme"); ("Withdrawal Amount", VNum 100);
    ("Withdrawal Fees", VNum 5); ("Date", VStr "2024-01-01")];
   [("Merchant Name", VStr "Acme"); ("Withdrawal Amount", VNum 200);
    ("Withdrawal Fees", VNum 10); ("Date", VStr "2024-01-02")]].

Definition uploadOf (type : value) (rows : list obj) : UploadReq := {|
  u_type := type;
  u_file := Some {| originalname := "book.xlsx";
                    path := "uploads/panel-1-input.xlsx";
                    rawData := Normal rows |}
|}.

(** The server of [src/server.js] after the Acme sheet went to panel 1. *)
Definition acmeState : Server.State :=
  fst (Server.upload host Server.initial (uploadOf VUndef acmeSheet)).

Definition acmeRequest : GenerateReq := {|
  g_type := VUndef;
  merchantPercents := Some (JObj [("Acme", JStr "2.5")]);
  startDate := Some (JStr "2024-01-01");
  endDate := Some (JStr "2024-01-02")
|}.

(** The rows panel 1 then holds: the sheet's rows with their [DateOnly]. *)
Definition acmeData : list obj :=
  [[("Merchant Name", VStr "Acme"); ("Withdrawal Amount", VNum 100);
    ("Withdrawal Fees", VNum 5); ("Date", VStr "2024-01-01");
    ("DateOnly", VStr "2024-01-01")];
   [("Merchant Name", VStr "Acme"); ("Withdrawal Amount", VNum 200);
    ("Withdrawal Fees", VNum 10); ("Date", VStr "2024-01-02");
    ("DateOnly", VStr "2024-01-02")]].

(** A sheet whose amount cell holds text. *)
Definition textSheet : list obj :=
  [[("Merchant Name", VStr "Acme"); ("Withdrawal Amount", VStr "n/a");
    ("Withdrawal Fees", VNum 5); ("Date", VStr "2024-01-01")]].

Definition textState : Server.State :=
  fst (Server.upload host Server.initial (uploadOf VUndef textSheet)).

(** The Acme request with the two dates exchanged. *)
Definition reversedRequest : GenerateReq := {|
  g_type := VUndef;
  merchantPercents := Some (JObj [("Acme", JStr "2.5")]);
  startDate := Some (JStr "2024-01-02");
  endDate := Some (JStr "2024-01-01")
|}.

(** A request for a merchant the dataset does not have. *)
Definition ghostRequest : GenerateReq := {|
  g_type := VUndef;
  merchantPercents := Some (JObj [("Ghost", JStr "5")]);
  startDate := Some (JStr "2024-01-01");
  endDate := Some (JStr "2024-01-02")
|}.

(** A sheet with none of the required columns. *)
Definition strangeSheet : list obj := [[("Foo", VNum 1)]].

(** The embedded server after the Acme sheet was uploaded. *)
Definition acmeEmbedded : Embedded.State :=
  fst (Embedded.upload host Embedded.initial (uploadOf VUndef acmeSheet)).

End Fixtures.

(** ** Vocabulary for the laws of the handlers

    Predicates used to state what the handlers keep and produce. *)

Module Laws.
Import JS Http.

(** [row['Date'] || row['Transaction Date'] || row['Created At']], the
    cell a row's [DateOnly] is taken from. *)
Definition dateCell (row : obj) : value :=
  or_else (or_else (get row "Date") (get row "Transaction Date")) (get row "Created At").

(** No value of the list is, for a [Set], the same as an earlier one. *)
Definition distinctValues (l : list value) : Prop :=
  forall (i j : nat) (a b : value),
    (i < j)%nat -> l !! i = Some a -> l !! j = Some b -> same_value_zero b a = false.

(** The entry of [merchantPercents], with the percent read for it,
    passes the two [continue] tests of the report loop: the percent is a
    number and some row of the date range has the merchant's name. *)
Definition included (data : list obj) (normalizedStart normalizedEnd : string)
    (entry : string * float) : bool :=
  negb (PrimFloat.is_nan (snd entry)) &&
  negb (Nat.eqb (length (List.filter (ReportSpec.selected normalizedStart normalizedEnd
                                        (fst entry)) data)) 0).

(** A date of the calendar with a four-digit year. *)
Definition validDate (y m d : Z) : Prop :=
  0 <= y <= 9999 /\ 1 <= m <= 12 /\
  1 <= d <= monthStart (InLeapYear y) m - monthStart (InLeapYear y) (m - 1).

(** The texts [DD-MM-YYYY] and [YYYY-MM-DD] of a date. *)
Definition dmyText (y m d : Z) : string :=
  two_digits d ++ "-" ++ two_digits m ++ "-" ++ digits_fixed 4 y.

Definition ymdText (y m d : Z) : string :=
  digits_fixed 4 y ++ "-" ++ two_digits m ++ "-" ++ two_digits d.

(** The columns a report computes: [`${percent}% Amount`] for some
    percent. *)
Definition percentColumn (k : string) : Prop := exists p : float, k = percentKey p.

(** In the order of the default [sort]: no element's string is before
    the string of the element in front of it. *)
Definition sortedByString (h : Host) (l : list value) : Prop :=
  Sorted (fun a b => str_ltb (ToString h b) (ToString h a) = false) l.

(** Two heaps hold the same rows up to their percent columns. *)
Definition agree (hp hp' : list obj) : Prop :=
  length hp' = length hp /\
  forall (a : nat) (k : string),
    ~ percentColumn k -> get (Embedded.deref hp' a) k = get (Embedded.deref hp a) k.

(** The row the embedded server pushes to [summaryData] for a merchant,
    lines 168-173: the totals are still numbers. *)
Definition rawSummaryRow (b : ReportSpec.Block) : obj :=
  [("Merchant", VStr (ReportSpec.b_merchant b));
   ("Total Withdrawal Amount", VNum (ReportSpec.totalWithdrawal b));
   ("Total Withdrawal Fees", VNum (ReportSpec.totalFees b));
   (percentKey (ReportSpec.b_percent b), VNum (ReportSpec.totalPercentAmount b))].

(** The engine of the fixtures with a database that rejects every
    write. *)
Definition downHost : Host := {|
  hostDateParse := fun _ => None;
  hostDateString := fun _ => "Invalid Date";
  now := 1700000000000;
  dbError := Some "connection refused"
|}.

(** An upload without a file, and an upload of the Acme sheet to the
    second panel. *)
Definition noFile : UploadReq := {| u_type := VUndef; u_file := None |}.

Definition withdrawalUpload : UploadReq := Fixtures.uploadOf (VStr "Withdrawal") Fixtures.acmeSheet.

(** Three texts beyond ASCII, by their UTF-8 bytes: the no-break space
    U+00A0, the fullwidth letter A, U+FF21, and the emoji U+1F600, which
    in UTF-16 is the surrogate pair D83D DE00. *)
Definition noBreakSpace : string :=
  String (ascii_of_N 194) (String (ascii_of_N 160) "").

Definition fullwidthA : string :=
  String (ascii_of_N 239) (String (ascii_of_N 188) (String (ascii_of_N 161) "")).

Definition grinningFace : string :=
  String (ascii_of_N 240) (String (ascii_of_N 159)
    (String (ascii_of_N 152) (String (ascii_of_N 128) ""))).

(** The Acme request with a no-break space in front of the percent. *)
Definition paddedRequest : GenerateReq := {|
  g_type := VUndef;
  merchantPercents := Some (JObj [("Acme", JStr (noBreakSpace ++ "2.5"))]);
  startDate := Some (JStr "2024-01-01");
  endDate := Some (JStr "2024-01-02")
|}.

End Laws.

(** * Properties *)

Import JS Http.

(** ** The calendar: years, months and days of a day number *)

Section Calendar.

Lemma DayFromYear_succ (y : Z) :
  DayFromYear (y + 1) = DayFromYear y + (if InLeapYear y then 366 else 365).
Proof.
  unfold DayFromYear, InLeapYear.
  destruct (y mod 4 =? 0) eqn:H4; destruct (y mod 100 =? 0) eqn:H100;
    destruct (y mod 400 =? 0) eqn:H400; cbn [negb andb orb];
    rewrite ?Z.eqb_eq, ?Z.eqb_neq in *; Z.div_mod_to_equations; lia.
Qed.

Lemma DayFromYear_mono (y1 y2 : Z) : y1 <= y2 -> DayFromYear y1 <= DayFromYear y2.
Proof.
  unfold DayFromYear. intros H. Z.div_mod_to_equations. lia.
Qed.

Lemma YearFromDay_spec (d : Z) :
  DayFromYear (YearFromDay d) <= d < DayFromYear (YearFromDay d + 1).
Proof.
  unfold YearFromDay.
  set (y0 := 1970 + d * 400 / 146097).
  destruct (DayFromYear (y0 + 1) <=? d) eqn:H1; [|destruct (DayFromYear y0 <=? d) eqn:H2];
    rewrite ?Z.leb_le, ?Z.leb_gt in *.
  - split; [lia|]. clear H1. subst y0. unfold DayFromYear. Z.div_mod_to_equations. lia.
  - lia.
  - split; [|replace (y0 - 1 + 1) with y0 by lia; lia].
    clear H1 H2. subst y0. unfold DayFromYear. Z.div_mod_to_equations. lia.
Qed.
End Calendar.

Section Civil.
Import ReportSpec.

Lemma dayInYear_range (d : Z) :
  0 <= d - DayFromYear (YearFromDay d) < (if InLeapYear (YearFromDay d) then 366 else 365).
Proof.
  pose proof (YearFromDay_spec d) as H. rewrite DayFromYear_succ in H.
  destruct (InLeapYear (YearFromDay d)); lia.
Qed.

Ltac month_cases :=
  unfold MonthFromDayInYear, monthStart;
  repeat match goal with
         | |- context [if ?a <? ?b then _ else _] =>
             destruct (Z.ltb_spec a b)
         end.

Lemma civil_range (d : Z) :
  let '(y, m, dd) := civil d in
  y = YearFromDay d /\ 1 <= m <= 12 /\ 1 <= dd <= 31.
Proof.
  unfold civil. pose proof (dayInYear_range d) as H.
  set (dy := d - DayFromYear (YearFromDay d)) in *.
  split; [reflexivity|].
  destruct (InLeapYear (YearFromDay d)); month_cases; cbn; lia.
Qed.

Lemma YearFromDay_mono (d1 d2 : Z) : d1 <= d2 -> YearFromDay d1 <= YearFromDay d2.
Proof.
  intros H. pose proof (YearFromDay_spec d1) as H1. pose proof (YearFromDay_spec d2) as H2.
  destruct (Z.le_gt_cases (YearFromDay d1) (YearFromDay d2)) as [|Hgt]; [assumption|].
  pose proof (DayFromYear_mono (YearFromDay d2 + 1) (YearFromDay d1)). lia.
Qed.

Lemma monthDay_mono (leap : bool) (a b : Z) :
  0 <= a < b -> b < (if leap then 366 else 365) ->
  let ma := MonthFromDayInYear leap a in
  let mb := MonthFromDayInYear leap b in
  ma < mb \/ (ma = mb /\ a - monthStart leap ma < b - monthStart leap mb).
Proof.
  intros Hab Hb. destruct leap; month_cases; cbn; lia.
Qed.

Lemma civil_mono (d1 d2 : Z) : d1 < d2 -> dateLt (civil d1) (civil d2).
Proof.
  intros H. unfold civil, dateLt.
  pose proof (YearFromDay_mono d1 d2 ltac:(lia)) as Hy.
  destruct (Z.eq_dec (YearFromDay d1) (YearFromDay d2)) as [E|NE]; [right|left; lia].
  split; [assumption|]. rewrite <- E.
  pose proof (dayInYear_range d1) as R1. pose proof (dayInYear_range d2) as R2.
  rewrite <- E in R2.
  pose proof (monthDay_mono (InLeapYear (YearFromDay d1))
                (d1 - DayFromYear (YearFromDay d1)) (d2 - DayFromYear (YearFromDay d1))
                ltac:(lia) ltac:(lia)) as M.
  cbn zeta in M. lia.
Qed.

End Civil.

(** ** The order of strings *)

Section Strings.
Import ReportSpec.

(** Different bytes have different ranks. *)
Lemma unit_key_inj (x y : ascii) : unit_key x = unit_key y -> x = y.
Proof.
  intros H. rewrite <- (ascii_N_embedding x), <- (ascii_N_embedding y). f_equal.
  pose proof (N_ascii_bounded x) as Bx. pose proof (N_ascii_bounded y) as By.
  unfold unit_key in H. cbn zeta in H.
  destruct (N.eqb_spec (N_of_ascii x) 238), (N.eqb_spec (N_of_ascii x) 239),
    (N.eqb_spec (N_of_ascii y) 238), (N.eqb_spec (N_of_ascii y) 239); cbn [orb] in H; lia.
Qed.

(** An ASCII byte ranks as itself. *)
Lemma unit_key_ascii (x : ascii) : (N_of_ascii x < 238)%N -> unit_key x = N_of_ascii x.
Proof.
  intros H. unfold unit_key. cbn zeta.
  destruct (N.eqb_spec (N_of_ascii x) 238), (N.eqb_spec (N_of_ascii x) 239); cbn [orb];
    try reflexivity; lia.
Qed.

Lemma str_ltb_lex (a b : string) : str_ltb a b = true <-> lex_lt a b.
Proof.
  revert b. induction a as [|x a IH]; intros [|y b]; cbn [str_ltb].
  - split; [discriminate|inversion 1].
  - split; [constructor|reflexivity].
  - split; [discriminate|inversion 1].
  - destruct (N.ltb_spec (unit_key x) (unit_key y)) as [Hxy|Hxy].
    + split; [intros _; now constructor|reflexivity].
    + destruct (N.ltb_spec (unit_key y) (unit_key x)) as [Hyx|Hyx].
      * split; [discriminate|]. inversion 1; subst; lia.
      * assert (x = y) as -> by (apply unit_key_inj; lia).
        rewrite IH. split; [now constructor|]. inversion 1; subst; [lia|assumption].
Qed.

Lemma str_ltb_irrefl (a : string) : str_ltb a a = false.
Proof.
  induction a as [|x a IH]; cbn [str_ltb]; [reflexivity|]. now rewrite N.ltb_irrefl.
Qed.

Lemma str_ltb_asym (a b : string) : str_ltb a b = true -> str_ltb b a = false.
Proof.
  revert b. induction a as [|x a IH]; intros [|y b]; cbn [str_ltb];
    try reflexivity; try discriminate.
  destruct (N.ltb_spec (unit_key x) (unit_key y)), (N.ltb_spec (unit_key y) (unit_key x));
    try reflexivity; try discriminate; try lia. apply IH.
Qed.

Lemma str_ltb_total (a b : string) : str_ltb a b = false -> str_ltb b a = false -> a = b.
Proof.
  revert b. induction a as [|x a IH]; intros [|y b]; cbn [str_ltb];
    try reflexivity; try discriminate.
  destruct (N.ltb_spec (unit_key x) (unit_key y)), (N.ltb_spec (unit_key y) (unit_key x));
    try discriminate. intros Ha Hb.
  assert (x = y) as -> by (apply unit_key_inj; lia).
  f_equal. now apply IH.
Qed.

(** [a <= b] and [a >= b] on strings are the lexical order. *)
Lemma str_leb_lex (a b : string) : str_leb a b = true <-> lex_le a b.
Proof.
  unfold str_leb, lex_le. rewrite negb_true_iff. split.
  - intros H. destruct (str_ltb a b) eqn:E.
    + right. now apply str_ltb_lex.
    + left. now apply str_ltb_total.
  - intros [->|H]; [apply str_ltb_irrefl|]. apply str_ltb_asym. now apply str_ltb_lex.
Qed.

Lemma str_geb_lex (a b : string) : str_geb a b = true <-> lex_le b a.
Proof. exact (str_leb_lex b a). Qed.

Lemma N_of_digit_char (k : Z) : N_of_ascii (digit_char k) = (48 + Z.to_N (k mod 10))%N.
Proof.
  unfold digit_char. apply N_ascii_embedding.
  pose proof (Z.mod_pos_bound k 10 ltac:(lia)). lia.
Qed.

Lemma unit_key_digit_char (k : Z) : unit_key (digit_char k) = (48 + Z.to_N (k mod 10))%N.
Proof.
  rewrite unit_key_ascii; rewrite N_of_digit_char; [reflexivity|].
  pose proof (Z.mod_pos_bound k 10 ltac:(lia)). lia.
Qed.

Lemma digit_char_ltb (a b : Z) :
  (unit_key (digit_char a) <? unit_key (digit_char b))%N = (a mod 10 <? b mod 10).
Proof.
  rewrite !unit_key_digit_char.
  pose proof (Z.mod_pos_bound a 10 ltac:(lia)). pose proof (Z.mod_pos_bound b 10 ltac:(lia)).
  destruct (N.ltb_spec (48 + Z.to_N (a mod 10)) (48 + Z.to_N (b mod 10)));
    destruct (Z.ltb_spec (a mod 10) (b mod 10)); try reflexivity; lia.
Qed.

Ltac digit_cases :=
  repeat match goal with
         | |- context [if ?a <? ?b then _ else _] => destruct (Z.ltb_spec a b)
         end.

Lemma two_digits_ltb (a b : Z) :
  0 <= a <= 99 -> 0 <= b <= 99 -> str_ltb (two_digits a) (two_digits b) = (a <? b).
Proof.
  intros Ha Hb. unfold two_digits. cbn [digits_fixed str_ltb].
  rewrite !digit_char_ltb.
  change (10 ^ Z.of_nat 1) with 10. change (10 ^ Z.of_nat 0) with 1.
  rewrite !Z.div_1_r.
  digit_cases; destruct (Z.ltb_spec a b); try reflexivity;
    exfalso; Z.div_mod_to_equations; lia.
Qed.

Lemma four_digits_ltb (a b : Z) :
  0 <= a <= 9999 -> 0 <= b <= 9999 -> str_ltb (digits_fixed 4 a) (digits_fixed 4 b) = (a <? b).
Proof.
  intros Ha Hb. cbn [digits_fixed str_ltb].
  rewrite !digit_char_ltb.
  change (10 ^ Z.of_nat 3) with 1000. change (10 ^ Z.of_nat 2) with 100.
  change (10 ^ Z.of_nat 1) with 10. change (10 ^ Z.of_nat 0) with 1.
  rewrite !Z.div_1_r.
  digit_cases; destruct (Z.ltb_spec a b); try reflexivity;
    exfalso; Z.div_mod_to_equations; lia.
Qed.

(** Two strings with prefixes of the same length compare by the
    prefixes first. *)
Lemma str_ltb_app (p q s t : string) :
  String.length p = String.length q ->
  str_ltb (p ++ s) (q ++ t) =
  if str_ltb p q then true else if str_ltb q p then false else str_ltb s t.
Proof.
  revert q. induction p as [|x p IH]; intros [|y q]; simpl; try discriminate.
  - reflexivity.
  - intros Hl. destruct (N.ltb_spec (unit_key x) (unit_key y)); [reflexivity|].
    destruct (N.ltb_spec (unit_key y) (unit_key x)); [reflexivity|].
    apply IH. congruence.
Qed.

Lemma digits_fixed_length (w : nat) (n : Z) : String.length (digits_fixed w n) = w.
Proof. induction w as [|w IH]; cbn; [reflexivity|]. now rewrite IH. Qed.

End Strings.

(** ** Canonical day strings compare as days *)

Section IsoDay.
Import ReportSpec.

Lemma fourDigitYear_year (d : Z) : fourDigitYear d -> 0 <= YearFromDay d <= 9999.
Proof.
  unfold fourDigitYear. intros H. pose proof (YearFromDay_spec d) as S.
  split.
  - destruct (Z.le_gt_cases 0 (YearFromDay d)); [assumption|].
    pose proof (DayFromYear_mono (YearFromDay d + 1) 0). lia.
  - destruct (Z.le_gt_cases (YearFromDay d) 9999); [assumption|].
    pose proof (DayFromYear_mono 10000 (YearFromDay d)). lia.
Qed.

(** The canonical string of a day with a four-digit year. *)
Lemma isoDay_fields (d : Z) :
  fourDigitYear d ->
  isoDay d =
  let '(y, m, dd) := civil d in
  digits_fixed 4 y ++ "-" ++ two_digits m ++ "-" ++ two_digits dd.
Proof.
  intros H. unfold isoDay, toISOString.
  rewrite Z.div_mul by (unfold msPerDay; lia).
  pose proof (civil_range d) as R. destruct (civil d) as [[y m] dd].
  destruct R as (-> & _ & _).
  unfold iso_year. pose proof (fourDigitYear_year d H) as Hy.
  destruct (Z.leb_spec 0 (YearFromDay d)); [|lia].
  destruct (Z.leb_spec (YearFromDay d) 9999); [|lia].
  cbn. reflexivity.
Qed.

Lemma isoDay_ltb (a b : Z) :
  fourDigitYear a -> fourDigitYear b -> str_ltb (isoDay a) (isoDay b) = (a <? b).
Proof.
  intros Ha Hb.
  destruct (Z.eq_dec a b) as [->|Hne]; [now rewrite str_ltb_irrefl, Z.ltb_irrefl|].
  rewrite !isoDay_fields by assumption.
  pose proof (civil_range a) as Ra. pose proof (civil_range b) as Rb.
  pose proof (fourDigitYear_year a Ha) as Ya. pose proof (fourDigitYear_year b Hb) as Yb.
  pose proof (civil_mono a b) as Mab. pose proof (civil_mono b a) as Mba.
  destruct (civil a) as [[y1 m1] d1], (civil b) as [[y2 m2] d2].
  destruct Ra as (-> & ? & ?), Rb as (-> & ? & ?). unfold dateLt in *.
  rewrite str_ltb_app by now rewrite !digits_fixed_length.
  rewrite !four_digits_ltb by assumption.
  rewrite (str_ltb_app "-" "-") by reflexivity. rewrite str_ltb_irrefl.
  rewrite str_ltb_app by reflexivity.
  rewrite !two_digits_ltb by lia.
  rewrite (str_ltb_app "-" "-") by reflexivity. rewrite str_ltb_irrefl.
  rewrite !two_digits_ltb by lia.
  repeat match goal with
         | |- context [if ?x <? ?y then _ else _] => destruct (Z.ltb_spec x y)
         end;
    destruct (Z.ltb_spec a b); try reflexivity; lia.
Qed.

(** On canonical day strings the lexical order is the order of days. *)
Lemma isoDay_lex_le (a b : Z) :
  fourDigitYear a -> fourDigitYear b -> (lex_le (isoDay a) (isoDay b) <-> a <= b).
Proof.
  intros Ha Hb. rewrite <- str_leb_lex. unfold str_leb.
  rewrite isoDay_ltb by assumption. rewrite negb_true_iff, Z.ltb_ge. reflexivity.
Qed.
End IsoDay.

(** ** Canonical day strings read back as themselves *)

Section RoundTrip.
Import ReportSpec.

Lemma MakeDay_civil (d : Z) :
  let '(y, m, dd) := civil d in MakeDay y (m - 1) dd = d.
Proof.
  unfold civil, MakeDay. pose proof (dayInYear_range d) as H.
  set (y := YearFromDay d) in *. set (dy := d - DayFromYear y) in *.
  assert (Hm : 0 <= MonthFromDayInYear (InLeapYear y) dy <= 11).
  { unfold MonthFromDayInYear.
    repeat match goal with
           | |- context [if ?a <? ?b then _ else _] => destruct (Z.ltb_spec a b)
           end; lia. }
  replace (MonthFromDayInYear (InLeapYear y) dy + 1 - 1)
    with (MonthFromDayInYear (InLeapYear y) dy) by lia.
  rewrite Z.div_small, Z.mod_small, Z.add_0_r by lia.
  subst dy. lia.
Qed.

Lemma digit_char_is_digit (k : Z) : is_digit (digit_char k) = true.
Proof.
  unfold is_digit. rewrite N_of_digit_char.
  pose proof (Z.mod_pos_bound k 10 ltac:(lia)).
  apply andb_true_iff. split; apply N.leb_le; lia.
Qed.

Lemma digit_char_val (k : Z) : digit_val (digit_char k) = k mod 10.
Proof.
  unfold digit_val. rewrite N_of_digit_char.
  pose proof (Z.mod_pos_bound k 10 ltac:(lia)). lia.
Qed.

Lemma digit_char_not_hyphen (k : Z) : Ascii.eqb (digit_char k) "-" = false.
Proof.
  apply Ascii.eqb_neq. intros E. apply (f_equal N_of_ascii) in E.
  rewrite N_of_digit_char in E. cbn in E. lia.
Qed.

Lemma split_on_free (c : ascii) (p : string) : free c p -> split_on c p = [p].
Proof.
  unfold free. induction p as [|x p IH]; cbn; [reflexivity|].
  intros H. apply andb_true_iff in H as [Hx Hp]. apply negb_true_iff in Hx.
  rewrite Hx, IH by assumption. reflexivity.
Qed.

Lemma split_on_app (c : ascii) (p s : string) :
  free c p -> split_on c (p ++ String c s) = p :: split_on c s.
Proof.
  unfold free. induction p as [|x p IH]; simpl.
  - intros _. now rewrite Ascii.eqb_refl.
  - intros H. apply andb_true_iff in H as [Hx Hp]. apply negb_true_iff in Hx.
    rewrite Hx, IH by assumption. reflexivity.
Qed.

Lemma digits_fixed_free (w : nat) (n : Z) : free "-" (digits_fixed w n).
Proof.
  unfold free. induction w as [|w IH]; cbn; [reflexivity|].
  now rewrite digit_char_not_hyphen, IH.
Qed.

Lemma digits_fixed_all_digits (w : nat) (n : Z) : all_digits w (digits_fixed w n) = true.
Proof.
  unfold all_digits. rewrite digits_fixed_length, Nat.eqb_refl. cbn [andb].
  induction w as [|w IH]; cbn; [reflexivity|].
  now rewrite digit_char_is_digit, IH.
Qed.

Lemma num_of_four (y : Z) : 0 <= y <= 9999 -> num_of (digits_fixed 4 y) = y.
Proof.
  intros Hy. unfold num_of. cbn [digits_fixed].
  repeat (cbn [read_digits]; rewrite digit_char_is_digit). cbn [read_digits fst].
  rewrite !digit_char_val.
  change (10 ^ Z.of_nat 3) with 1000. change (10 ^ Z.of_nat 2) with 100.
  change (10 ^ Z.of_nat 1) with 10. change (10 ^ Z.of_nat 0) with 1.
  Z.div_mod_to_equations. lia.
Qed.

Lemma num_of_two (n : Z) : 0 <= n <= 99 -> num_of (two_digits n) = n.
Proof.
  intros Hn. unfold num_of, two_digits. cbn [digits_fixed].
  repeat (cbn [read_digits]; rewrite digit_char_is_digit). cbn [read_digits fst].
  rewrite !digit_char_val.
  change (10 ^ Z.of_nat 1) with 10. change (10 ^ Z.of_nat 0) with 1.
  Z.div_mod_to_equations. lia.
Qed.

Lemma hyphen_app (s : string) : "-" ++ s = String "-" s.
Proof. reflexivity. Qed.

(** A formatted date reads back as the date. *)
Lemma parse_formatted (y m dd : Z) :
  0 <= y <= 9999 -> 1 <= m <= 12 -> 1 <= dd <= 31 ->
  parse_date_only (digits_fixed 4 y ++ "-" ++ two_digits m ++ "-" ++ two_digits dd) =
  Some (Some (MakeDay y (m - 1) dd * msPerDay)).
Proof.
  intros Hy Hm Hd. unfold parse_date_only.
  rewrite !hyphen_app.
  rewrite split_on_app by apply digits_fixed_free.
  rewrite split_on_app by apply digits_fixed_free.
  rewrite split_on_free by apply digits_fixed_free.
  unfold two_digits at 1 2 3. rewrite !digits_fixed_all_digits. cbn [andb].
  fold (two_digits m). fold (two_digits dd).
  rewrite num_of_four by assumption. rewrite !num_of_two by lia.
  destruct (Z.leb_spec 1 m); [|lia]. destruct (Z.leb_spec m 12); [|lia].
  destruct (Z.leb_spec 1 dd); [|lia]. destruct (Z.leb_spec dd 31); [|lia].
  reflexivity.
Qed.

(** A canonical day string normalizes to itself. *)
Lemma normalizeDate_isoDay (h : Host) (d : Z) :
  fourDigitYear d -> normalizeDate h (Some (JStr (isoDay d))) = Normal (isoDay d).
Proof.
  intros Hd. unfold normalizeDate, Date_newJ, Date_parse. cbn [mbind completion_bind].
  rewrite (isoDay_fields d Hd) at 1.
  pose proof (civil_range d) as R. pose proof (MakeDay_civil d) as M.
  pose proof (fourDigitYear_year d Hd) as Y.
  destruct (civil d) as [[y m] dd]. destruct R as (-> & Rm & Rd).
  rewrite parse_formatted by assumption. rewrite M.
  unfold isoDay. destruct (toISOString (Some (d * msPerDay))) as [iso|e] eqn:E.
  - reflexivity.
  - unfold toISOString in E. destruct (civil _) as [[? ?] ?]. discriminate.
Qed.
End RoundTrip.

(** ** The loop of [src/server.js] computes the specified report *)

Section ServerLoop.
Import ReportSpec.

Variables (data : list obj) (normalizedStart normalizedEnd : string).

(** [rows.forEach] adds the rows' amounts to the running totals, in
    order, and appends one detail row per row. *)
Lemma rowStep_fold (merchant : string) (percent : float) (rows : list obj) (t : Server.Totals) :
  fold_left (Server.rowStep merchant percent) rows t =
  {| Server.totalW := fold_left PrimFloat.add (map withdrawalOf rows) (Server.totalW t);
     Server.totalF := fold_left PrimFloat.add (map feeOf rows) (Server.totalF t);
     Server.totalP := fold_left PrimFloat.add (map (percentAmountOf percent) rows) (Server.totalP t);
     Server.detail :=
       Server.detail t ++
       map (detailRow {| b_merchant := merchant; b_percent := percent; b_rows := rows |}) rows |}.
Proof.
  revert t. induction rows as [|row rows IH]; intros t.
  - destruct t; simpl. now rewrite app_nil_r.
  - cbn [fold_left map]. rewrite IH. cbn [Server.rowStep Server.totalW Server.totalF
      Server.totalP Server.detail]. f_equal.
    rewrite <- app_assoc. reflexivity.
Qed.

(** The predicate of [data.filter] selects the rows of step 3b. *)
Lemma matches_selected (merchant : string) (row : obj) :
  Server.matches normalizedStart normalizedEnd merchant row =
  selected normalizedStart normalizedEnd merchant row.
Proof.
  unfold Server.matches, Server.inDateRange, selected, inRange, ge_iso, le_iso,
    str_geb, str_leb, strict_eq_str.
  destruct (get row "DateOnly"); destruct (get row "Merchant Name"); reflexivity.
Qed.

(** One turn of the merchant loop adds the merchant's block, if any. *)
Lemma merchantStep_blockOf (acc : Server.Acc) (entry : string * float) :
  Server.merchantStep data normalizedStart normalizedEnd acc entry =
  let bs := blockOf data normalizedStart normalizedEnd entry in
  {| Server.filteredData := Server.filteredData acc ++ flat_map detailBlock bs;
     Server.summaryData := Server.summaryData acc ++ map summaryRow bs;
     Server.grandW := fold_left PrimFloat.add (map totalWithdrawal bs) (Server.grandW acc);
     Server.grandF := fold_left PrimFloat.add (map totalFees bs) (Server.grandF acc);
     Server.grandP := fold_left PrimFloat.add (map totalPercentAmount bs) (Server.grandP acc) |}.
Proof.
  unfold Server.merchantStep, blockOf.
  rewrite (filter_ext _ _ (matches_selected (fst entry))).
  destruct (PrimFloat.is_nan (snd entry)).
  - destruct acc; simpl. now rewrite !app_nil_r.
  - destruct (List.filter _ data) as [|row rows] eqn:Hrows.
    + destruct acc; simpl. now rewrite !app_nil_r.
    + rewrite rowStep_fold. cbn -[fold_left map app toFixed2 percentKey].
      unfold detailBlock, subtotalRow, summaryRow, totalWithdrawal, totalFees,
        totalPercentAmount, fsum.
      cbn [b_rows b_merchant b_percent]. rewrite !app_nil_r.
      rewrite <- app_assoc. reflexivity.
Qed.

Lemma merchantLoop_blocks (es : list (string * float)) (acc : Server.Acc) :
  fold_left (Server.merchantStep data normalizedStart normalizedEnd) es acc =
  let bs := flat_map (blockOf data normalizedStart normalizedEnd) es in
  {| Server.filteredData := Server.filteredData acc ++ flat_map detailBlock bs;
     Server.summaryData := Server.summaryData acc ++ map summaryRow bs;
     Server.grandW := fold_left PrimFloat.add (map totalWithdrawal bs) (Server.grandW acc);
     Server.grandF := fold_left PrimFloat.add (map totalFees bs) (Server.grandF acc);
     Server.grandP := fold_left PrimFloat.add (map totalPercentAmount bs) (Server.grandP acc) |}.
Proof.
  revert acc. induction es as [|entry es IH]; intros acc.
  - destruct acc; simpl. now rewrite !app_nil_r.
  - cbn [fold_left flat_map]. rewrite IH, merchantStep_blockOf.
    cbn zeta. cbn [Server.filteredData Server.summaryData Server.grandW Server.grandF Server.grandP].
    rewrite !flat_map_app, !map_app, !fold_left_app, <- !app_assoc. reflexivity.
Qed.

(** When every percent is read, the loop is the sequence of its
    turns; when one throws, so does the loop. *)
Lemma runLoop_read (es : list (string * completion float)) (acc : Server.Acc) :
  Server.runLoop data normalizedStart normalizedEnd es acc =
  (ps ← mapC (fun kv => p ← snd kv; Normal (fst kv, p)) es;
   Normal (fold_left (Server.merchantStep data normalizedStart normalizedEnd) ps acc)).
Proof.
  revert acc. induction es as [|[merchant [p|x]] es IH]; intros acc; cbn; [reflexivity| |reflexivity].
  rewrite IH. destruct (mapC _ es); reflexivity.
Qed.

(** The loop from empty tables: blocks, and sums of their totals. *)
Lemma runLoop_blocks (mp : option jsonValue) (ps : list (string * float)) :
  readPercents mp = Normal ps ->
  Server.runLoop data normalizedStart normalizedEnd (percentsOf mp) Server.noRows =
  let bs := blocks data normalizedStart normalizedEnd ps in
  Normal {| Server.filteredData := flat_map detailBlock bs;
            Server.summaryData := map summaryRow bs;
            Server.grandW := grandWithdrawal bs;
            Server.grandF := grandFees bs;
            Server.grandP := grandPercentAmount bs |}.
Proof.
  intros Hread. rewrite runLoop_read. unfold readPercents in Hread. rewrite Hread.
  cbn [mbind completion_bind]. rewrite merchantLoop_blocks. reflexivity.
Qed.

Lemma runLoop_throws (mp : option jsonValue) (x : exn) (acc : Server.Acc) :
  readPercents mp = Throw x ->
  Server.runLoop data normalizedStart normalizedEnd (percentsOf mp) acc = Throw x.
Proof.
  intros Hread. rewrite runLoop_read. unfold readPercents in Hread. now rewrite Hread.
Qed.

End ServerLoop.

(** ** What [POST /api/generate] writes and answers *)

Section ServerGenerate.
Import ReportSpec.

Variables (h : Host) (st : Server.State) (req : GenerateReq).
Variables (data : list obj) (normalizedStart normalizedEnd : string).
Variable percents : list (string * float).

Hypothesis Hdata : Server.globalDataMap st !! Server.panelOf (g_type req) = Some data.
Hypothesis Hnonempty : data <> [].
Hypothesis Hstart : normalizeDate h (startDate req) = Normal normalizedStart.
Hypothesis Hend : normalizeDate h (endDate req) = Normal normalizedEnd.
Hypothesis Hread : readPercents (merchantPercents req) = Normal percents.

Let bs := blocks data normalizedStart normalizedEnd percents.
Let filename :=
  "report-panel-" ++ Server.panelOf (g_type req) ++ "-" ++ dec_of_Z (now h) ++ ".xlsx".
Let report : workbook := [("Detailed Data", detailSheet bs); ("Summary", summarySheet bs)].

(** Once the dataset is there, both dates normalize and every percent
    is read, the workbook is written, whatever the merchants matched. *)
Lemma generate_writes :
  Server.outputDir (fst (Server.generate h st req)) = <[filename := report]> (Server.outputDir st).
Proof.
  unfold Server.generate. rewrite Hdata.
  destruct data as [|row rows]; [contradiction|].
  rewrite Hstart, Hend. cbn [mbind completion_bind].
  rewrite (runLoop_blocks _ _ _ _ _ Hread). cbn zeta. cbn [mbind completion_bind].
  destruct (dbError h); reflexivity.
Qed.

Lemma generate_answers :
  dbError h = None ->
  snd (Server.generate h st req) =
  {| status := 200; json := Generated (summarySheet bs) ("/output/" ++ filename) None |}.
Proof.
  intros Hdb. unfold Server.generate. rewrite Hdata.
  destruct data as [|row rows]; [contradiction|].
  rewrite Hstart, Hend. cbn [mbind completion_bind].
  rewrite (runLoop_blocks _ _ _ _ _ Hread). cbn zeta. cbn [mbind completion_bind].
  rewrite Hdb. reflexivity.
Qed.

End ServerGenerate.

(** ** Amounts, percent amounts and totals *)

(** A missing, empty, zero or otherwise falsy cell counts as 0. *)
Lemma amount_falsy (row : obj) (col : string) :
  truthy (get row col) = false -> amount row col = 0%float.
Proof.
  intros Hf. unfold amount, or_else. rewrite Hf. reflexivity.
Qed.

Lemma get_missing (row : obj) (col : string) :
  hasOwnProperty row col = false -> get row col = VUndef.
Proof.
  unfold hasOwnProperty. induction row as [|[k v] row IH]; cbn; [reflexivity|].
  destruct (String.eqb k col); cbn; [discriminate|exact IH].
Qed.

(** In particular a row without the column counts as 0. *)
Lemma amount_missing (row : obj) (col : string) :
  hasOwnProperty row col = false -> amount row col = 0%float.
Proof.
  intros H. apply amount_falsy. now rewrite get_missing.
Qed.

(** A truthy cell is read by [parseFloat]. *)
Lemma amount_truthy (row : obj) (col : string) :
  truthy (get row col) = true -> amount row col = parseFloat (get row col).
Proof.
  intros Ht. unfold amount, or_else. now rewrite Ht.
Qed.

Lemma nan_not_zero : NaN <> 0%float.
Proof.
  intros H. apply (f_equal PrimFloat.is_nan) in H. vm_compute in H. discriminate.
Qed.

(** C1, as stated, fails: a cell holding the text [n/a] is not taken as 0.
    [parseFloat] reads it as NaN, and the NaN reaches the merchant's
    totals and the grand total of the report. *)
Lemma text_cell_is_not_zero :
  get (hd [] Fixtures.textSheet) "Withdrawal Amount" = VStr "n/a" /\
  amount (hd [] Fixtures.textSheet) "Withdrawal Amount" <> 0%float /\
  snd (Server.generate Fixtures.host Fixtures.textState Fixtures.acmeRequest) =
  {| status := 200;
     json := Generated
       [[("Merchant", VStr "Acme");
         ("Total Withdrawal Amount", VStr "NaN");
         ("Total Withdrawal Fees", VStr "5.00");
         ("2.5% Amount", VStr "NaN")];
        [("Merchant", VStr "TOTAL");
         ("Total Withdrawal Amount", VStr "NaN");
         ("Total Withdrawal Fees", VStr "5.00");
         ("TOTAL % Amount", VStr "NaN")]]
       "/output/report-panel-1-1700000000000.xlsx" None |}.
Proof.
  split; [reflexivity|split].
  - assert (E : amount (hd [] Fixtures.textSheet) "Withdrawal Amount" = NaN)
      by (vm_compute; reflexivity).
    rewrite E. exact nan_not_zero.
  - vm_compute. reflexivity.
Qed.

(** C1, amended: in the report of [src/server.js] every matching row
    gets the percent amount [withdrawal * percent / 100], where the
    withdrawal and the fee are [parseFloat(cell || 0)]: 0 for a missing
    or otherwise falsy cell, and what [parseFloat] reads for any other
    cell.  The detail sheet holds these rows merchant by merchant, each
    merchant closed by its totals, which are the sums of the
    withdrawals, fees and percent amounts of its rows.  The report is
    the one of a request the loop runs through: the panel has rows, both
    dates normalize and [parseFloat] reads every percent, to a number or
    to NaN, without throwing. *)
Theorem report_rows_and_totals (h : Host) (st : Server.State) (req : GenerateReq)
    (data : list obj) (normalizedStart normalizedEnd : string)
    (percents : list (string * float)) :
  Server.globalDataMap st !! Server.panelOf (g_type req) = Some data ->
  data <> [] ->
  normalizeDate h (startDate req) = Normal normalizedStart ->
  normalizeDate h (endDate req) = Normal normalizedEnd ->
  readPercents (merchantPercents req) = Normal percents ->
  let bs := ReportSpec.blocks data normalizedStart normalizedEnd percents in
  let filename :=
    "report-panel-" ++ Server.panelOf (g_type req) ++ "-" ++ dec_of_Z (now h) ++ ".xlsx" in
  Server.outputDir (fst (Server.generate h st req)) !! filename =
    Some [("Detailed Data", ReportSpec.detailSheet bs);
          ("Summary", ReportSpec.summarySheet bs)] /\
  (forall b row,
     In b bs -> In row (ReportSpec.b_rows b) ->
     In [("Merchant", VStr (ReportSpec.b_merchant b));
         ("Withdrawal Amount", VNum (amount row "Withdrawal Amount"));
         ("Withdrawal Fees", VNum (amount row "Withdrawal Fees"));
         (percentKey (ReportSpec.b_percent b),
          VStr (toFixed2 (amount row "Withdrawal Amount" * ReportSpec.b_percent b / 100)%float))]
        (ReportSpec.detailSheet bs)) /\
  (forall b,
     In b bs ->
     In [("Merchant", VStr (ReportSpec.b_merchant b));
         ("Total Withdrawal Amount",
          VStr (toFixed2 (ReportSpec.fsum
                            (map (fun row => amount row "Withdrawal Amount")
                               (ReportSpec.b_rows b)))));
         ("Total Withdrawal Fees",
          VStr (toFixed2 (ReportSpec.fsum
                            (map (fun row => amount row "Withdrawal Fees")
                               (ReportSpec.b_rows b)))));
         (percentKey (ReportSpec.b_percent b),
          VStr (toFixed2 (ReportSpec.fsum
                            (map (fun row => (amount row "Withdrawal Amount" *
                                              ReportSpec.b_percent b / 100)%float)
                               (ReportSpec.b_rows b)))))]
        (ReportSpec.summarySheet bs)) /\
  (forall row col, truthy (get row col) = false -> amount row col = 0%float) /\
  (forall row col, truthy (get row col) = true -> amount row col = parseFloat (get row col)).
Proof.
  intros Hdata Hne Hs He Hread bs filename.
  split; [|split; [|split; [|split]]].
  - rewrite (generate_writes h st req data normalizedStart normalizedEnd percents
               Hdata Hne Hs He Hread).
    apply lookup_insert_eq.
  - intros b row Hb Hrow. unfold ReportSpec.detailSheet.
    apply in_or_app. left. apply in_flat_map. exists b. split; [exact Hb|].
    unfold ReportSpec.detailBlock. apply in_or_app. left.
    apply (in_map (ReportSpec.detailRow b)) in Hrow. exact Hrow.
  - intros b Hb. unfold ReportSpec.summarySheet.
    apply in_or_app. left. apply (in_map ReportSpec.summaryRow) in Hb. exact Hb.
  - exact amount_falsy.
  - exact amount_truthy.
Qed.

Lemma report_rows_and_totals_witness :
  let bs := ReportSpec.blocks Fixtures.acmeData "2024-01-01" "2024-01-02"
              [("Acme", 2.5%float)] in
  Server.outputDir (fst (Server.generate Fixtures.host Fixtures.acmeState Fixtures.acmeRequest))
    !! "report-panel-1-1700000000000.xlsx" =
    Some [("Detailed Data", ReportSpec.detailSheet bs);
          ("Summary", ReportSpec.summarySheet bs)] /\
  (forall b row,
     In b bs -> In row (ReportSpec.b_rows b) ->
     In [("Merchant", VStr (ReportSpec.b_merchant b));
         ("Withdrawal Amount", VNum (amount row "Withdrawal Amount"));
         ("Withdrawal Fees", VNum (amount row "Withdrawal Fees"));
         (percentKey (ReportSpec.b_percent b),
          VStr (toFixed2 (amount row "Withdrawal Amount" * ReportSpec.b_percent b / 100)%float))]
        (ReportSpec.detailSheet bs)) /\
  (forall b,
     In b bs ->
     In [("Merchant", VStr (ReportSpec.b_merchant b));
         ("Total Withdrawal Amount",
          VStr (toFixed2 (ReportSpec.fsum
                            (map (fun row => amount row "Withdrawal Amount")
                               (ReportSpec.b_rows b)))));
         ("Total Withdrawal Fees",
          VStr (toFixed2 (ReportSpec.fsum
                            (map (fun row => amount row "Withdrawal Fees")
                               (ReportSpec.b_rows b)))));
         (percentKey (ReportSpec.b_percent b),
          VStr (toFixed2 (ReportSpec.fsum
                            (map (fun row => (amount row "Withdrawal Amount" *
                                              ReportSpec.b_percent b / 100)%float)
                               (ReportSpec.b_rows b)))))]
        (ReportSpec.summarySheet bs)) /\
  (forall row col, truthy (get row col) = false -> amount row col = 0%float) /\
  (forall row col, truthy (get row col) = true -> amount row col = parseFloat (get row col)).
Proof.
  apply (report_rows_and_totals Fixtures.host Fixtures.acmeState Fixtures.acmeRequest
           Fixtures.acmeData "2024-01-01" "2024-01-02" [("Acme", 2.5%float)]).
  - vm_compute. reflexivity.
  - discriminate.
  - vm_compute. reflexivity.
  - vm_compute. reflexivity.
  - vm_compute. reflexivity.
Defined.

(** The scenario of the specification: Acme at 2.5 percent over both
    days has totals 300.00, 15.00 and 7.50, and the grand total row
    repeats them. *)
Example acme_scenario :
  snd (Server.generate Fixtures.host Fixtures.acmeState Fixtures.acmeRequest) =
  {| status := 200;
     json := Generated
       [[("Merchant", VStr "Acme");
         ("Total Withdrawal Amount", VStr "300.00");
         ("Total Withdrawal Fees", VStr "15.00");
         ("2.5% Amount", VStr "7.50")];
        [("Merchant", VStr "TOTAL");
         ("Total Withdrawal Amount", VStr "300.00");
         ("Total Withdrawal Fees", VStr "15.00");
         ("TOTAL % Amount", VStr "7.50")]]
       "/output/report-panel-1-1700000000000.xlsx" None |}.
Proof. vm_compute. reflexivity. Qed.

(** C2: for a request that [src/server.js] serves (the panel has rows,
    both dates normalize, [parseFloat] reads every percent without
    throwing, the database accepts the record), the last row
    of the summary it answers carries the sums, over the merchants
    included, of their total withdrawals, of their total fees and of
    their total percent amounts, and so does the grand total row that
    closes the detail sheet.  Sums are JavaScript's: left to right from
    0 in doubles, shown with two decimals. *)
Theorem grand_totals_are_sums (h : Host) (st : Server.State) (req : GenerateReq)
    (data : list obj) (normalizedStart normalizedEnd : string)
    (percents : list (string * float)) :
  Server.globalDataMap st !! Server.panelOf (g_type req) = Some data ->
  data <> [] ->
  normalizeDate h (startDate req) = Normal normalizedStart ->
  normalizeDate h (endDate req) = Normal normalizedEnd ->
  readPercents (merchantPercents req) = Normal percents ->
  dbError h = None ->
  let bs := ReportSpec.blocks data normalizedStart normalizedEnd percents in
  let filename :=
    "report-panel-" ++ Server.panelOf (g_type req) ++ "-" ++ dec_of_Z (now h) ++ ".xlsx" in
  let sumW := ReportSpec.fsum (map ReportSpec.totalWithdrawal bs) in
  let sumF := ReportSpec.fsum (map ReportSpec.totalFees bs) in
  let sumP := ReportSpec.fsum (map ReportSpec.totalPercentAmount bs) in
  snd (Server.generate h st req) =
    {| status := 200;
       json := Generated
         (map ReportSpec.summaryRow bs ++
          [[("Merchant", VStr "TOTAL");
            ("Total Withdrawal Amount", VStr (toFixed2 sumW));
            ("Total Withdrawal Fees", VStr (toFixed2 sumF));
            ("TOTAL % Amount", VStr (toFixed2 sumP))]])%list
         ("/output/" ++ filename) None |} /\
  exists summarySheet,
    Server.outputDir (fst (Server.generate h st req)) !! filename =
      Some [("Detailed Data",
             (flat_map ReportSpec.detailBlock bs ++
              [[("Merchant", VStr "GRAND TOTAL");
                ("Withdrawal Amount", VStr (toFixed2 sumW));
                ("Withdrawal Fees", VStr (toFixed2 sumF));
                ("TOTAL % Amount", VStr (toFixed2 sumP))]])%list);
            ("Summary", summarySheet)].
Proof.
  intros Hdata Hne Hs He Hread Hdb bs filename sumW sumF sumP. split.
  - now rewrite (generate_answers h st req data normalizedStart normalizedEnd percents
                   Hdata Hne Hs He Hread Hdb).
  - exists (ReportSpec.summarySheet bs).
    rewrite (generate_writes h st req data normalizedStart normalizedEnd percents
               Hdata Hne Hs He Hread).
    apply lookup_insert_eq.
Qed.

Lemma grand_totals_are_sums_witness :
  let bs := ReportSpec.blocks Fixtures.acmeData "2024-01-01" "2024-01-02"
              [("Acme", 2.5%float)] in
  let sumW := ReportSpec.fsum (map ReportSpec.totalWithdrawal bs) in
  let sumF := ReportSpec.fsum (map ReportSpec.totalFees bs) in
  let sumP := ReportSpec.fsum (map ReportSpec.totalPercentAmount bs) in
  snd (Server.generate Fixtures.host Fixtures.acmeState Fixtures.acmeRequest) =
    {| status := 200;
       json := Generated
         (map ReportSpec.summaryRow bs ++
          [[("Merchant", VStr "TOTAL");
            ("Total Withdrawal Amount", VStr (toFixed2 sumW));
            ("Total Withdrawal Fees", VStr (toFixed2 sumF));
            ("TOTAL % Amount", VStr (toFixed2 sumP))]])%list
         "/output/report-panel-1-1700000000000.xlsx" None |} /\
  exists summarySheet,
    Server.outputDir (fst (Server.generate Fixtures.host Fixtures.acmeState Fixtures.acmeRequest))
      !! "report-panel-1-1700000000000.xlsx" =
      Some [("Detailed Data",
             (flat_map ReportSpec.detailBlock bs ++
              [[("Merchant", VStr "GRAND TOTAL");
                ("Withdrawal Amount", VStr (toFixed2 sumW));
                ("Withdrawal Fees", VStr (toFixed2 sumF));
                ("TOTAL % Amount", VStr (toFixed2 sumP))]])%list);
            ("Summary", summarySheet)].
Proof.
  apply (grand_totals_are_sums Fixtures.host Fixtures.acmeState Fixtures.acmeRequest
           Fixtures.acmeData "2024-01-01" "2024-01-02" [("Acme", 2.5%float)]).
  - vm_compute. reflexivity.
  - discriminate.
  - vm_compute. reflexivity.
  - vm_compute. reflexivity.
  - vm_compute. reflexivity.
  - reflexivity.
Defined.

(** ** The date filter *)

Example isoDay_2024 :
  ReportSpec.isoDay 19723 = "2024-01-01" /\ ReportSpec.isoDay 19724 = "2024-01-02".
Proof. split; vm_compute; reflexivity. Qed.

(** The rows of step 3b, in words: the row's [DateOnly] is a string
    lexically at or after the start and at or before the end, and its
    merchant name is the merchant. *)
Lemma selected_lex (startDate endDate merchant : string) (row : obj) :
  ReportSpec.selected startDate endDate merchant row = true <->
  (exists d, get row "DateOnly" = VStr d /\
             ReportSpec.lex_le startDate d /\ ReportSpec.lex_le d endDate) /\
  get row "Merchant Name" = VStr merchant.
Proof.
  unfold ReportSpec.selected, ReportSpec.inRange. rewrite andb_true_iff.
  fold (str_leb endDate) (str_geb startDate).
  destruct (get row "DateOnly") as [| | | |d|];
    try (split; [intros [H _]; discriminate|intros [(d' & H & _) _]; discriminate]).
  fold (str_geb d startDate) (str_leb d endDate).
  rewrite andb_true_iff, str_geb_lex, str_leb_lex.
  destruct (get row "Merchant Name") as [| | | |name|];
    try (split; [intros [_ H]; discriminate|intros [_ H]; discriminate]).
  rewrite String.eqb_eq. split.
  - intros [H ->]. split; [now exists d|reflexivity].
  - intros [(d' & [= <-] & H) [= ->]]. now split.
Qed.

(** C7: the date filter of [src/server.js] is inclusive at both ends.
    The predicate of [data.filter] lets a row through for a merchant
    exactly when its [DateOnly] is a string lexically (code unit by
    code unit) at or after the normalized start and at or before the
    normalized end, and its merchant name is the merchant.  The detail sheet that a request
    writes holds, merchant by merchant, one row for each row of the
    dataset that passes, and no other.  On canonical day strings the
    lexical order is the order of days, so a row dated on the first or
    on the last day of the range passes and a row dated the day before
    the first or the day after the last does not. *)
Theorem date_filter_inclusive (h : Host) (st : Server.State) (req : GenerateReq)
    (data : list obj) (normalizedStart normalizedEnd : string)
    (percents : list (string * float)) :
  Server.globalDataMap st !! Server.panelOf (g_type req) = Some data ->
  data <> [] ->
  normalizeDate h (startDate req) = Normal normalizedStart ->
  normalizeDate h (endDate req) = Normal normalizedEnd ->
  readPercents (merchantPercents req) = Normal percents ->
  let passes (merchant : string) (row : obj) : Prop :=
    (exists d, get row "DateOnly" = VStr d /\
               ReportSpec.lex_le normalizedStart d /\ ReportSpec.lex_le d normalizedEnd) /\
    get row "Merchant Name" = VStr merchant in
  let filename :=
    "report-panel-" ++ Server.panelOf (g_type req) ++ "-" ++ dec_of_Z (now h) ++ ".xlsx" in
  (forall merchant row,
     Server.matches normalizedStart normalizedEnd merchant row = true <-> passes merchant row) /\
  (exists bs summary,
     Server.outputDir (fst (Server.generate h st req)) !! filename =
       Some [("Detailed Data",
              (flat_map (fun b => map (ReportSpec.detailRow b) (ReportSpec.b_rows b) ++
                                  [ReportSpec.subtotalRow b]) bs ++
               [ReportSpec.grandDetailRow bs])%list);
             ("Summary", summary)] /\
     map (fun b => (ReportSpec.b_merchant b, ReportSpec.b_percent b)) bs =
       List.filter (fun entry =>
                      negb (PrimFloat.is_nan (snd entry)) &&
                      existsb (Server.matches normalizedStart normalizedEnd (fst entry)) data)
         percents /\
     forall b, In b bs ->
       ReportSpec.b_rows b <> [] /\
       exists pass : obj -> bool,
         ReportSpec.b_rows b = List.filter pass data /\
         forall row, pass row = true <-> passes (ReportSpec.b_merchant b) row) /\
  (forall (s e d : Z) (merchant : string) (row : obj),
     ReportSpec.fourDigitYear s -> ReportSpec.fourDigitYear e -> ReportSpec.fourDigitYear d ->
     normalizedStart = ReportSpec.isoDay s ->
     normalizedEnd = ReportSpec.isoDay e ->
     get row "DateOnly" = VStr (ReportSpec.isoDay d) ->
     get row "Merchant Name" = VStr merchant ->
     (Server.matches normalizedStart normalizedEnd merchant row = true <-> s <= d <= e)).
Proof.
  intros Hdata Hne Hs He Hread passes filename.
  assert (Hm : forall merchant row,
             Server.matches normalizedStart normalizedEnd merchant row = true <->
             passes merchant row).
  { intros merchant row. rewrite matches_selected. apply selected_lex. }
  split; [exact Hm|split].
  - exists (ReportSpec.blocks data normalizedStart normalizedEnd percents),
      (ReportSpec.summarySheet (ReportSpec.blocks data normalizedStart normalizedEnd percents)).
    split; [|split].
    + rewrite (generate_writes h st req data normalizedStart normalizedEnd percents
                 Hdata Hne Hs He Hread).
      apply lookup_insert_eq.
    + unfold ReportSpec.blocks. clear Hread.
      induction percents as [|entry ps IH]; [reflexivity|].
      cbn [flat_map List.filter]. rewrite map_app, IH. unfold ReportSpec.blockOf.
      rewrite (filter_ext _ _ (fun row => eq_sym (matches_selected
                 normalizedStart normalizedEnd (fst entry) row))).
      destruct (PrimFloat.is_nan (snd entry)); [reflexivity|]. cbn [negb andb].
      destruct (existsb _ data) eqn:E.
      * apply existsb_exists in E as (row & Hin & Hrow).
        destruct (List.filter _ data) as [|r rs] eqn:F.
        -- assert (Hf : In row (List.filter
                      (Server.matches normalizedStart normalizedEnd (fst entry)) data))
             by now apply filter_In.
           rewrite F in Hf. destruct Hf.
        -- destruct entry. reflexivity.
      * destruct (List.filter _ data) as [|r rs] eqn:F; [reflexivity|].
        assert (Hf : In r (List.filter
                     (Server.matches normalizedStart normalizedEnd (fst entry)) data))
          by (rewrite F; now left).
        apply filter_In in Hf as [Hin Hrow].
        assert (existsb (Server.matches normalizedStart normalizedEnd (fst entry)) data = true)
          by (apply existsb_exists; eauto).
        congruence.
    + intros b Hb. unfold ReportSpec.blocks in Hb.
      apply in_flat_map in Hb as (entry & _ & Hb). unfold ReportSpec.blockOf in Hb.
      destruct (PrimFloat.is_nan (snd entry)); [destruct Hb|].
      destruct (List.filter _ data) as [|r rs] eqn:F; [destruct Hb|].
      destruct Hb as [<-|[]]. cbn [ReportSpec.b_rows ReportSpec.b_merchant].
      split; [discriminate|].
      exists (ReportSpec.selected normalizedStart normalizedEnd (fst entry)).
      split; [now rewrite F|]. intros row. apply selected_lex.
  - intros s e d merchant row Hfs Hfe Hfd -> -> Hrow Hname. rewrite Hm.
    unfold passes. rewrite <- (isoDay_lex_le s d Hfs Hfd), <- (isoDay_lex_le d e Hfd Hfe).
    split.
    + intros [(d' & Hd' & H) _]. rewrite Hrow in Hd'. injection Hd' as <-. exact H.
    + intros H. split; [now exists (ReportSpec.isoDay d)|exact Hname].
Qed.

Lemma date_filter_inclusive_witness :
  let passes (merchant : string) (row : obj) : Prop :=
    (exists d, get row "DateOnly" = VStr d /\
               ReportSpec.lex_le "2024-01-01" d /\ ReportSpec.lex_le d "2024-01-02") /\
    get row "Merchant Name" = VStr merchant in
  (forall merchant row,
     Server.matches "2024-01-01" "2024-01-02" merchant row = true <-> passes merchant row) /\
  (exists bs summary,
     Server.outputDir (fst (Server.generate Fixtures.host Fixtures.acmeState Fixtures.acmeRequest))
       !! "report-panel-1-1700000000000.xlsx" =
       Some [("Detailed Data",
              (flat_map (fun b => map (ReportSpec.detailRow b) (ReportSpec.b_rows b) ++
                                  [ReportSpec.subtotalRow b]) bs ++
               [ReportSpec.grandDetailRow bs])%list);
             ("Summary", summary)] /\
     map (fun b => (ReportSpec.b_merchant b, ReportSpec.b_percent b)) bs =
       List.filter (fun entry =>
                      negb (PrimFloat.is_nan (snd entry)) &&
                      existsb (Server.matches "2024-01-01" "2024-01-02" (fst entry))
                        Fixtures.acmeData)
         [("Acme", 2.5%float)] /\
     forall b, In b bs ->
       ReportSpec.b_rows b <> [] /\
       exists pass : obj -> bool,
         ReportSpec.b_rows b = List.filter pass Fixtures.acmeData /\
         forall row, pass row = true <-> passes (ReportSpec.b_merchant b) row) /\
  (forall (s e d : Z) (merchant : string) (row : obj),
     ReportSpec.fourDigitYear s -> ReportSpec.fourDigitYear e -> ReportSpec.fourDigitYear d ->
     "2024-01-01" = ReportSpec.isoDay s ->
     "2024-01-02" = ReportSpec.isoDay e ->
     get row "DateOnly" = VStr (ReportSpec.isoDay d) ->
     get row "Merchant Name" = VStr merchant ->
     (Server.matches "2024-01-01" "2024-01-02" merchant row = true <-> s <= d <= e)).
Proof.
  apply (date_filter_inclusive Fixtures.host Fixtures.acmeState Fixtures.acmeRequest
           Fixtures.acmeData "2024-01-01" "2024-01-02" [("Acme", 2.5%float)]).
  - vm_compute. reflexivity.
  - discriminate.
  - vm_compute. reflexivity.
  - vm_compute. reflexivity.
  - vm_compute. reflexivity.
Defined.

(** The boundary cases on the Acme dataset, whose rows are dated
    2024-01-01 and 2024-01-02: a range that ends (or starts) on the day
    of a row includes it, a range that ends the day before (or starts
    the day after) does not. *)
Example boundary_days :
  map (Server.inDateRange "2024-01-01" "2024-01-02") Fixtures.acmeData = [true; true] /\
  map (Server.inDateRange "2024-01-02" "2024-01-02") Fixtures.acmeData = [false; true] /\
  map (Server.inDateRange "2024-01-01" "2024-01-01") Fixtures.acmeData = [true; false] /\
  map (Server.inDateRange "2023-12-30" "2023-12-31") Fixtures.acmeData = [false; false] /\
  map (Server.inDateRange "2024-01-03" "2024-01-04") Fixtures.acmeData = [false; false].
Proof. repeat split; vm_compute; reflexivity. Qed.

(** ** The panels of the dataset store *)

Lemma panelOf_cases (type : value) : Server.panelOf type = "1" \/ Server.panelOf type = "2".
Proof. unfold Server.panelOf. destruct (strict_eq_str type "Withdrawal"); auto. Qed.

Lemma initial_panels : dom (Server.globalDataMap Server.initial) = ({[ "1"; "2" ]} : gset string).
Proof. unfold Server.initial. cbn. rewrite !dom_insert_L, dom_empty_L. set_solver. Qed.

(** An upload either leaves the cache alone or replaces the rows of the
    selected panel. *)
Lemma upload_cache (h : Host) (st : Server.State) (req : UploadReq) :
  Server.globalDataMap (fst (Server.upload h st req)) = Server.globalDataMap st \/
  exists rows,
    Server.globalDataMap (fst (Server.upload h st req)) =
    <[Server.panelOf (u_type req) := rows]> (Server.globalDataMap st).
Proof.
  unfold Server.upload.
  destruct (u_file req) as [file|]; [|now left].
  destruct (rawData file) as [[|row rows]|e]; [now left| |now left].
  destruct (mapC (Server.processRow h) (row :: rows)) as [processed|e]; [|now left].
  right. exists processed. destruct (dbError h); reflexivity.
Qed.

(** C10: an upload to one panel of the two-panel store of
    [src/server.js] leaves every other panel with the same rows, and
    the store keeps the panels it had. *)
Theorem upload_touches_one_panel (h : Host) (st : Server.State) (req : UploadReq) :
  dom (Server.globalDataMap st) = ({[ "1"; "2" ]} : gset string) ->
  (forall panel : string,
     panel <> Server.panelOf (u_type req) ->
     Server.globalDataMap (fst (Server.upload h st req)) !! panel =
     Server.globalDataMap st !! panel) /\
  dom (Server.globalDataMap (fst (Server.upload h st req))) = ({[ "1"; "2" ]} : gset string).
Proof.
  intros Hdom.
  destruct (upload_cache h st req) as [->|[rows ->]]; [now split|].
  split.
  - intros panel Hne. now rewrite lookup_insert_ne.
  - rewrite dom_insert_L, Hdom.
    destruct (panelOf_cases (u_type req)) as [->| ->]; set_solver.
Qed.

Lemma upload_touches_one_panel_witness :
  (forall panel : string,
     panel <> Server.panelOf VUndef ->
     Server.globalDataMap
       (fst (Server.upload Fixtures.host Server.initial (Fixtures.uploadOf VUndef Fixtures.acmeSheet)))
       !! panel =
     Server.globalDataMap Server.initial !! panel) /\
  dom (Server.globalDataMap
         (fst (Server.upload Fixtures.host Server.initial
                 (Fixtures.uploadOf VUndef Fixtures.acmeSheet)))) =
  ({[ "1"; "2" ]} : gset string).
Proof.
  apply (upload_touches_one_panel Fixtures.host Server.initial
           (Fixtures.uploadOf VUndef Fixtures.acmeSheet)).
  exact initial_panels.
Defined.

(** After the Acme upload panel 1 holds the sheet and panel 2 is still
    empty. *)
Example upload_acme :
  Server.globalDataMap Fixtures.acmeState !! "1" = Some Fixtures.acmeData /\
  Server.globalDataMap Fixtures.acmeState !! "2" = Some [].
Proof. split; vm_compute; reflexivity. Qed.

(** ** Checks that [src/server.js] does not make

    The embedded server validates the date range, the merchants and the
    columns; [src/server.js] does not.  Each lemma evaluates
    [src/server.js] at an input that the check would have refused. *)

(** C3 at [startDate = 2024-01-02], [endDate = 2024-01-01] on the Acme
    dataset: the normalized start is lexically after the normalized end,
    and [src/server.js] answers 200 and writes a report of totals 0.00. *)
Lemma server_accepts_reversed_range :
  normalizeDate Fixtures.host (startDate Fixtures.reversedRequest) = Normal "2024-01-02" /\
  normalizeDate Fixtures.host (endDate Fixtures.reversedRequest) = Normal "2024-01-01" /\
  str_ltb "2024-01-01" "2024-01-02" = true /\
  snd (Server.generate Fixtures.host Fixtures.acmeState Fixtures.reversedRequest) =
    {| status := 200;
       json := Generated
         [[("Merchant", VStr "TOTAL");
           ("Total Withdrawal Amount", VStr "0.00");
           ("Total Withdrawal Fees", VStr "0.00");
           ("TOTAL % Amount", VStr "0.00")]]
         "/output/report-panel-1-1700000000000.xlsx" None |} /\
  Server.outputDir (fst (Server.generate Fixtures.host Fixtures.acmeState Fixtures.reversedRequest))
    !! "report-panel-1-1700000000000.xlsx" =
    Some [("Detailed Data",
           [[("Merchant", VStr "GRAND TOTAL");
             ("Withdrawal Amount", VStr "0.00");
             ("Withdrawal Fees", VStr "0.00");
             ("TOTAL % Amount", VStr "0.00")]]);
          ("Summary",
           [[("Merchant", VStr "TOTAL");
             ("Total Withdrawal Amount", VStr "0.00");
             ("Total Withdrawal Fees", VStr "0.00");
             ("TOTAL % Amount", VStr "0.00")]])].
Proof. repeat split; vm_compute; reflexivity. Qed.

(** C4 at a request whose only merchant, Ghost, is not in the dataset:
    no merchant produces a row, and [src/server.js] answers 200 with a
    summary that is the zero total row alone. *)
Lemma server_accepts_unmatched_merchants :
  readPercents (merchantPercents Fixtures.ghostRequest) = Normal [("Ghost", 5%float)] /\
  ReportSpec.blocks Fixtures.acmeData "2024-01-01" "2024-01-02" [("Ghost", 5%float)] = [] /\
  snd (Server.generate Fixtures.host Fixtures.acmeState Fixtures.ghostRequest) =
    {| status := 200;
       json := Generated
         [[("Merchant", VStr "TOTAL");
           ("Total Withdrawal Amount", VStr "0.00");
           ("Total Withdrawal Fees", VStr "0.00");
           ("TOTAL % Amount", VStr "0.00")]]
         "/output/report-panel-1-1700000000000.xlsx" None |}.
Proof. repeat split; vm_compute; reflexivity. Qed.

(** C5 at the serials 1, 45000 and 45292: [extractDateOnly] adds
    [value - 1] days to 1899-12-30, so serial 1 is 1899-12-30 itself,
    serial 45000 is 2023-03-14 and serial 45292 is 2023-12-31, each one
    day before the date counted from the epoch (1899-12-31, 2023-03-15
    and 2024-01-01).  The embedded server computes the same. *)
Lemma serial_dates_one_day_early (h : Host) :
  Server.extractDateOnly h (VNum 1) = Normal "1899-12-30" /\
  Server.extractDateOnly h (VNum 45000) = Normal "2023-03-14" /\
  Server.extractDateOnly h (VNum 45292) = Normal "2023-12-31" /\
  Embedded.extractDateOnly h (VNum 45000) = Normal "2023-03-14" /\
  ReportSpec.isoDay (MakeDay 1899 11 30 + 1) = "1899-12-31" /\
  ReportSpec.isoDay (MakeDay 1899 11 30 + 45000) = "2023-03-15" /\
  ReportSpec.isoDay (MakeDay 1899 11 30 + 45292) = "2024-01-01".
Proof. repeat split; vm_compute; reflexivity. Qed.

(** C6 at the string [45-13-2024]: it has the shape day-month-year, is
    rearranged to [2024-13-45], which no engine reads as a date, and
    [toISOString] throws.  The embedded server returns the empty string
    here; it throws as well on a serial too large for a date. *)
Lemma extractDateOnly_throws (h : Host) :
  Server.extractDateOnly h (VStr "45-13-2024") = Throw (RangeError "Invalid time value") /\
  Embedded.extractDateOnly h (VStr "45-13-2024") = Normal "" /\
  Server.extractDateOnly h (VNum 1e16) = Throw (RangeError "Invalid time value") /\
  Embedded.extractDateOnly h (VNum 1e16) = Throw (RangeError "Invalid time value") /\
  Server.upload h Server.initial
    (Fixtures.uploadOf VUndef
       [[("Merchant Name", VStr "Acme"); ("Withdrawal Amount", VNum 100);
         ("Withdrawal Fees", VNum 5); ("Date", VStr "45-13-2024")]]) =
  (Server.initial, fail 500 "Invalid time value").
Proof. repeat split; vm_compute; reflexivity. Qed.

(** C8 at a sheet whose only column is [Foo]: [src/server.js] answers
    200 and panel 1 holds the sheet. *)
Lemma server_ingests_any_columns :
  Embedded.missingColumns (hd [] Fixtures.strangeSheet) =
    ["Merchant Name"; "Withdrawal Amount"; "Withdrawal Fees"] /\
  Embedded.hasDateColumn (hd [] Fixtures.strangeSheet) = false /\
  snd (Server.upload Fixtures.host Server.initial (Fixtures.uploadOf VUndef Fixtures.strangeSheet)) =
    {| status := 200; json := Uploaded [] None |} /\
  Server.globalDataMap
    (fst (Server.upload Fixtures.host Server.initial (Fixtures.uploadOf VUndef Fixtures.strangeSheet)))
    !! "1" = Some [[("Foo", VNum 1); ("DateOnly", VStr "")]].
Proof. repeat split; vm_compute; reflexivity. Qed.

(** C9 at the Acme request on the embedded server: after the report
    both rows of the stored dataset have a new field, [2.5% Amount]. *)
Lemma embedded_generate_mutates_rows :
  Embedded.dataset Fixtures.acmeEmbedded = Fixtures.acmeData /\
  Embedded.dataset
    (fst (Embedded.generate Fixtures.host Fixtures.acmeEmbedded Fixtures.acmeRequest)) =
    [[("Merchant Name", VStr "Acme"); ("Withdrawal Amount", VNum 100);
      ("Withdrawal Fees", VNum 5); ("Date", VStr "2024-01-01");
      ("DateOnly", VStr "2024-01-01"); ("2.5% Amount", VNum 2.5)];
     [("Merchant Name", VStr "Acme"); ("Withdrawal Amount", VNum 200);
      ("Withdrawal Fees", VNum 10); ("Date", VStr "2024-01-02");
      ("DateOnly", VStr "2024-01-02"); ("2.5% Amount", VNum 5)]].
Proof. split; vm_compute; reflexivity. Qed.

(** ** The checks of the embedded server *)

Section EmbeddedChecks.

Variables (h : Host) (st : Embedded.State).

(** A merchant whose percent is not a number, or that matches none of
    the rows in range, leaves the accumulators as they are. *)
Lemma embedded_merchantStep_skip (dateFiltered : list nat) (acc : Embedded.Acc)
    (entry : string * float) :
  PrimFloat.is_nan (snd entry) = true \/
  List.filter (fun a => strict_eq_str (get (Embedded.deref (Embedded.a_heap acc) a) "Merchant Name")
                          (fst entry)) dateFiltered = [] ->
  Embedded.merchantStep dateFiltered acc entry = acc.
Proof.
  unfold Embedded.merchantStep. intros [Hnan|Hrows].
  - now rewrite Hnan.
  - rewrite Hrows. now destruct (PrimFloat.is_nan _).
Qed.

Lemma embedded_loop_skip (dateFiltered : list nat) (es : list (string * completion float))
    (acc : Embedded.Acc) :
  (forall entry, In entry es ->
     exists percent,
       snd entry = Normal percent /\
       (PrimFloat.is_nan percent = true \/
        List.filter (fun a => strict_eq_str
                                (get (Embedded.deref (Embedded.a_heap acc) a) "Merchant Name")
                                (fst entry)) dateFiltered = [])) ->
  Embedded.runLoop dateFiltered es acc = (acc, None).
Proof.
  induction es as [|[merchant read] es IH]; intros Hall; [reflexivity|].
  destruct (Hall (merchant, read) ltac:(now left)) as (percent & Hread & Hskip).
  cbn [snd fst] in Hread, Hskip. subst read. cbn [Embedded.runLoop].
  rewrite (embedded_merchantStep_skip dateFiltered acc (merchant, percent)) by exact Hskip.
  apply IH. intros e He. apply Hall. now right.
Qed.

Variable req : GenerateReq.
Variables normalizedStart normalizedEnd : string.

Hypothesis Hmp : truthyJ (merchantPercents req) = true.
Hypothesis Hstart_given : truthyJ (startDate req) = true.
Hypothesis Hend_given : truthyJ (endDate req) = true.
Hypothesis Hstart : normalizeDate h (startDate req) = Normal normalizedStart.
Hypothesis Hend : normalizeDate h (endDate req) = Normal normalizedEnd.

(** X1: the embedded server refuses a range whose start is after its
    end, and changes nothing. *)
Lemma embedded_rejects_reversed_range :
  ReportSpec.lex_lt normalizedEnd normalizedStart ->
  Embedded.generate h st req = (st, fail 400 "Start date after end date").
Proof.
  intros Hlt. apply str_ltb_lex in Hlt. unfold Embedded.generate.
  rewrite Hmp, Hstart_given, Hend_given, Hstart, Hend. cbn [negb orb mbind completion_bind].
  now rewrite Hlt.
Qed.

(** X2: the embedded server refuses a request each of whose merchants
    has a percent that is read as not a number, or has no row in range,
    and changes nothing. *)
Lemma embedded_rejects_unmatched_merchants :
  ReportSpec.lex_le normalizedStart normalizedEnd ->
  Embedded.dateFilter st normalizedStart normalizedEnd <> [] ->
  (forall entry, In entry (percentsOf (merchantPercents req)) ->
     exists percent,
       snd entry = Normal percent /\
       (PrimFloat.is_nan percent = true \/
        List.filter (fun a => strict_eq_str
                                (get (Embedded.deref (Embedded.heap st) a) "Merchant Name")
                                (fst entry))
          (Embedded.dateFilter st normalizedStart normalizedEnd) = [])) ->
  Embedded.generate h st req = (st, fail 404 "No matching merchant data").
Proof.
  intros Hle Hrows Hall. apply str_leb_lex in Hle. unfold str_leb in Hle.
  apply negb_true_iff in Hle. unfold Embedded.generate.
  rewrite Hmp, Hstart_given, Hend_given, Hstart, Hend. cbn [negb orb mbind completion_bind].
  rewrite Hle.
  destruct (Embedded.dateFilter st normalizedStart normalizedEnd) as [|a rows] eqn:Edf;
    [contradiction|].
  rewrite embedded_loop_skip by exact Hall.
  cbn [Embedded.noRows Embedded.summaryData Embedded.a_heap]. now destruct st.
Qed.

End EmbeddedChecks.

(** The columns the embedded server reports are exactly the required
    ones that the first row lacks. *)
Lemma missingColumns_exact (firstRow : obj) (col : string) :
  In col (Embedded.missingColumns firstRow) <->
  In col Embedded.requiredColumns /\ hasOwnProperty firstRow col = false.
Proof.
  unfold Embedded.missingColumns. rewrite filter_In, negb_true_iff. reflexivity.
Qed.

(** X3: the embedded server refuses a sheet whose first row lacks a
    required column or has no date column, names what is missing, and
    keeps its dataset. *)
Lemma embedded_rejects_missing_columns (h : Host) (st : Embedded.State) (req : UploadReq)
    (file : File) (firstRow : obj) (rest : list obj) :
  u_file req = Some file ->
  rawData file = Normal (firstRow :: rest) ->
  Embedded.missingColumns firstRow <> [] \/ Embedded.hasDateColumn firstRow = false ->
  Embedded.upload h st req = (st, fail 400 (Embedded.missingMessage firstRow)).
Proof.
  intros Hfile Hrows Hmiss. unfold Embedded.upload. rewrite Hfile, Hrows.
  destruct Hmiss as [Hcols|Hdate].
  - destruct (Embedded.missingColumns firstRow); [contradiction|]. reflexivity.
  - rewrite Hdate, orb_true_r. reflexivity.
Qed.

(** ** [src/server.js] does not touch the rows it reports on *)

Lemma generate_cache (h : Host) (st : Server.State) (req : GenerateReq) :
  Server.globalDataMap (fst (Server.generate h st req)) = Server.globalDataMap st.
Proof.
  unfold Server.generate.
  destruct (Server.globalDataMap st !! Server.panelOf (g_type req)) as [[|row rows]|];
    try reflexivity.
  destruct (normalizeDate h (startDate req)) as [s|e]; [|reflexivity].
  destruct (normalizeDate h (endDate req)) as [s'|e]; [|reflexivity].
  cbn [mbind completion_bind].
  destruct (Server.runLoop _ s s' _ _) as [acc|e]; [|reflexivity].
  cbn [mbind completion_bind]. destruct (dbError h); reflexivity.
Qed.

(** X4: whatever the request and its outcome, [POST /api/generate]
    leaves every panel of the cache with the rows it had. *)
Theorem server_generate_keeps_dataset (h : Host) (st : Server.State) (req : GenerateReq) :
  forall panel : string,
    Server.globalDataMap (fst (Server.generate h st req)) !! panel =
    Server.globalDataMap st !! panel.
Proof. intros panel. now rewrite generate_cache. Qed.

(** ** Every stored row has its [DateOnly] string *)

Lemma get_set (o : obj) (k : string) (v : value) : get (set o k v) k = v.
Proof.
  induction o as [|[k' v'] o IH]; cbn.
  - now rewrite String.eqb_refl.
  - destruct (String.eqb k' k) eqn:E; cbn; rewrite E; [reflexivity|exact IH].
Qed.

Lemma mapC_Forall {A B} (f : A -> completion B) (P : B -> Prop) (xs : list A) (ys : list B) :
  (forall x y, f x = Normal y -> P y) -> mapC f xs = Normal ys -> Forall P ys.
Proof.
  intros Hf. revert ys. induction xs as [|x xs IH]; intros ys; cbn.
  - intros [= <-]. constructor.
  - destruct (f x) as [y|e] eqn:Ey; cbn; [|discriminate].
    destruct (mapC f xs) as [ys'|e]; cbn; [|discriminate].
    intros [= <-]. constructor; [now apply (Hf x)|now apply IH].
Qed.

Lemma processRow_dated (h : Host) (row row' : obj) :
  Server.processRow h row = Normal row' -> ReportSpec.dated row'.
Proof.
  unfold Server.processRow. destruct (Server.extractDateOnly h _) as [d|e]; cbn; [|discriminate].
  intros [= <-]. exists d. apply get_set.
Qed.

Lemma initial_storeDated : ReportSpec.storeDated Server.initial.
Proof.
  intros panel rows. unfold Server.initial. cbn.
  rewrite lookup_insert. case_decide; [intros [= <-]; constructor|].
  rewrite lookup_insert. case_decide; [intros [= <-]; constructor|].
  rewrite lookup_empty. discriminate.
Qed.

Lemma upload_storeDated (h : Host) (st : Server.State) (req : UploadReq) :
  ReportSpec.storeDated st -> ReportSpec.storeDated (fst (Server.upload h st req)).
Proof.
  intros Hst. unfold Server.upload.
  destruct (u_file req) as [file|]; [|exact Hst].
  destruct (rawData file) as [[|row rows]|e]; [exact Hst | |exact Hst].
  destruct (mapC (Server.processRow h) (row :: rows)) as [processed|e] eqn:Emap; [|exact Hst].
  assert (Hnew : Forall ReportSpec.dated processed).
  { apply (mapC_Forall (Server.processRow h) _ (row :: rows)); [|exact Emap].
    intros x y. apply processRow_dated. }
  assert (Hins : ReportSpec.storeDated
                   {| Server.globalDataMap :=
                        <[Server.panelOf (u_type req) := processed]> (Server.globalDataMap st);
                      Server.outputDir := Server.outputDir st;
                      Server.uploadedFiles := Server.uploadedFiles st;
                      Server.reports := Server.reports st |}).
  { intros panel rs. cbn. rewrite lookup_insert. case_decide.
    - intros [= <-]. exact Hnew.
    - apply Hst. }
  destruct (dbError h); exact Hins.
Qed.

Lemma generate_storeDated (h : Host) (st : Server.State) (req : GenerateReq) :
  ReportSpec.storeDated st -> ReportSpec.storeDated (fst (Server.generate h st req)).
Proof.
  unfold ReportSpec.storeDated. now rewrite generate_cache.
Qed.

(** ** The normalizer of the embedded server *)

Lemma isoOrEmpty_total (tv : option Z) : exists s, Embedded.isoOrEmpty tv = Normal s.
Proof.
  unfold Embedded.isoOrEmpty. destruct tv as [t|].
  - destruct (PrimFloat.is_nan (getTime (Some t))); [now eexists|].
    unfold toISOString. destruct (civil (t / msPerDay)) as [[y m] d]. cbn. now eexists.
  - vm_compute. now eexists.
Qed.

(** A value that does not parse as a date gives the empty string. *)
Lemma isoOrEmpty_invalid : Embedded.isoOrEmpty None = Normal "".
Proof. vm_compute. reflexivity. Qed.

(** X6: in the embedded server [extractDateOnly] returns a string for
    every value that is not a number. *)
Lemma embedded_extractDateOnly_total (h : Host) (v : value) :
  (forall f, v <> VNum f) -> exists s, Embedded.extractDateOnly h v = Normal s.
Proof.
  intros Hnum. unfold Embedded.extractDateOnly.
  destruct (truthy v); cbn [negb]; [|now eexists].
  destruct v as [| |b|f|s|tv]; try apply isoOrEmpty_total.
  - now destruct (Hnum f).
  - destruct (dmy_prefix s); apply isoOrEmpty_total.
Qed.

(** ** The lemmas above at the concrete inputs *)

Lemma embedded_rejects_reversed_range_witness :
  Embedded.generate Fixtures.host Fixtures.acmeEmbedded Fixtures.reversedRequest =
  (Fixtures.acmeEmbedded, fail 400 "Start date after end date").
Proof.
  apply (embedded_rejects_reversed_range Fixtures.host Fixtures.acmeEmbedded
           Fixtures.reversedRequest "2024-01-02" "2024-01-01").
  - reflexivity.
  - reflexivity.
  - reflexivity.
  - vm_compute. reflexivity.
  - vm_compute. reflexivity.
  - apply str_ltb_lex. vm_compute. reflexivity.
Defined.

Lemma embedded_rejects_unmatched_merchants_witness :
  Embedded.generate Fixtures.host Fixtures.acmeEmbedded Fixtures.ghostRequest =
  (Fixtures.acmeEmbedded, fail 404 "No matching merchant data").
Proof.
  apply (embedded_rejects_unmatched_merchants Fixtures.host Fixtures.acmeEmbedded
           Fixtures.ghostRequest "2024-01-01" "2024-01-02").
  - reflexivity.
  - reflexivity.
  - reflexivity.
  - vm_compute. reflexivity.
  - vm_compute. reflexivity.
  - apply str_leb_lex. vm_compute. reflexivity.
  - vm_compute. discriminate.
  - intros entry Hin. vm_compute in Hin. destruct Hin as [<-|[]].
    exists 5%float. split; [reflexivity|]. right. vm_compute. reflexivity.
Defined.

Lemma embedded_rejects_missing_columns_witness :
  Embedded.upload Fixtures.host Fixtures.acmeEmbedded
    (Fixtures.uploadOf VUndef Fixtures.strangeSheet) =
  (Fixtures.acmeEmbedded,
   fail 400 (Embedded.missingMessage (hd [] Fixtures.strangeSheet))).
Proof.
  apply (embedded_rejects_missing_columns Fixtures.host Fixtures.acmeEmbedded
           (Fixtures.uploadOf VUndef Fixtures.strangeSheet)
           {| originalname := "book.xlsx"; path := "uploads/panel-1-input.xlsx";
              rawData := Normal Fixtures.strangeSheet |}
           (hd [] Fixtures.strangeSheet) []).
  - reflexivity.
  - reflexivity.
  - right. vm_compute. reflexivity.
Defined.

Example missing_columns_message :
  Embedded.missingMessage (hd [] Fixtures.strangeSheet) =
  "Missing columns: Merchant Name, Withdrawal Amount, Withdrawal Fees, Date or Transaction Date or Created At".
Proof. vm_compute. reflexivity. Qed.

Lemma embedded_extractDateOnly_total_witness :
  exists s, Embedded.extractDateOnly Fixtures.host (VStr "not a date") = Normal s.
Proof.
  apply (embedded_extractDateOnly_total Fixtures.host (VStr "not a date")).
  intros f. discriminate.
Defined.

(** X5: on canonical day strings of four-digit years the lexical
    order, which both servers use to compare dates, is the order of the
    days. *)
Theorem lexical_order_is_chronological (a b : Z) :
  ReportSpec.fourDigitYear a -> ReportSpec.fourDigitYear b ->
  (str_ltb (ReportSpec.isoDay a) (ReportSpec.isoDay b) = true <-> a < b) /\
  (ReportSpec.lex_le (ReportSpec.isoDay a) (ReportSpec.isoDay b) <-> a <= b).
Proof.
  intros Ha Hb. split.
  - rewrite isoDay_ltb by assumption. apply Z.ltb_lt.
  - now apply isoDay_lex_le.
Qed.

Lemma lexical_order_is_chronological_witness :
  (str_ltb (ReportSpec.isoDay 19723) (ReportSpec.isoDay 19724) = true <-> 19723 < 19724) /\
  (ReportSpec.lex_le (ReportSpec.isoDay 19723) (ReportSpec.isoDay 19724) <-> 19723 <= 19724).
Proof.
  apply (lexical_order_is_chronological 19723 19724).
  - unfold ReportSpec.fourDigitYear. vm_compute. split; easy.
  - unfold ReportSpec.fourDigitYear. vm_compute. split; easy.
Defined.

(** ** Canonical dates are fixed points of the normalizers *)

Section FixedPoint.
Import ReportSpec.

Lemma append_cons (c : ascii) (s t : string) : String c s ++ t = String c (s ++ t).
Proof. reflexivity. Qed.

Lemma append_empty (t : string) : "" ++ t = t.
Proof. reflexivity. Qed.

Lemma isoDay_not_dmy (d : Z) :
  fourDigitYear d -> truthy (VStr (isoDay d)) = true /\ dmy_prefix (isoDay d) = false.
Proof.
  intros Hd. rewrite (isoDay_fields d Hd).
  destruct (civil d) as [[y m] dd].
  cbn [digits_fixed]. unfold two_digits. cbn [digits_fixed].
  rewrite !append_cons, !append_empty.
  split; [reflexivity|].
  unfold dmy_prefix. cbn [list_ascii_of_string].
  rewrite !digit_char_is_digit, digit_char_not_hyphen. reflexivity.
Qed.

(** X7: a canonical day string of a four-digit year is a fixed point of
    the normalization of request dates and of [extractDateOnly] in
    [src/server.js]. *)
Theorem canonical_day_is_fixed_point (h : Host) (d : Z) :
  fourDigitYear d ->
  normalizeDate h (Some (JStr (isoDay d))) = Normal (isoDay d) /\
  Server.extractDateOnly h (VStr (isoDay d)) = Normal (isoDay d).
Proof.
  intros Hd. pose proof (normalizeDate_isoDay h d Hd) as N.
  split; [exact N|].
  destruct (isoDay_not_dmy d Hd) as [Ht Hp].
  unfold Server.extractDateOnly. rewrite Ht, Hp. exact N.
Qed.
End FixedPoint.

Lemma canonical_day_is_fixed_point_witness :
  normalizeDate Fixtures.host (Some (JStr (ReportSpec.isoDay 19723))) = Normal (ReportSpec.isoDay 19723) /\
  Server.extractDateOnly Fixtures.host (VStr (ReportSpec.isoDay 19723)) =
  Normal (ReportSpec.isoDay 19723).
Proof.
  apply (canonical_day_is_fixed_point Fixtures.host 19723).
  unfold ReportSpec.fourDigitYear. vm_compute. split; easy.
Defined.

(** The example of the specification: a day-month-year cell becomes
    year-month-day. *)
Example day_month_year_cell (h : Host) :
  Server.extractDateOnly h (VStr "05-06-2024") = Normal "2024-06-05" /\
  Server.extractDateOnly h (VStr "05-06-2024 10:30:00") = Normal "2024-06-05" /\
  Embedded.extractDateOnly h (VStr "05-06-2024") = Normal "2024-06-05".
Proof. repeat split; vm_compute; reflexivity. Qed.

(** * Laws of the handlers

    What the two handlers of [src/server.js] and the embedded server
    keep, produce and leave alone, for every host, state and request. *)

(** ** [POST /api/upload] of [src/server.js] *)

Section ServerUpload.
Import Laws.

Lemma get_set_other (o : obj) (k k' : string) (v : value) :
  k <> k' -> get (set o k' v) k = get o k.
Proof.
  intros Hne. induction o as [|[k0 v0] o IH]; cbn.
  - destruct (String.eqb_spec k' k); [congruence|reflexivity].
  - destruct (String.eqb_spec k0 k') as [->|Hk]; cbn.
    + destruct (String.eqb_spec k' k); [congruence|reflexivity].
    + destruct (String.eqb k0 k); [reflexivity|exact IH].
Qed.

Lemma mapC_Forall2 {A B} (f : A -> completion B) (xs : list A) (ys : list B) :
  mapC f xs = Normal ys -> Forall2 (fun x y => f x = Normal y) xs ys.
Proof.
  revert ys. induction xs as [|x xs IH]; intros ys; cbn.
  - intros [= <-]. constructor.
  - destruct (f x) as [y|e] eqn:Ey; cbn; [|discriminate].
    destruct (mapC f xs) as [ys'|e]; cbn; [|discriminate].
    intros [= <-]. constructor; [assumption|now apply IH].
Qed.

Lemma mapC_length {A B} (f : A -> completion B) (xs : list A) (ys : list B) :
  mapC f xs = Normal ys -> length ys = length xs.
Proof.
  intros H. apply mapC_Forall2 in H. symmetry. eapply Forall2_length. exact H.
Qed.

(** What a 200 of [POST /api/upload] tells. *)
Lemma upload_ok_inv (h : Host) (st : Server.State) (req : UploadReq) :
  status (snd (Server.upload h st req)) = 200 ->
  exists file raw processed,
    u_file req = Some file /\ rawData file = Normal raw /\ raw <> [] /\
    mapC (Server.processRow h) raw = Normal processed /\ dbError h = None /\
    Server.upload h st req =
    ({| Server.globalDataMap :=
          <[Server.panelOf (u_type req) := processed]> (Server.globalDataMap st);
        Server.outputDir := Server.outputDir st;
        Server.uploadedFiles :=
          Server.uploadedFiles st ++
          [{| Server.uf_panelId := Server.panelOf (u_type req);
              Server.uf_originalName := originalname file;
              Server.uf_filePath := path file;
              Server.uf_merchants := Server.merchantsOf processed;
              Server.uf_data := processed |}];
        Server.reports := Server.reports st |},
     {| status := 200; json := Uploaded (Server.merchantsOf processed) None |}).
Proof.
  unfold Server.upload.
  destruct (u_file req) as [file|]; [|discriminate].
  destruct (rawData file) as [[|row rows]|e] eqn:Eraw; [discriminate| |discriminate].
  destruct (mapC (Server.processRow h) (row :: rows)) as [processed|e] eqn:Emap; [|discriminate].
  destruct (dbError h) as [msg|] eqn:Edb; [discriminate|].
  intros _. exists file, (row :: rows), processed. repeat split; try reflexivity; try assumption.
  discriminate.
Qed.

(** A processed row is the sheet's row with one more cell. *)
Lemma processRow_cells (h : Host) (row row' : obj) :
  Server.processRow h row = Normal row' ->
  (forall k, k <> "DateOnly" -> get row' k = get row k) /\
  exists d, Server.extractDateOnly h (dateCell row) = Normal d /\ get row' "DateOnly" = VStr d.
Proof.
  unfold Server.processRow. fold (dateCell row).
  destruct (Server.extractDateOnly h (dateCell row)) as [d|e]; cbn; [|discriminate].
  intros [= <-]. split.
  - intros k Hk. now apply get_set_other.
  - exists d. split; [reflexivity|apply get_set].
Qed.

(** X8: after an upload answered 200 the selected panel holds the rows
    of the sheet, in order and one for one; a stored row has every cell
    of the sheet's row, and its [DateOnly] is what [extractDateOnly]
    makes of the first truthy cell among [Date], [Transaction Date] and
    [Created At]. *)
Theorem upload_stores_sheet (h : Host) (st : Server.State) (req : UploadReq) :
  status (snd (Server.upload h st req)) = 200 ->
  exists file raw stored,
    u_file req = Some file /\ rawData file = Normal raw /\
    Server.globalDataMap (fst (Server.upload h st req)) !! Server.panelOf (u_type req) =
      Some stored /\
    Forall2 (fun row row' =>
               (forall k, k <> "DateOnly" -> get row' k = get row k) /\
               exists d, Server.extractDateOnly h (dateCell row) = Normal d /\
                         get row' "DateOnly" = VStr d) raw stored.
Proof.
  intros Hok. destruct (upload_ok_inv h st req Hok)
    as (file & raw & processed & Hf & Hraw & _ & Hmap & _ & ->).
  exists file, raw, processed. repeat split; try assumption.
  - cbn. apply lookup_insert_eq.
  - apply mapC_Forall2 in Hmap. eapply Forall2_impl; [exact Hmap|].
    intros row row'. apply processRow_cells.
Qed.

(** The answer of an upload does not depend on the state. *)
Lemma upload_answer_stateless (h : Host) (st st' : Server.State) (req : UploadReq) :
  snd (Server.upload h st req) = snd (Server.upload h st' req).
Proof.
  unfold Server.upload.
  destruct (u_file req) as [file|]; [|reflexivity].
  destruct (rawData file) as [[|row rows]|e]; try reflexivity.
  destruct (mapC (Server.processRow h) (row :: rows)); [|reflexivity].
  destruct (dbError h); reflexivity.
Qed.

(** X9: sending the same upload a second time gives the same answer and
    leaves the cache as the first upload left it; the output directory
    is not touched by either. *)
Theorem upload_twice (h : Host) (st : Server.State) (req : UploadReq) :
  let once := Server.upload h st req in
  let twice := Server.upload h (fst once) req in
  snd twice = snd once /\
  Server.globalDataMap (fst twice) = Server.globalDataMap (fst once) /\
  Server.outputDir (fst twice) = Server.outputDir st.
Proof.
  cbn zeta. split; [apply upload_answer_stateless|].
  unfold Server.upload.
  destruct (u_file req) as [file|]; [|now split].
  destruct (rawData file) as [[|row rows]|e]; try (now split).
  destruct (mapC (Server.processRow h) (row :: rows)); [|now split].
  destruct (dbError h); cbn; rewrite insert_insert_eq; now split.
Qed.

(** X10: an upload that is not answered 200 writes no file and records
    no document; when it is answered 400, or when the database accepts
    writes, the whole state is as before. *)
Theorem upload_failure_effects (h : Host) (st : Server.State) (req : UploadReq) :
  status (snd (Server.upload h st req)) <> 200 ->
  Server.outputDir (fst (Server.upload h st req)) = Server.outputDir st /\
  Server.uploadedFiles (fst (Server.upload h st req)) = Server.uploadedFiles st /\
  Server.reports (fst (Server.upload h st req)) = Server.reports st /\
  (status (snd (Server.upload h st req)) = 400 -> fst (Server.upload h st req) = st) /\
  (dbError h = None -> fst (Server.upload h st req) = st).
Proof.
  unfold Server.upload.
  destruct (u_file req) as [file|]; [|now repeat split].
  destruct (rawData file) as [[|row rows]|e]; try (now repeat split).
  destruct (mapC (Server.processRow h) (row :: rows)); [|now repeat split].
  destruct (dbError h); cbn; [|congruence].
  intros _. repeat split; try reflexivity; discriminate.
Qed.

(** X11: the cache is assigned before the document is created.  When the
    sheet is read and processed and the database then rejects the write,
    the upload is answered 500 with the database's message, no document
    is recorded, and the panel holds the new rows all the same. *)
Theorem upload_db_failure_keeps_rows (h : Host) (st : Server.State) (req : UploadReq)
    (file : File) (raw processed : list obj) (msg : string) :
  u_file req = Some file -> rawData file = Normal raw -> raw <> [] ->
  mapC (Server.processRow h) raw = Normal processed ->
  dbError h = Some msg ->
  snd (Server.upload h st req) = fail 500 (or_default msg "Upload failed") /\
  Server.globalDataMap (fst (Server.upload h st req)) !! Server.panelOf (u_type req) =
    Some processed /\
  Server.uploadedFiles (fst (Server.upload h st req)) = Server.uploadedFiles st.
Proof.
  intros Hf Hraw Hne Hmap Hdb. unfold Server.upload. rewrite Hf, Hraw.
  destruct raw as [|row rows]; [contradiction|]. rewrite Hmap, Hdb. cbn.
  repeat split. apply lookup_insert_eq.
Qed.
End ServerUpload.

(** ** The merchants an upload answers *)

Section Merchants.
Import Laws.

Lemma dedupe_unseen (seen xs : list value) (x : value) :
  In x (dedupe seen xs) -> In x xs /\ existsb (same_value_zero x) seen = false.
Proof.
  revert seen. induction xs as [|y xs IH]; intros seen; cbn; [intros []|].
  destruct (existsb (same_value_zero y) seen) eqn:E.
  - intros H. apply IH in H as [H1 H2]. auto.
  - intros [<-|H]; [auto|]. apply IH in H as [H1 H2]. cbn in H2.
    apply orb_false_iff in H2 as [_ H2]. auto.
Qed.

Lemma dedupe_distinct (seen xs : list value) : distinctValues (dedupe seen xs).
Proof.
  revert seen. induction xs as [|y xs IH]; intros seen; cbn.
  - intros i j a b _ Hi. destruct i; discriminate.
  - destruct (existsb (same_value_zero y) seen) eqn:E; [apply IH|].
    intros i j a b Hij Hi Hj. destruct j as [|j]; [lia|]. cbn in Hj.
    destruct i as [|i]; cbn in Hi.
    + injection Hi as <-.
      assert (Hin : In b (dedupe (y :: seen) xs)).
      { apply list_elem_of_In. eapply list_elem_of_lookup_2. exact Hj. }
      apply dedupe_unseen in Hin as [_ Hu]. cbn in Hu.
      now apply orb_false_iff in Hu as [Hu _].
    + apply (IH (y :: seen) i j a b); [lia|assumption|assumption].
Qed.

Lemma same_string (s : string) (v : value) : same_value_zero (VStr s) v = true -> v = VStr s.
Proof.
  destruct v; cbn; try discriminate. intros H. apply String.eqb_eq in H. now subst.
Qed.

Lemma dedupe_keeps_strings (seen xs : list value) (s : string) :
  In (VStr s) xs -> In (VStr s) seen \/ In (VStr s) (dedupe seen xs).
Proof.
  revert seen. induction xs as [|y xs IH]; intros seen; cbn; [intros []|].
  intros [->|H].
  - destruct (existsb (same_value_zero (VStr s)) seen) eqn:E.
    + left. apply existsb_exists in E as (v & Hv & Hs). apply same_string in Hs. now subst.
    + right. now left.
  - destruct (existsb (same_value_zero y) seen) eqn:E; [now apply IH|].
    destruct (IH (y :: seen) H) as [[<-|Hs]|Hd]; [right; now left|now left|right; now right].
Qed.

(** X12: the merchants answered by an upload are the truthy
    [Merchant Name] cells of the stored rows: each listed value is the
    cell of some stored row, every non-empty text name of a stored row
    is listed, and no value is listed twice. *)
Theorem upload_lists_merchants (h : Host) (st : Server.State) (req : UploadReq) :
  status (snd (Server.upload h st req)) = 200 ->
  exists merchants stored,
    json (snd (Server.upload h st req)) = Uploaded merchants None /\
    Server.globalDataMap (fst (Server.upload h st req)) !! Server.panelOf (u_type req) =
      Some stored /\
    (forall v, In v merchants ->
       truthy v = true /\ exists row, In row stored /\ get row "Merchant Name" = v) /\
    (forall row s, In row stored -> get row "Merchant Name" = VStr s -> s <> "" ->
       In (VStr s) merchants) /\
    distinctValues merchants.
Proof.
  intros Hok. destruct (upload_ok_inv h st req Hok)
    as (file & raw & processed & _ & _ & _ & _ & _ & ->).
  exists (Server.merchantsOf processed), processed. cbn [fst snd json Server.globalDataMap].
  split; [reflexivity|]. split; [apply lookup_insert_eq|].
  unfold Server.merchantsOf. repeat split.
  - apply dedupe_unseen in H as [H _]. apply filter_In in H. tauto.
  - apply dedupe_unseen in H as [H _]. apply filter_In in H as [H _].
    apply in_map_iff in H as (row & <- & Hrow). eauto.
  - intros row s Hrow Hname Hs.
    destruct (dedupe_keeps_strings [] (List.filter truthy
                (map (fun r => get r "Merchant Name") processed)) s) as [[]|H]; [|exact H].
    apply filter_In. split.
    + rewrite <- Hname. now apply (in_map (fun r => get r "Merchant Name")).
    + cbn. apply negb_true_iff. now apply String.eqb_neq.
  - apply dedupe_distinct.
Qed.
End Merchants.

(** ** [POST /api/generate] of [src/server.js] *)

Section ServerGenerateLaws.
Import ReportSpec Laws.

(** The four ways a report request of [src/server.js] can go once the
    panel is looked up. *)
Ltac generate_paths h st req :=
  unfold Server.generate;
  destruct (Server.globalDataMap st !! Server.panelOf (g_type req)) as [[|?row ?rows]|];
  [ | destruct (normalizeDate h (startDate req)) as [?s|?x]; cbn [mbind completion_bind];
      [ destruct (normalizeDate h (endDate req)) as [?e|?x]; cbn [mbind completion_bind];
        [ rewrite runLoop_read; fold (readPercents (merchantPercents req));
          destruct (readPercents (merchantPercents req)) as [?ps|?x];
          cbn [mbind completion_bind];
          [ destruct (dbError h) as [?msg|] | ] | ] | ] | ].


(** X14: when a report request is answered 200, the download URL is
    [/output/] followed by the name of a file that is now in the output
    directory, the [Summary] sheet of that file is the summary answered,
    and one [Report] document is appended that records the same summary,
    the same URL, the panel and the percents of the request. *)
Theorem generate_download_resolves (h : Host) (st : Server.State) (req : GenerateReq) :
  status (snd (Server.generate h st req)) = 200 ->
  exists filename detail summary doc,
    json (snd (Server.generate h st req)) = Generated summary ("/output/" ++ filename) None /\
    Server.outputDir (fst (Server.generate h st req)) !! filename =
      Some [("Detailed Data", detail); ("Summary", summary)] /\
    Server.reports (fst (Server.generate h st req)) = (Server.reports st ++ [doc])%list /\
    Server.r_summary doc = summary /\
    Server.r_downloadUrl doc = "/output/" ++ filename /\
    Server.r_panelId doc = Server.panelOf (g_type req) /\
    Server.r_merchantPercents doc = merchantPercents req.
Proof.
  generate_paths h st req; cbn [snd status fail]; try discriminate.
  intros _. cbn. eexists _, _, _, _. repeat split. apply lookup_insert_eq.
Qed.

(** X15: the workbook is written before the [Report] document is
    created.  When the panel has rows, both dates normalize, every
    percent is read and the database then rejects the write, the request
    is answered 500 with the database's message, no document is
    recorded, and the report file is in the output directory all the
    same. *)
Theorem generate_db_failure_keeps_file (h : Host) (st : Server.State) (req : GenerateReq)
    (data : list obj) (normalizedStart normalizedEnd msg : string)
    (percents : list (string * float)) :
  Server.globalDataMap st !! Server.panelOf (g_type req) = Some data ->
  data <> [] ->
  normalizeDate h (startDate req) = Normal normalizedStart ->
  normalizeDate h (endDate req) = Normal normalizedEnd ->
  readPercents (merchantPercents req) = Normal percents ->
  dbError h = Some msg ->
  let bs := blocks data normalizedStart normalizedEnd percents in
  let filename :=
    "report-panel-" ++ Server.panelOf (g_type req) ++ "-" ++ dec_of_Z (now h) ++ ".xlsx" in
  snd (Server.generate h st req) = fail 500 (or_default msg "Failed to generate summary") /\
  Server.outputDir (fst (Server.generate h st req)) !! filename =
    Some [("Detailed Data", detailSheet bs); ("Summary", summarySheet bs)] /\
  Server.reports (fst (Server.generate h st req)) = Server.reports st.
Proof.
  intros Hdata Hne Hs He Hread Hdb bs filename. split; [|split].
  - unfold Server.generate. rewrite Hdata. destruct data as [|row rows]; [contradiction|].
    rewrite Hs, He. cbn [mbind completion_bind].
    rewrite (runLoop_blocks _ _ _ _ _ Hread). cbn zeta. cbn [mbind completion_bind].
    now rewrite Hdb.
  - rewrite (generate_writes h st req data normalizedStart normalizedEnd percents
               Hdata Hne Hs He Hread).
    apply lookup_insert_eq.
  - unfold Server.generate. rewrite Hdata. destruct data as [|row rows]; [contradiction|].
    rewrite Hs, He. cbn [mbind completion_bind].
    rewrite (runLoop_blocks _ _ _ _ _ Hread). cbn zeta. cbn [mbind completion_bind].
    now rewrite Hdb.
Qed.

(** X16: a report request that is not answered 200 records no document
    and no upload; when it is answered 400, or when the database accepts
    writes, the whole state is as before (no file is written). *)
Theorem generate_failure_effects (h : Host) (st : Server.State) (req : GenerateReq) :
  status (snd (Server.generate h st req)) <> 200 ->
  Server.reports (fst (Server.generate h st req)) = Server.reports st /\
  Server.uploadedFiles (fst (Server.generate h st req)) = Server.uploadedFiles st /\
  (status (snd (Server.generate h st req)) = 400 -> fst (Server.generate h st req) = st) /\
  (dbError h = None -> fst (Server.generate h st req) = st).
Proof.
  generate_paths h st req; cbn [snd fst status fail]; now repeat split.
Qed.

(** The merchants of the blocks are the included entries. *)
Lemma blocks_merchants (data : list obj) (s e : string) (es : list (string * float)) :
  map b_merchant (flat_map (blockOf data s e) es) =
  map fst (List.filter (included data s e) es).
Proof.
  induction es as [|entry es IH]; [reflexivity|].
  cbn [flat_map List.filter]. rewrite map_app, IH.
  unfold blockOf, included at 2.
  destruct (PrimFloat.is_nan (snd entry)); [reflexivity|].
  destruct (List.filter (selected s e (fst entry)) data); reflexivity.
Qed.

(** X17: the [Merchant] column of the summary answered lists, in the
    order the loop visits [merchantPercents], exactly the merchants
    whose percent [parseFloat] reads as a number and that have at least
    one row in the date range, and ends with [TOTAL]. *)
Theorem summary_lists_included_merchants (h : Host) (st : Server.State) (req : GenerateReq)
    (data : list obj) (normalizedStart normalizedEnd : string)
    (percents : list (string * float)) :
  Server.globalDataMap st !! Server.panelOf (g_type req) = Some data ->
  data <> [] ->
  normalizeDate h (startDate req) = Normal normalizedStart ->
  normalizeDate h (endDate req) = Normal normalizedEnd ->
  readPercents (merchantPercents req) = Normal percents ->
  dbError h = None ->
  exists summary url,
    json (snd (Server.generate h st req)) = Generated summary url None /\
    map (fun row => get row "Merchant") summary =
    (map (fun entry => VStr (fst entry))
       (List.filter (included data normalizedStart normalizedEnd) percents) ++
     [VStr "TOTAL"])%list.
Proof.
  intros Hdata Hne Hs He Hread Hdb.
  rewrite (generate_answers h st req data normalizedStart normalizedEnd percents
             Hdata Hne Hs He Hread Hdb).
  eexists _, _. split; [reflexivity|].
  unfold summarySheet, blocks. rewrite map_app, map_map.
  f_equal. rewrite <- (map_map fst VStr), <- blocks_merchants, map_map. reflexivity.
Qed.

(** The answer to a report request depends on the state through the
    rows of the selected panel only. *)
Lemma generate_answer_local (h : Host) (st st' : Server.State) (req : GenerateReq) :
  Server.globalDataMap st !! Server.panelOf (g_type req) =
  Server.globalDataMap st' !! Server.panelOf (g_type req) ->
  snd (Server.generate h st req) = snd (Server.generate h st' req).
Proof.
  intros E. unfold Server.generate. rewrite E.
  destruct (Server.globalDataMap st' !! Server.panelOf (g_type req)) as [[|row rows]|];
    try reflexivity.
  destruct (normalizeDate h (startDate req)) as [s|e]; [|reflexivity].
  destruct (normalizeDate h (endDate req)) as [s'|e]; [|reflexivity].
  cbn [mbind completion_bind].
  destruct (Server.runLoop _ s s' _ _) as [acc|e]; [|reflexivity].
  cbn [mbind completion_bind]. destruct (dbError h); reflexivity.
Qed.

(** X18: an upload to one panel does not change the answer to a report
    request for the other panel. *)
Theorem report_ignores_other_panel (h : Host) (st : Server.State)
    (up : UploadReq) (req : GenerateReq) :
  Server.panelOf (u_type up) <> Server.panelOf (g_type req) ->
  snd (Server.generate h (fst (Server.upload h st up)) req) = snd (Server.generate h st req).
Proof.
  intros Hne. apply generate_answer_local.
  destruct (upload_cache h st up) as [->|[rows ->]]; [reflexivity|].
  now rewrite lookup_insert_ne.
Qed.

End ServerGenerateLaws.

(** ** The two variants of [extractDateOnly] *)

Section NotANumber.

Lemma shr_1_nonneg (mrs : shr_record) : 0 <= shr_m mrs -> 0 <= shr_m (shr_1 mrs).
Proof.
  destruct mrs as [m r s]. cbn [shr_m]. intros H.
  destruct m as [|p|p]; [| |lia]; [cbn; lia|].
  destruct p; cbn; lia.
Qed.

Lemma iter_shr_1_nonneg (p : positive) (mrs : shr_record) :
  0 <= shr_m mrs -> 0 <= shr_m (SpecFloat.iter_pos shr_1 p mrs).
Proof.
  revert mrs. induction p as [p IH|p IH|]; intros mrs H; cbn [SpecFloat.iter_pos].
  - apply IH, IH, shr_1_nonneg, H.
  - apply IH, IH, H.
  - apply shr_1_nonneg, H.
Qed.

Lemma shr_fexp_nonneg (m e : Z) (l : location) :
  0 <= m -> 0 <= shr_m (fst (shr_fexp prec emax m e l)).
Proof.
  intros H. unfold shr_fexp, shr.
  assert (H0 : 0 <= shr_m (shr_record_of_loc m l)) by (destruct l as [|[]]; exact H).
  destruct (fexp prec emax (Zdigits2 m + e) - e); cbn [fst]; try exact H0.
  now apply iter_shr_1_nonneg.
Qed.

Lemma binary_round_aux_not_nan (sx : bool) (mx ex : Z) (lx : location) :
  0 <= mx -> binary_round_aux prec emax sx mx ex lx <> S754_nan.
Proof.
  intros H. unfold binary_round_aux.
  pose proof (shr_fexp_nonneg mx ex lx H) as H1.
  destruct (shr_fexp prec emax mx ex lx) as [mrs' e']. cbn [fst] in H1.
  assert (H2 : 0 <= round_nearest_even (shr_m mrs') (loc_of_shr_record mrs')).
  { unfold round_nearest_even. destruct (loc_of_shr_record mrs') as [|[]]; try lia.
    destruct (Z.even (shr_m mrs')); lia. }
  pose proof (shr_fexp_nonneg _ e' loc_Exact H2) as H3.
  destruct (shr_fexp prec emax _ e' loc_Exact) as [mrs'' e'']. cbn [fst] in H3.
  destruct (shr_m mrs'') as [|p|p]; [discriminate| |lia].
  destruct (e'' <=? emax - prec); discriminate.
Qed.

Lemma binary_round_not_nan (sx : bool) (mx : positive) (ex : Z) :
  binary_round prec emax sx mx ex <> S754_nan.
Proof.
  unfold binary_round. destruct (shl_align mx ex _) as [mz ez].
  apply binary_round_aux_not_nan. lia.
Qed.

Lemma binary_normalize_not_nan (m e : Z) (szero : bool) :
  binary_normalize prec emax m e szero <> S754_nan.
Proof.
  destruct m; cbn [binary_normalize]; [discriminate| |]; apply binary_round_not_nan.
Qed.

Lemma is_nan_Prim2SF (f : float) : Prim2SF f <> S754_nan -> PrimFloat.is_nan f = false.
Proof.
  unfold Prim2SF. destruct (PrimFloat.is_nan f); [congruence|reflexivity].
Qed.

(** The double nearest to an integer is a number. *)
Lemma F_of_Z_number (z : Z) : PrimFloat.is_nan (F_of_Z z) = false.
Proof.
  unfold F_of_Z. pose proof (binary_normalize_not_nan z 0 false) as H.
  destruct (binary_normalize prec emax z 0 false) as [[]|[]| |s m e]; try reflexivity;
    [contradiction|].
  apply is_nan_Prim2SF. unfold SF2Prim.
  assert (Hf : Prim2SF (Z.ldexp (of_uint63 (Uint63.of_Z (Z.pos m))) e) <> S754_nan).
  { rewrite Z_ldexp_spec, of_uint63_spec. unfold SFldexp.
    pose proof (binary_normalize_not_nan
                  (Uint63.to_Z (Uint63.of_Z (Z.pos m))) 0 false) as Hn.
    destruct (binary_normalize prec emax _ 0 false); try assumption.
    apply binary_round_not_nan. }
  destruct s; [|exact Hf].
  rewrite opp_spec. destruct (Prim2SF _); cbn; congruence.
Qed.

(** [isNaN(date.getTime())] holds of the invalid date only. *)
Lemma isoOrEmpty_cases (tv : option Z) :
  Embedded.isoOrEmpty tv =
  match tv with
  | None => Normal ""
  | Some t => iso ← toISOString (Some t); Normal (slice0 10 iso)
  end.
Proof.
  unfold Embedded.isoOrEmpty. destruct tv as [t|]; [|reflexivity].
  cbn [getTime]. now rewrite F_of_Z_number.
Qed.

Lemma toISOString_cases (tv : option Z) :
  match tv with
  | None => exists e, toISOString tv = Throw e
  | Some t => exists iso, toISOString tv = Normal iso
  end.
Proof.
  destruct tv as [t|]; cbn.
  - destruct (civil (t / msPerDay)) as [[y m] d]. now eexists.
  - now eexists.
Qed.

Lemma isoOrEmpty_refines (tv : option Z) :
  (forall d, (iso ← toISOString tv; Normal (slice0 10 iso)) = Normal d ->
             Embedded.isoOrEmpty tv = Normal d) /\
  (forall e, (iso ← toISOString tv; Normal (slice0 10 iso)) = Throw e ->
             Embedded.isoOrEmpty tv = Normal "").
Proof.
  rewrite isoOrEmpty_cases. pose proof (toISOString_cases tv) as H.
  destruct tv as [t|]; destruct H as [x H]; rewrite H; cbn.
  - split; [auto|discriminate].
  - split; [discriminate|auto].
Qed.

(** X24: the embedded [extractDateOnly] refines the one of
    [src/server.js]: whenever the latter returns a string the former
    returns the same string, and where the latter throws on a value
    that is not a number, the former returns the empty string. *)
Theorem embedded_extractDateOnly_refines (h : Host) (v : value) :
  (forall d, Server.extractDateOnly h v = Normal d -> Embedded.extractDateOnly h v = Normal d) /\
  (forall e, Server.extractDateOnly h v = Throw e ->
     (forall f, v <> VNum f) -> Embedded.extractDateOnly h v = Normal "").
Proof.
  unfold Server.extractDateOnly, Embedded.extractDateOnly.
  destruct (negb (truthy v)); [split; [auto|discriminate]|].
  split.
  - intros d. destruct v as [| |b|f|s|tv]; try apply isoOrEmpty_refines; [auto|].
    destruct (dmy_prefix s); apply isoOrEmpty_refines.
  - intros e He Hnum. revert He.
    destruct v as [| |b|f|s|tv]; try apply isoOrEmpty_refines; [now destruct (Hnum f)|].
    destruct (dmy_prefix s); apply isoOrEmpty_refines.
Qed.
End NotANumber.

(** ** Day-month-year cells *)

Section DayMonthYear.
Import ReportSpec Laws.

Lemma YearFromDay_unique (y d : Z) :
  DayFromYear y <= d < DayFromYear (y + 1) -> YearFromDay d = y.
Proof.
  intros H. pose proof (YearFromDay_spec d) as S.
  destruct (Z.lt_trichotomy (YearFromDay d) y) as [Hlt|[E|Hgt]]; [|exact E|].
  - pose proof (DayFromYear_mono (YearFromDay d + 1) y). lia.
  - pose proof (DayFromYear_mono (y + 1) (YearFromDay d)). lia.
Qed.

Ltac month_starts :=
  repeat match goal with
         | |- context [monthStart ?l ?k] =>
             let v := eval vm_compute in (monthStart l k) in change (monthStart l k) with v
         | H : context [monthStart ?l ?k] |- _ =>
             let v := eval vm_compute in (monthStart l k) in change (monthStart l k) with v in H
         end.

Lemma monthStart_bounds (leap : bool) (m : Z) :
  1 <= m <= 12 ->
  0 <= monthStart leap (m - 1) /\
  monthStart leap m - monthStart leap (m - 1) <= 31 /\
  monthStart leap m <= (if leap then 366 else 365).
Proof.
  intros Hm.
  assert (C : m = 1 \/ m = 2 \/ m = 3 \/ m = 4 \/ m = 5 \/ m = 6 \/ m = 7 \/ m = 8 \/
              m = 9 \/ m = 10 \/ m = 11 \/ m = 12) by lia.
  destruct leap; repeat (destruct C as [->|C]); try subst m; month_starts; lia.
Qed.

Lemma month_of_day (leap : bool) (m d : Z) :
  1 <= m <= 12 -> 1 <= d <= monthStart leap m - monthStart leap (m - 1) ->
  MonthFromDayInYear leap (monthStart leap (m - 1) + d - 1) = m - 1.
Proof.
  intros Hm.
  assert (C : m = 1 \/ m = 2 \/ m = 3 \/ m = 4 \/ m = 5 \/ m = 6 \/ m = 7 \/ m = 8 \/
              m = 9 \/ m = 10 \/ m = 11 \/ m = 12) by lia.
  destruct leap; repeat (destruct C as [->|C]); try subst m; intros Hd;
    unfold MonthFromDayInYear; month_starts;
    repeat match goal with
           | |- context [if ?a <? ?b then _ else _] => destruct (Z.ltb_spec a b)
           end; lia.
Qed.

(** The day number of a date of the calendar has that date. *)
Lemma civil_MakeDay (y m d : Z) :
  1 <= m <= 12 -> 1 <= d <= monthStart (InLeapYear y) m - monthStart (InLeapYear y) (m - 1) ->
  civil (MakeDay y (m - 1) d) = (y, m, d) /\
  DayFromYear y <= MakeDay y (m - 1) d < DayFromYear (y + 1).
Proof.
  intros Hm Hd. unfold MakeDay.
  rewrite Z.div_small, Z.mod_small, Z.add_0_r by lia.
  pose proof (monthStart_bounds (InLeapYear y) m Hm) as (B0 & B1 & B2).
  pose proof (DayFromYear_succ y) as S.
  assert (R : DayFromYear y <=
              DayFromYear y + monthStart (InLeapYear y) (m - 1) + d - 1 < DayFromYear (y + 1))
    by (destruct (InLeapYear y); lia).
  split; [|exact R].
  unfold civil. rewrite (YearFromDay_unique y _ R).
  replace (DayFromYear y + monthStart (InLeapYear y) (m - 1) + d - 1 - DayFromYear y)
    with (monthStart (InLeapYear y) (m - 1) + d - 1) by lia.
  rewrite (month_of_day _ m d Hm Hd). f_equal; [f_equal|]; lia.
Qed.

Lemma digit_char_not_space (k : Z) : Ascii.eqb (digit_char k) " " = false.
Proof.
  apply Ascii.eqb_neq. intros E. apply (f_equal N_of_ascii) in E.
  rewrite N_of_digit_char in E. cbn in E. lia.
Qed.

Lemma append_nothing (s : string) : s ++ "" = s.
Proof. induction s as [|c s IH]; [reflexivity|]. rewrite append_cons. now rewrite IH. Qed.

Lemma dmyText_chars (y m d : Z) :
  dmyText y m d =
  String (digit_char (d / 10)) (String (digit_char (d / 1))
    (String "-" (String (digit_char (m / 10)) (String (digit_char (m / 1))
      (String "-" (digits_fixed 4 y)))))).
Proof. reflexivity. Qed.

(** What [extractDateOnly] makes of the [DD-MM-YYYY] text, alone or
    followed by a space and a time: the parts in the order year, month,
    day. *)
Lemma dmy_to_ymd_text (y m d : Z) (rest : string) :
  rest = "" \/ (exists t, rest = String " " t) ->
  truthy (VStr (dmyText y m d ++ rest)) = true /\
  dmy_prefix (dmyText y m d ++ rest) = true /\
  dmy_to_ymd (dmyText y m d ++ rest) = ymdText y m d.
Proof.
  intros Hrest.
  assert (Hfree : free " " (dmyText y m d)).
  { unfold free. rewrite dmyText_chars. cbn [digits_fixed list_ascii_of_string forallb].
    rewrite !digit_char_not_space. reflexivity. }
  assert (Hfirst : split_on " " (dmyText y m d ++ rest) =
                   dmyText y m d :: tl (split_on " " (dmyText y m d ++ rest))).
  { destruct Hrest as [->|[t ->]].
    - rewrite append_nothing. now rewrite split_on_free.
    - now rewrite split_on_app. }
  split; [|split].
  - rewrite dmyText_chars, append_cons. reflexivity.
  - rewrite dmyText_chars. cbn [digits_fixed]. rewrite !append_cons.
    unfold dmy_prefix. cbn [list_ascii_of_string].
    rewrite !digit_char_is_digit. reflexivity.
  - unfold dmy_to_ymd. rewrite Hfirst.
    unfold dmyText. rewrite !hyphen_app.
    rewrite split_on_app by apply digits_fixed_free.
    rewrite split_on_app by apply digits_fixed_free.
    rewrite split_on_free by apply digits_fixed_free.
    reflexivity.
Qed.

(** X20: for every date of the calendar with a year from 0000 to 9999,
    [extractDateOnly], in [src/server.js] and in the embedded server,
    turns the text [DD-MM-YYYY], alone or followed by a space and
    anything (a time), into [YYYY-MM-DD] of the same date, on every
    engine. *)
Theorem day_month_year_is_reordered (h : Host) (y m d : Z) (rest : string) :
  validDate y m d ->
  rest = "" \/ (exists t, rest = String " " t) ->
  Server.extractDateOnly h (VStr (dmyText y m d ++ rest)) = Normal (ymdText y m d) /\
  Embedded.extractDateOnly h (VStr (dmyText y m d ++ rest)) = Normal (ymdText y m d).
Proof.
  intros (Hy & Hm & Hd) Hrest.
  destruct (dmy_to_ymd_text y m d rest Hrest) as (Ht & Hp & Hr).
  destruct (civil_MakeDay y m d Hm Hd) as [Hc Hrange].
  pose proof (monthStart_bounds (InLeapYear y) m Hm) as (_ & B & _).
  assert (Hparse : Date_parse (hostDateParse h) (ymdText y m d) =
                   Some (MakeDay y (m - 1) d * msPerDay)).
  { unfold Date_parse, ymdText. now rewrite parse_formatted by lia. }
  assert (Hiso : (iso ← toISOString (Some (MakeDay y (m - 1) d * msPerDay));
                  Normal (slice0 10 iso)) = Normal (ymdText y m d)).
  { assert (H4 : fourDigitYear (MakeDay y (m - 1) d)).
    { unfold fourDigitYear.
      pose proof (DayFromYear_mono 0 y). pose proof (DayFromYear_mono (y + 1) 10000). lia. }
    pose proof (isoDay_fields _ H4) as F. rewrite Hc in F. unfold ymdText. rewrite <- F.
    unfold isoDay.
    destruct (toISOString (Some (MakeDay y (m - 1) d * msPerDay))) as [iso|e] eqn:E.
    - reflexivity.
    - unfold toISOString in E. destruct (civil _) as [[? ?] ?]. discriminate. }
  split.
  - unfold Server.extractDateOnly. rewrite Ht, Hp, Hr, Hparse. exact Hiso.
  - unfold Embedded.extractDateOnly. rewrite Ht, Hp, Hr, Hparse, isoOrEmpty_cases. exact Hiso.
Qed.
End DayMonthYear.

(** ** The embedded server: what a report changes and answers *)

Section EmbeddedHeap.
Import ReportSpec Laws.

(** A percent column has a percent sign in its name. *)
Lemma percentColumn_sign (k : string) : free "%" k -> ~ percentColumn k.
Proof.
  intros Hfree [p ->]. unfold free, percentKey in Hfree.
  induction (NumberToString p) as [|c s IH].
  - rewrite append_empty in Hfree. discriminate.
  - rewrite append_cons in Hfree. cbn [list_ascii_of_string forallb] in Hfree.
    apply andb_true_iff in Hfree as [_ Hfree]. exact (IH Hfree).
Qed.

Lemma agree_refl (hp : list obj) : agree hp hp.
Proof. split; reflexivity. Qed.

Lemma agree_amount (hp hp' : list obj) (a : nat) (col : string) :
  agree hp hp' -> free "%" col ->
  amount (Embedded.deref hp' a) col = amount (Embedded.deref hp a) col.
Proof.
  intros [_ H] Hcol. unfold amount. now rewrite (H a col (percentColumn_sign col Hcol)).
Qed.

(** The assignment [row[`${percent}% Amount`] = percentAmount]. *)
Lemma agree_write (hp hp' : list obj) (a : nat) (p : float) (v : value) :
  agree hp hp' ->
  agree hp (<[a := set (Embedded.deref hp' a) (percentKey p) v]> hp').
Proof.
  intros [Hlen H]. split.
  - now rewrite length_insert.
  - intros b k Hk. rewrite <- (H b k Hk). unfold Embedded.deref.
    destruct (decide (a = b)) as [->|Hne].
    + destruct (hp' !! b) as [row|] eqn:E.
      * rewrite list_lookup_insert_eq by (eapply lookup_lt_Some; exact E).
        cbn. apply get_set_other. intros ->. apply Hk. now exists p.
      * rewrite list_insert_ge by (now apply lookup_ge_None). now rewrite E.
    + now rewrite list_lookup_insert_ne.
Qed.

Lemma filter_map_comm {A B} (f : A -> B) (P : B -> bool) (l : list A) :
  map f (List.filter (fun a => P (f a)) l) = List.filter P (map f l).
Proof.
  induction l as [|x l IH]; [reflexivity|]. cbn. destruct (P (f x)); cbn; now rewrite IH.
Qed.

Lemma filter_filter_and {A} (P Q : A -> bool) (l : list A) :
  List.filter Q (List.filter P l) = List.filter (fun x => P x && Q x) l.
Proof.
  induction l as [|x l IH]; [reflexivity|]. cbn.
  destruct (P x); cbn; [destruct (Q x)|]; now rewrite IH.
Qed.

Section Loop.
Variable hp0 : list obj.

(** [rows.forEach] on references: the heap changes in percent columns
    only, and the totals are those of the rows as they were. *)
Lemma embedded_rowStep_fold (p : float) (rows : list nat) (t : Embedded.Totals) :
  agree hp0 (Embedded.t_heap t) ->
  let t' := fold_left (Embedded.rowStep p) rows t in
  agree hp0 (Embedded.t_heap t') /\
  Embedded.detail t' = (Embedded.detail t ++ rows)%list /\
  Embedded.totalW t' =
    fold_left PrimFloat.add (map withdrawalOf (map (Embedded.deref hp0) rows))
      (Embedded.totalW t) /\
  Embedded.totalF t' =
    fold_left PrimFloat.add (map feeOf (map (Embedded.deref hp0) rows)) (Embedded.totalF t) /\
  Embedded.totalP t' =
    fold_left PrimFloat.add (map (percentAmountOf p) (map (Embedded.deref hp0) rows))
      (Embedded.totalP t).
Proof.
  revert t. induction rows as [|a rows IH]; intros t Hag.
  - cbn. rewrite app_nil_r. auto.
  - cbn [fold_left map].
    specialize (IH (Embedded.rowStep p t a)).
    destruct IH as (I1 & I2 & I3 & I4 & I5).
    { cbn [Embedded.rowStep Embedded.t_heap]. now apply agree_write. }
    cbn zeta. split; [exact I1|].
    rewrite I2, I3, I4, I5.
    cbn [Embedded.rowStep Embedded.detail Embedded.totalW Embedded.totalF Embedded.totalP].
    unfold withdrawalOf, feeOf, percentAmountOf, withdrawalOf.
    rewrite !(agree_amount hp0 (Embedded.t_heap t) a) by (assumption || reflexivity).
    rewrite <- app_assoc. auto.
Qed.

Variables (addrs : list nat) (normalizedStart normalizedEnd : string).

Let dateFiltered : list nat :=
  List.filter (fun a => ge_iso (get (Embedded.deref hp0 a) "DateOnly") normalizedStart &&
                        le_iso (get (Embedded.deref hp0 a) "DateOnly") normalizedEnd) addrs.
Let data : list obj := map (Embedded.deref hp0) addrs.

(** The rows [dateFiltered.filter] selects are the rows of step 3b. *)
Lemma embedded_rows (hp : list obj) (merchant : string) :
  agree hp0 hp ->
  map (Embedded.deref hp0)
    (List.filter (fun a => strict_eq_str (get (Embedded.deref hp a) "Merchant Name") merchant)
       dateFiltered) =
  List.filter (selected normalizedStart normalizedEnd merchant) data.
Proof.
  intros [_ Hag]. unfold dateFiltered, data.
  rewrite (filter_ext _ (fun a => strict_eq_str (get (Embedded.deref hp0 a) "Merchant Name")
                                    merchant)).
  2:{ intros a. rewrite Hag; [reflexivity|]. apply percentColumn_sign. reflexivity. }
  rewrite filter_filter_and.
  rewrite <- (filter_map_comm (Embedded.deref hp0)
                (selected normalizedStart normalizedEnd merchant)).
  f_equal. apply filter_ext. intros a.
  unfold selected, inRange, ge_iso, le_iso, str_geb, str_leb, strict_eq_str.
  destruct (get (Embedded.deref hp0 a) "DateOnly");
    destruct (get (Embedded.deref hp0 a) "Merchant Name"); reflexivity.
Qed.

Lemma embedded_merchantStep_blockOf (acc : Embedded.Acc) (entry : string * float) :
  agree hp0 (Embedded.a_heap acc) ->
  let acc' := Embedded.merchantStep dateFiltered acc entry in
  let bs := blockOf data normalizedStart normalizedEnd entry in
  agree hp0 (Embedded.a_heap acc') /\
  Embedded.summaryData acc' = (Embedded.summaryData acc ++ map rawSummaryRow bs)%list /\
  Embedded.grandW acc' = fold_left PrimFloat.add (map totalWithdrawal bs) (Embedded.grandW acc) /\
  Embedded.grandF acc' = fold_left PrimFloat.add (map totalFees bs) (Embedded.grandF acc) /\
  Embedded.grandP acc' =
    fold_left PrimFloat.add (map totalPercentAmount bs) (Embedded.grandP acc).
Proof.
  intros Hag. cbn zeta. unfold Embedded.merchantStep, blockOf.
  destruct (PrimFloat.is_nan (snd entry)).
  { cbn. rewrite app_nil_r. auto. }
  pose proof (embedded_rows (Embedded.a_heap acc) (fst entry) Hag) as R.
  destruct (List.filter _ dateFiltered) as [|a rows] eqn:Hrows.
  { cbn in R. rewrite <- R. cbn. rewrite app_nil_r. auto. }
  destruct (List.filter _ data) as [|row rs] eqn:Hdata; [discriminate|].
  pose proof (embedded_rowStep_fold (snd entry) (a :: rows)
                {| Embedded.t_heap := Embedded.a_heap acc;
                   Embedded.detail := Embedded.filteredData acc;
                   Embedded.totalW := 0; Embedded.totalF := 0; Embedded.totalP := 0 |} Hag)
    as (F1 & F2 & F3 & F4 & F5).
  cbn zeta in F1, F2, F3, F4, F5.
  cbn [Embedded.a_heap Embedded.summaryData Embedded.grandW Embedded.grandF Embedded.grandP].
  rewrite F3, F4, F5, R.
  cbn [Embedded.totalW Embedded.totalF Embedded.totalP].
  split; [exact F1|].
  unfold rawSummaryRow, totalWithdrawal, totalFees, totalPercentAmount, fsum.
  cbn [map b_rows b_merchant b_percent fold_left]. auto.
Qed.

Lemma embedded_loop_blocks (es : list (string * float)) (acc : Embedded.Acc) :
  agree hp0 (Embedded.a_heap acc) ->
  let acc' := fold_left (Embedded.merchantStep dateFiltered) es acc in
  let bs := flat_map (blockOf data normalizedStart normalizedEnd) es in
  agree hp0 (Embedded.a_heap acc') /\
  Embedded.summaryData acc' = (Embedded.summaryData acc ++ map rawSummaryRow bs)%list /\
  Embedded.grandW acc' = fold_left PrimFloat.add (map totalWithdrawal bs) (Embedded.grandW acc) /\
  Embedded.grandF acc' = fold_left PrimFloat.add (map totalFees bs) (Embedded.grandF acc) /\
  Embedded.grandP acc' =
    fold_left PrimFloat.add (map totalPercentAmount bs) (Embedded.grandP acc).
Proof.
  revert acc. induction es as [|entry es IH]; intros acc Hag.
  - cbn. rewrite app_nil_r. auto.
  - cbn [fold_left flat_map].
    destruct (embedded_merchantStep_blockOf acc entry Hag) as (S1 & S2 & S3 & S4 & S5).
    cbn zeta in S1, S2, S3, S4, S5.
    destruct (IH _ S1) as (I1 & I2 & I3 & I4 & I5).
    cbn zeta. split; [exact I1|].
    rewrite I2, I3, I4, I5, S2, S3, S4, S5.
    rewrite !map_app, !fold_left_app, <- !app_assoc. auto.
Qed.
End Loop.

(** The loop ran the turns of the percents it read: all of them when
    none threw, and those before the first that threw otherwise. *)
Lemma embedded_runLoop_read (dateFiltered : list nat) (es : list (string * completion float))
    (acc : Embedded.Acc) :
  match mapC (fun kv => p ← snd kv; Normal (fst kv, p)) es with
  | Normal ps =>
      Embedded.runLoop dateFiltered es acc =
      (fold_left (Embedded.merchantStep dateFiltered) ps acc, None)
  | Throw x =>
      exists ps,
        Embedded.runLoop dateFiltered es acc =
        (fold_left (Embedded.merchantStep dateFiltered) ps acc, Some x)
  end.
Proof.
  revert acc. induction es as [|[merchant [p|x]] es IH]; intros acc; cbn.
  - reflexivity.
  - specialize (IH (Embedded.merchantStep dateFiltered acc (merchant, p))).
    destruct (mapC _ es) as [ps|x]; cbn.
    + exact IH.
    + destruct IH as [ps IH]. exists ((merchant, p) :: ps). exact IH.
  - exists []. reflexivity.
Qed.

(** Whatever the loop did, it ran some of the turns from the heap of
    the state. *)
Lemma embedded_runLoop_turns (dateFiltered : list nat) (es : list (string * completion float))
    (acc : Embedded.Acc) :
  exists ps,
    fst (Embedded.runLoop dateFiltered es acc) =
    fold_left (Embedded.merchantStep dateFiltered) ps acc.
Proof.
  pose proof (embedded_runLoop_read dateFiltered es acc) as H.
  destruct (mapC _ es) as [ps|x]; [|destruct H as [ps H]]; exists ps; now rewrite H.
Qed.

Lemma embedded_generate_heap (h : Host) (st : Embedded.State) (req : GenerateReq) :
  agree (Embedded.heap st) (Embedded.heap (fst (Embedded.generate h st req))) /\
  Embedded.globalData (fst (Embedded.generate h st req)) = Embedded.globalData st.
Proof.
  unfold Embedded.generate.
  destruct (negb (truthyJ (merchantPercents req)) || negb (truthyJ (startDate req)) ||
            negb (truthyJ (endDate req)));
    [split; [apply agree_refl|reflexivity]|].
  destruct (normalizeDate h (startDate req)) as [s|e]; cbn [mbind completion_bind];
    [|split; [apply agree_refl|reflexivity]].
  destruct (normalizeDate h (endDate req)) as [s'|e]; cbn [mbind completion_bind];
    [|split; [apply agree_refl|reflexivity]].
  destruct (str_ltb s' s); [split; [apply agree_refl|reflexivity]|].
  destruct (Embedded.dateFilter st s s') as [|a addrs] eqn:Hf;
    [split; [apply agree_refl|reflexivity]|].
  rewrite <- Hf.
  destruct (embedded_runLoop_turns (Embedded.dateFilter st s s')
              (percentsOf (merchantPercents req)) (Embedded.noRows (Embedded.heap st)))
    as [ps Hps].
  destruct (Embedded.runLoop _ _ _) as [acc thrown]. cbn [fst] in Hps. subst acc.
  unfold Embedded.dateFilter.
  destruct (embedded_loop_blocks (Embedded.heap st) (Embedded.globalData st) s s' ps
              (Embedded.noRows (Embedded.heap st)) (agree_refl _)) as (L1 & _).
  cbn zeta in L1.
  destruct thrown; [split; [exact L1|reflexivity]|].
  destruct (Embedded.summaryData _); split; (exact L1 || reflexivity).
Qed.

(** X21: whatever the request and its outcome, a report of the embedded
    server changes the stored rows in their percent columns only: the
    dataset holds the same references, no row is added or removed, and
    every cell whose column is not [`${p}% Amount`] for some number [p]
    reads as before; so do the seven columns the server itself reads. *)
Theorem embedded_generate_writes_percent_columns_only
    (h : Host) (st : Embedded.State) (req : GenerateReq) :
  let st' := fst (Embedded.generate h st req) in
  Embedded.globalData st' = Embedded.globalData st /\
  length (Embedded.heap st') = length (Embedded.heap st) /\
  (forall (a : nat) (k : string),
     (forall p : float, k <> percentKey p) ->
     get (Embedded.deref (Embedded.heap st') a) k = get (Embedded.deref (Embedded.heap st) a) k) /\
  (forall (a : nat) (k : string),
     In k ["Merchant Name"; "Withdrawal Amount"; "Withdrawal Fees"; "DateOnly";
           "Date"; "Transaction Date"; "Created At"] ->
     get (Embedded.deref (Embedded.heap st') a) k = get (Embedded.deref (Embedded.heap st) a) k).
Proof.
  cbn zeta. destruct (embedded_generate_heap h st req) as ([Hlen Hag] & Hg).
  split; [exact Hg|]. split; [exact Hlen|]. split.
  - intros a k Hk. apply Hag. intros [p ->]. now apply (Hk p).
  - intros a k Hk. apply Hag. apply percentColumn_sign.
    cbn in Hk. repeat (destruct Hk as [<-|Hk]; [reflexivity|]). destruct Hk.
Qed.

(** What a 200 of the embedded [POST /generate] tells. *)
Lemma embedded_generate_ok_inv (h : Host) (st : Embedded.State) (req : GenerateReq) :
  status (snd (Embedded.generate h st req)) = 200 ->
  exists s e ps acc,
    truthyJ (merchantPercents req) = true /\
    truthyJ (startDate req) = true /\ truthyJ (endDate req) = true /\
    normalizeDate h (startDate req) = Normal s /\
    normalizeDate h (endDate req) = Normal e /\
    str_ltb e s = false /\
    readPercents (merchantPercents req) = Normal ps /\
    acc = fold_left (Embedded.merchantStep (Embedded.dateFilter st s e)) ps
            (Embedded.noRows (Embedded.heap st)) /\
    Embedded.summaryData acc <> [] /\
    json (snd (Embedded.generate h st req)) =
      Generated (map Embedded.formatRow (Embedded.summaryData acc ++ [Embedded.totalRow acc]))
        ("/output/" ++ "merchant_report_" ++ dec_of_Z (now h) ++ ".xlsx")
        (Some (s ++ " to " ++ e)).
Proof.
  unfold Embedded.generate.
  destruct (negb (truthyJ (merchantPercents req)) || negb (truthyJ (startDate req)) ||
            negb (truthyJ (endDate req))) eqn:Ht; [discriminate|].
  apply orb_false_iff in Ht as [Ht He]. apply orb_false_iff in Ht as [Hm Hs].
  apply negb_false_iff in Hm, Hs, He.
  destruct (normalizeDate h (startDate req)) as [s|x]; cbn [mbind completion_bind];
    [|discriminate].
  destruct (normalizeDate h (endDate req)) as [e|x]; cbn [mbind completion_bind];
    [|discriminate].
  destruct (str_ltb e s) eqn:Hord; [discriminate|].
  destruct (Embedded.dateFilter st s e) as [|a addrs] eqn:Hf; [discriminate|].
  rewrite <- Hf.
  pose proof (embedded_runLoop_read (Embedded.dateFilter st s e)
                (percentsOf (merchantPercents req)) (Embedded.noRows (Embedded.heap st))) as R.
  fold (readPercents (merchantPercents req)) in R.
  destruct (readPercents (merchantPercents req)) as [ps|x].
  - rewrite R.
    destruct (Embedded.summaryData _) as [|r rs] eqn:Hsum; [discriminate|].
    intros _. exists s, e, ps. eexists. repeat split; try assumption; try reflexivity;
      [rewrite Hsum; discriminate|cbn [snd json]; rewrite Hsum; reflexivity].
  - destruct R as [ps R]. rewrite R. discriminate.
Qed.

(** X22: when the embedded server answers 200, the summary it answers is
    the summary [src/server.js] computes from the same rows, dates and
    percents: one row per included merchant with its three totals, then
    the [TOTAL] row, all with two decimals. *)
Theorem embedded_summary_is_the_report (h : Host) (st : Embedded.State) (req : GenerateReq) :
  status (snd (Embedded.generate h st req)) = 200 ->
  exists normalizedStart normalizedEnd percents url,
    normalizeDate h (startDate req) = Normal normalizedStart /\
    normalizeDate h (endDate req) = Normal normalizedEnd /\
    readPercents (merchantPercents req) = Normal percents /\
    json (snd (Embedded.generate h st req)) =
    Generated
      (summarySheet (blocks (Embedded.dataset st) normalizedStart normalizedEnd percents))
      url (Some (normalizedStart ++ " to " ++ normalizedEnd)).
Proof.
  intros Hok.
  destruct (embedded_generate_ok_inv h st req Hok)
    as (s & e & ps & acc & _ & _ & _ & Hs & He & _ & Hread & -> & _ & ->).
  exists s, e, ps. eexists. repeat split; try assumption.
  unfold Embedded.dateFilter.
  destruct (embedded_loop_blocks (Embedded.heap st) (Embedded.globalData st) s e ps
              (Embedded.noRows (Embedded.heap st)) (agree_refl _)) as (_ & L2 & L3 & L4 & L5).
  cbn zeta in L2, L3, L4, L5.
  cbn [Embedded.noRows Embedded.summaryData Embedded.grandW Embedded.grandF Embedded.grandP app]
    in L2, L3, L4, L5.
  f_equal. rewrite map_app, L2, map_map. unfold summarySheet, blocks, Embedded.dataset.
  f_equal. cbn [map]. unfold Embedded.totalRow, grandTotalRow.
  rewrite L3, L4, L5. reflexivity.
Qed.







(** The trace a throwing percent leaves: Acme's rows get their
    [2.5% Amount], then the object given for Zed cannot be converted,
    and the request is answered 500. *)
Example embedded_throwing_percent :
  let req := {| g_type := VUndef;
                merchantPercents :=
                  Some (JObj [("Acme", JStr "2.5"); ("Zed", JObj [("toString", JNum 1)])]);
                startDate := Some (JStr "2024-01-01");
                endDate := Some (JStr "2024-01-02") |} in
  snd (Embedded.generate Fixtures.host Fixtures.acmeEmbedded req) =
    fail 500 "Cannot convert object to primitive value" /\
  map (fun row => get row "2.5% Amount")
    (Embedded.dataset (fst (Embedded.generate Fixtures.host Fixtures.acmeEmbedded req))) =
    [VNum 2.5; VNum 5] /\
  snd (Server.generate Fixtures.host Fixtures.acmeState req) =
    fail 500 "Cannot convert object to primitive value" /\
  fst (Server.generate Fixtures.host Fixtures.acmeState req) = Fixtures.acmeState.
Proof. repeat split; vm_compute; reflexivity. Qed.
End EmbeddedHeap.

(** ** The embedded server: what an upload stores and answers *)

Section EmbeddedUpload.
Import ReportSpec Laws.

Lemma insertSorted_perm (h : Host) (x : value) (l : list value) :
  Permutation (Embedded.insertSorted h x l) (x :: l).
Proof.
  induction l as [|y l IH]; cbn; [reflexivity|].
  destruct (str_ltb (ToString h y) (ToString h x)); [|reflexivity].
  rewrite IH. apply perm_swap.
Qed.

Lemma sort_perm (h : Host) (l : list value) : Permutation (Embedded.sort h l) l.
Proof.
  induction l as [|x l IH]; cbn; [reflexivity|].
  rewrite insertSorted_perm. now apply perm_skip.
Qed.

Lemma insertSorted_sorted (h : Host) (x : value) (l : list value) :
  sortedByString h l -> sortedByString h (Embedded.insertSorted h x l).
Proof.
  unfold sortedByString. induction l as [|y l IH]; cbn; intros Hs.
  - repeat constructor.
  - apply Sorted_inv in Hs as [Hs Hhd].
    destruct (str_ltb (ToString h y) (ToString h x)) eqn:E.
    + constructor; [now apply IH|].
      destruct l as [|z l]; cbn.
      * constructor. now apply str_ltb_asym.
      * destruct (str_ltb (ToString h z) (ToString h x)).
        -- constructor. now apply HdRel_inv in Hhd.
        -- constructor. now apply str_ltb_asym.
    + constructor; [now constructor|]. constructor. exact E.
Qed.

Lemma sort_sorted (h : Host) (l : list value) : sortedByString h (Embedded.sort h l).
Proof.
  induction l as [|x l IH]; cbn; [constructor|]. now apply insertSorted_sorted.
Qed.

(** The references to freshly allocated rows read back the rows. *)
Lemma deref_fresh (hp rows : list obj) :
  map (Embedded.deref (hp ++ rows)) (seq (length hp) (length rows)) = rows.
Proof.
  revert hp. induction rows as [|row rows IH]; intros hp; [reflexivity|].
  cbn [length seq map]. f_equal.
  - unfold Embedded.deref. rewrite lookup_app_r by reflexivity.
    now rewrite Nat.sub_diag.
  - specialize (IH (hp ++ [row])%list).
    rewrite <- app_assoc, length_app in IH. cbn in IH.
    now rewrite Nat.add_1_r in IH.
Qed.

(** What a 200 of the embedded [POST /upload] tells. *)
Lemma embedded_upload_ok_inv (h : Host) (st : Embedded.State) (req : UploadReq) :
  status (snd (Embedded.upload h st req)) = 200 ->
  exists file raw rows,
    u_file req = Some file /\ rawData file = Normal raw /\ raw <> [] /\
    (forall col, In col Embedded.requiredColumns ->
                 hasOwnProperty (hd [] raw) col = true) /\
    Embedded.hasDateColumn (hd [] raw) = true /\
    mapC (Embedded.processRow h) raw = Normal rows /\
    Embedded.upload h st req =
    ({| Embedded.heap := Embedded.heap st ++ rows;
        Embedded.globalData := seq (length (Embedded.heap st)) (length rows);
        Embedded.outputDir := Embedded.outputDir st |},
     {| status := 200;
        json := Uploaded (Embedded.sort h (Server.merchantsOf rows))
                  (Some (Z.of_nat (length rows))) |}).
Proof.
  unfold Embedded.upload.
  destruct (u_file req) as [file|] eqn:Hfile; [|discriminate].
  destruct (rawData file) as [[|firstRow rest]|e] eqn:Hraw; try discriminate.
  destruct (negb (Nat.eqb (length (Embedded.missingColumns firstRow)) 0) ||
            negb (Embedded.hasDateColumn firstRow)) eqn:Hcheck; [discriminate|].
  destruct (mapC (Embedded.processRow h) (firstRow :: rest)) as [rows|e] eqn:Hmap;
    [|discriminate].
  intros _. exists file, (firstRow :: rest), rows.
  apply orb_false_iff in Hcheck as [Hmiss Hdate].
  apply negb_false_iff in Hmiss, Hdate. apply Nat.eqb_eq in Hmiss.
  split; [reflexivity|]. split; [exact Hraw|]. split; [discriminate|].
  split; [|split; [exact Hdate|split; [exact Hmap|reflexivity]]].
  intros col Hcol. cbn [hd].
  destruct (hasOwnProperty firstRow col) eqn:E; [reflexivity|].
  assert (Hin : In col (Embedded.missingColumns firstRow)).
  { unfold Embedded.missingColumns. apply filter_In. split; [exact Hcol|]. now rewrite E. }
  destruct (Embedded.missingColumns firstRow); [destruct Hin|discriminate].
Qed.

(** X23: an upload the embedded server answers 200 replaces the dataset
    by the processed rows of the sheet, whose first row has the three
    required columns and a date column; the count answered is the
    number of rows of the sheet, and the merchants answered are the
    distinct truthy [Merchant Name] cells of the dataset in the order of
    the default [sort]. *)
Theorem embedded_upload_replaces_dataset (h : Host) (st : Embedded.State) (req : UploadReq) :
  status (snd (Embedded.upload h st req)) = 200 ->
  exists file raw merchants,
    u_file req = Some file /\ rawData file = Normal raw /\
    (forall col, In col ["Merchant Name"; "Withdrawal Amount"; "Withdrawal Fees"] ->
                 hasOwnProperty (hd [] raw) col = true) /\
    Embedded.hasDateColumn (hd [] raw) = true /\
    json (snd (Embedded.upload h st req)) =
      Uploaded merchants (Some (Z.of_nat (length raw))) /\
    mapC (Embedded.processRow h) raw =
      Normal (Embedded.dataset (fst (Embedded.upload h st req))) /\
    sortedByString h merchants /\
    Permutation merchants
      (Server.merchantsOf (Embedded.dataset (fst (Embedded.upload h st req)))).
Proof.
  intros Hok.
  destruct (embedded_upload_ok_inv h st req Hok)
    as (file & raw & rows & Hf & Hraw & _ & Hcols & Hdate & Hmap & ->).
  exists file, raw, (Embedded.sort h (Server.merchantsOf rows)).
  cbn [fst snd json]. unfold Embedded.dataset. cbn [Embedded.heap Embedded.globalData].
  rewrite deref_fresh, (mapC_length _ _ _ Hmap).
  repeat split; try assumption.
  - apply sort_sorted.
  - apply sort_perm.
Qed.
End EmbeddedUpload.

(** ** The laws at concrete inputs *)

Lemma upload_stores_sheet_witness :
  exists file raw stored,
    u_file (Fixtures.uploadOf VUndef Fixtures.acmeSheet) = Some file /\
    rawData file = Normal raw /\
    Server.globalDataMap
      (fst (Server.upload Fixtures.host Server.initial
              (Fixtures.uploadOf VUndef Fixtures.acmeSheet)))
      !! Server.panelOf (u_type (Fixtures.uploadOf VUndef Fixtures.acmeSheet)) = Some stored /\
    Forall2 (fun row row' =>
               (forall k, k <> "DateOnly" -> get row' k = get row k) /\
               exists d, Server.extractDateOnly Fixtures.host (Laws.dateCell row) = Normal d /\
                         get row' "DateOnly" = VStr d) raw stored.
Proof.
  apply (upload_stores_sheet Fixtures.host Server.initial
           (Fixtures.uploadOf VUndef Fixtures.acmeSheet)).
  vm_compute. reflexivity.
Defined.

Lemma upload_failure_effects_witness :
  Server.outputDir (fst (Server.upload Fixtures.host Fixtures.acmeState Laws.noFile)) =
    Server.outputDir Fixtures.acmeState /\
  Server.uploadedFiles (fst (Server.upload Fixtures.host Fixtures.acmeState Laws.noFile)) =
    Server.uploadedFiles Fixtures.acmeState /\
  Server.reports (fst (Server.upload Fixtures.host Fixtures.acmeState Laws.noFile)) =
    Server.reports Fixtures.acmeState /\
  (status (snd (Server.upload Fixtures.host Fixtures.acmeState Laws.noFile)) = 400 ->
   fst (Server.upload Fixtures.host Fixtures.acmeState Laws.noFile) = Fixtures.acmeState) /\
  (dbError Fixtures.host = None ->
   fst (Server.upload Fixtures.host Fixtures.acmeState Laws.noFile) = Fixtures.acmeState).
Proof.
  apply (upload_failure_effects Fixtures.host Fixtures.acmeState Laws.noFile).
  vm_compute. discriminate.
Defined.

Lemma upload_db_failure_keeps_rows_witness :
  snd (Server.upload Laws.downHost Server.initial (Fixtures.uploadOf VUndef Fixtures.acmeSheet)) =
    fail 500 (or_default "connection refused" "Upload failed") /\
  Server.globalDataMap
    (fst (Server.upload Laws.downHost Server.initial
            (Fixtures.uploadOf VUndef Fixtures.acmeSheet)))
    !! Server.panelOf (u_type (Fixtures.uploadOf VUndef Fixtures.acmeSheet)) =
    Some Fixtures.acmeData /\
  Server.uploadedFiles
    (fst (Server.upload Laws.downHost Server.initial
            (Fixtures.uploadOf VUndef Fixtures.acmeSheet))) =
    Server.uploadedFiles Server.initial.
Proof.
  apply (upload_db_failure_keeps_rows Laws.downHost Server.initial
           (Fixtures.uploadOf VUndef Fixtures.acmeSheet)
           {| originalname := "book.xlsx"; path := "uploads/panel-1-input.xlsx";
              rawData := Normal Fixtures.acmeSheet |}
           Fixtures.acmeSheet Fixtures.acmeData "connection refused").
  - reflexivity.
  - reflexivity.
  - discriminate.
  - vm_compute. reflexivity.
  - reflexivity.
Defined.

Lemma upload_lists_merchants_witness :
  exists merchants stored,
    json (snd (Server.upload Fixtures.host Server.initial
                 (Fixtures.uploadOf VUndef Fixtures.acmeSheet))) = Uploaded merchants None /\
    Server.globalDataMap
      (fst (Server.upload Fixtures.host Server.initial
              (Fixtures.uploadOf VUndef Fixtures.acmeSheet)))
      !! Server.panelOf (u_type (Fixtures.uploadOf VUndef Fixtures.acmeSheet)) = Some stored /\
    (forall v, In v merchants ->
       truthy v = true /\ exists row, In row stored /\ get row "Merchant Name" = v) /\
    (forall row s, In row stored -> get row "Merchant Name" = VStr s -> s <> "" ->
       In (VStr s) merchants) /\
    Laws.distinctValues merchants.
Proof.
  apply (upload_lists_merchants Fixtures.host Server.initial
           (Fixtures.uploadOf VUndef Fixtures.acmeSheet)).
  vm_compute. reflexivity.
Defined.

Lemma generate_download_resolves_witness :
  exists filename detail summary doc,
    json (snd (Server.generate Fixtures.host Fixtures.acmeState Fixtures.acmeRequest)) =
      Generated summary ("/output/" ++ filename) None /\
    Server.outputDir (fst (Server.generate Fixtures.host Fixtures.acmeState Fixtures.acmeRequest))
      !! filename = Some [("Detailed Data", detail); ("Summary", summary)] /\
    Server.reports (fst (Server.generate Fixtures.host Fixtures.acmeState Fixtures.acmeRequest)) =
      (Server.reports Fixtures.acmeState ++ [doc])%list /\
    Server.r_summary doc = summary /\
    Server.r_downloadUrl doc = "/output/" ++ filename /\
    Server.r_panelId doc = Server.panelOf (g_type Fixtures.acmeRequest) /\
    Server.r_merchantPercents doc = merchantPercents Fixtures.acmeRequest.
Proof.
  apply (generate_download_resolves Fixtures.host Fixtures.acmeState Fixtures.acmeRequest).
  vm_compute. reflexivity.
Defined.

Lemma generate_db_failure_keeps_file_witness :
  let bs := ReportSpec.blocks Fixtures.acmeData "2024-01-01" "2024-01-02"
              [("Acme", 2.5%float)] in
  let filename :=
    "report-panel-" ++ Server.panelOf (g_type Fixtures.acmeRequest) ++ "-" ++
    dec_of_Z (now Laws.downHost) ++ ".xlsx" in
  snd (Server.generate Laws.downHost Fixtures.acmeState Fixtures.acmeRequest) =
    fail 500 (or_default "connection refused" "Failed to generate summary") /\
  Server.outputDir (fst (Server.generate Laws.downHost Fixtures.acmeState Fixtures.acmeRequest))
    !! filename =
    Some [("Detailed Data", ReportSpec.detailSheet bs);
          ("Summary", ReportSpec.summarySheet bs)] /\
  Server.reports (fst (Server.generate Laws.downHost Fixtures.acmeState Fixtures.acmeRequest)) =
    Server.reports Fixtures.acmeState.
Proof.
  apply (generate_db_failure_keeps_file Laws.downHost Fixtures.acmeState Fixtures.acmeRequest
           Fixtures.acmeData "2024-01-01" "2024-01-02" "connection refused"
           [("Acme", 2.5%float)]).
  - vm_compute. reflexivity.
  - discriminate.
  - vm_compute. reflexivity.
  - vm_compute. reflexivity.
  - vm_compute. reflexivity.
  - reflexivity.
Defined.

Lemma generate_failure_effects_witness :
  Server.reports (fst (Server.generate Fixtures.host Server.initial Fixtures.acmeRequest)) =
    Server.reports Server.initial /\
  Server.uploadedFiles (fst (Server.generate Fixtures.host Server.initial Fixtures.acmeRequest)) =
    Server.uploadedFiles Server.initial /\
  (status (snd (Server.generate Fixtures.host Server.initial Fixtures.acmeRequest)) = 400 ->
   fst (Server.generate Fixtures.host Server.initial Fixtures.acmeRequest) = Server.initial) /\
  (dbError Fixtures.host = None ->
   fst (Server.generate Fixtures.host Server.initial Fixtures.acmeRequest) = Server.initial).
Proof.
  apply (generate_failure_effects Fixtures.host Server.initial Fixtures.acmeRequest).
  vm_compute. discriminate.
Defined.

Lemma summary_lists_included_merchants_witness :
  exists summary url,
    json (snd (Server.generate Fixtures.host Fixtures.acmeState Fixtures.acmeRequest)) =
      Generated summary url None /\
    map (fun row => get row "Merchant") summary =
    (map (fun entry => VStr (fst entry))
       (List.filter (Laws.included Fixtures.acmeData "2024-01-01" "2024-01-02")
          [("Acme", 2.5%float)]) ++ [VStr "TOTAL"])%list.
Proof.
  apply (summary_lists_included_merchants Fixtures.host Fixtures.acmeState Fixtures.acmeRequest
           Fixtures.acmeData "2024-01-01" "2024-01-02" [("Acme", 2.5%float)]).
  - vm_compute. reflexivity.
  - discriminate.
  - vm_compute. reflexivity.
  - vm_compute. reflexivity.
  - vm_compute. reflexivity.
  - reflexivity.
Defined.

Lemma report_ignores_other_panel_witness :
  snd (Server.generate Fixtures.host
         (fst (Server.upload Fixtures.host Fixtures.acmeState Laws.withdrawalUpload))
         Fixtures.acmeRequest) =
  snd (Server.generate Fixtures.host Fixtures.acmeState Fixtures.acmeRequest).
Proof.
  apply (report_ignores_other_panel Fixtures.host Fixtures.acmeState Laws.withdrawalUpload
           Fixtures.acmeRequest).
  vm_compute. discriminate.
Defined.


Lemma day_month_year_is_reordered_witness :
  Server.extractDateOnly Fixtures.host (VStr (Laws.dmyText 2024 2 29 ++ " 10:30:00")) =
    Normal (Laws.ymdText 2024 2 29) /\
  Embedded.extractDateOnly Fixtures.host (VStr (Laws.dmyText 2024 2 29 ++ " 10:30:00")) =
    Normal (Laws.ymdText 2024 2 29).
Proof.
  apply (day_month_year_is_reordered Fixtures.host 2024 2 29 " 10:30:00").
  - unfold Laws.validDate. vm_compute. repeat split; easy.
  - right. exists "10:30:00". reflexivity.
Defined.

Lemma embedded_summary_is_the_report_witness :
  exists normalizedStart normalizedEnd percents url,
    normalizeDate Fixtures.host (startDate Fixtures.acmeRequest) = Normal normalizedStart /\
    normalizeDate Fixtures.host (endDate Fixtures.acmeRequest) = Normal normalizedEnd /\
    readPercents (merchantPercents Fixtures.acmeRequest) = Normal percents /\
    json (snd (Embedded.generate Fixtures.host Fixtures.acmeEmbedded Fixtures.acmeRequest)) =
    Generated
      (ReportSpec.summarySheet
         (ReportSpec.blocks (Embedded.dataset Fixtures.acmeEmbedded) normalizedStart
            normalizedEnd percents))
      url (Some (normalizedStart ++ " to " ++ normalizedEnd)).
Proof.
  apply (embedded_summary_is_the_report Fixtures.host Fixtures.acmeEmbedded Fixtures.acmeRequest).
  vm_compute. reflexivity.
Defined.

Lemma embedded_upload_replaces_dataset_witness :
  exists file raw merchants,
    u_file (Fixtures.uploadOf VUndef Fixtures.acmeSheet) = Some file /\
    rawData file = Normal raw /\
    (forall col, In col ["Merchant Name"; "Withdrawal Amount"; "Withdrawal Fees"] ->
                 hasOwnProperty (hd [] raw) col = true) /\
    Embedded.hasDateColumn (hd [] raw) = true /\
    json (snd (Embedded.upload Fixtures.host Fixtures.acmeEmbedded
                 (Fixtures.uploadOf VUndef Fixtures.acmeSheet))) =
      Uploaded merchants (Some (Z.of_nat (length raw))) /\
    mapC (Embedded.processRow Fixtures.host) raw =
      Normal (Embedded.dataset
                (fst (Embedded.upload Fixtures.host Fixtures.acmeEmbedded
                        (Fixtures.uploadOf VUndef Fixtures.acmeSheet)))) /\
    Laws.sortedByString Fixtures.host merchants /\
    Permutation merchants
      (Server.merchantsOf
         (Embedded.dataset
            (fst (Embedded.upload Fixtures.host Fixtures.acmeEmbedded
                    (Fixtures.uploadOf VUndef Fixtures.acmeSheet))))).
Proof.
  apply (embedded_upload_replaces_dataset Fixtures.host Fixtures.acmeEmbedded
           (Fixtures.uploadOf VUndef Fixtures.acmeSheet)).
  vm_compute. reflexivity.
Defined.

(** ** The runtime beyond ASCII *)

(** [parseFloat] skips a no-break space as it skips a space: the percent
    is read as 2.5 and the report is the one of the Acme request. *)
Example no_break_space_is_skipped :
  parseFloat (VStr (Laws.noBreakSpace ++ " 12.5kg")) = 12.5%float /\
  readPercents (merchantPercents Laws.paddedRequest) = Normal [("Acme", 2.5%float)] /\
  json (snd (Server.generate Fixtures.host Fixtures.acmeState Laws.paddedRequest)) =
  json (snd (Server.generate Fixtures.host Fixtures.acmeState Fixtures.acmeRequest)).
Proof. repeat split; vm_compute; reflexivity. Qed.

(** Strings compare by UTF-16 code units: the emoji, whose first code
    unit is a surrogate, is before the fullwidth letter although its
    code point is beyond, and the default [sort] puts it first. *)
Example sort_compares_code_units :
  str_ltb Laws.grinningFace Laws.fullwidthA = true /\
  str_ltb Laws.fullwidthA Laws.grinningFace = false /\
  str_ltb "Z" Laws.grinningFace = true /\
  Embedded.sort Fixtures.host
    [VStr Laws.fullwidthA; VStr "b"; VStr Laws.grinningFace; VStr "B"] =
    [VStr "B"; VStr "b"; VStr Laws.grinningFace; VStr Laws.fullwidthA].
Proof. repeat split; vm_compute; reflexivity. Qed.

(** [for ... in] visits the array indices of [merchantPercents] first,
    in ascending order, then the other names in the order of the text; a
    name given twice keeps its place and takes the later percent. *)
Example merchants_in_enumeration_order :
  readPercents
    (Some (JObj [("Zed", JNum 1); ("10", JStr "2"); ("Acme", JNum 3); ("2", JNum 4);
                 ("Zed", JStr "5%"); ("007", JNull)])) =
  Normal [("2", 4%float); ("10", 2%float); ("Zed", 5%float); ("Acme", 3%float);
          ("007", NaN)].
Proof. vm_compute. reflexivity. Qed.
